(** * CMX-Stats: the season pipeline of [src/build.py]

    A shallow embedding of the data pipeline of [build.py]: the loader
    ([load_data]), the season aggregator ([calculate_stats]) and the parts of
    [render_pages] that compute data (chart series and leaderboard), with
    [main] sequencing them.  The output directory, the templates and the
    page files are left out: they consume the data computed here and compute
    none.  The slug of a player's name and the search for the player's
    picture are modelled apart from the pages, on ASCII text, together with
    the copies of [slugify] in [debug_slug.py] and [organize_images.py] and
    the destination that [organize_images.py] gives a picture.

    The program is written against the polars data-frame library.  A frame is
    modelled by its column names and its rows; an operation that names a
    column the frame does not have raises [ColumnNotFoundError], and the
    exceptions are modelled in a small error monad.

    The weeks table is read row by row as Python dicts, so its rows are
    records: the fixture index and the two scores are nullable integers, the
    opponent, the result and the side nullable strings.  The players table is
    rewritten column by column, so its rows are finite maps from column names
    to cells; a cell is null, a 64-bit integer, a binary64 float (the
    IEEE-754 values of [SpecFloat]) or a string.

    polars leaves the order of rows with equal sort keys open; the sort used
    here is one such sort, and no statement depends on how it orders them. *)

From Stdlib Require Import ZArith QArith Lia Sorted Permutation Ascii String.
From Stdlib Require Import Floats.SpecFloat.
From stdpp Require Import base option list sorting strings gmap.

Local Open Scope string_scope.
Local Open Scope Z_scope.
Local Open Scope list_scope.

(** ** Exceptions and the error monad *)

Inductive exn : Type :=
| ReadError                               (* pl.read_csv failed on the file *)
| ColumnNotFoundError (col : string)      (* polars: a named column is absent *)
| KeyError (key : string)                 (* Python: a dict has no such key *)
| InvalidOperationError                   (* polars: arithmetic on a text column *)
| ValueError.                             (* Python: int() or float() of a text
                                             that is not a number *)

Inductive result (A : Type) : Type :=
| Ok (a : A)
| Raise (e : exn).
Arguments Ok {A} a.
Arguments Raise {A} e.

#[global] Instance result_ret : MRet result := fun A a => Ok a.
#[global] Instance result_bind : MBind result :=
  fun A B f m => match m with Ok a => f a | Raise e => Raise e end.

Definition is_ok {A} (m : result A) : bool :=
  match m with Ok _ => true | Raise _ => false end.

(** ** Data frames *)

Record DataFrame (R : Type) : Type := mkDF {
  columns : list string;
  rows    : list R
}.
Arguments mkDF {R} columns rows.
Arguments columns {R} d.
Arguments rows {R} d.

(** [pl.DataFrame()]: no column, no row. *)
Definition empty_df {R} : DataFrame R := mkDF [] [].

(** [len(df)] and [df.height]. *)
Definition height {R} (df : DataFrame R) : Z := Z.of_nat (length (rows df)).

Definition has_column {R} (c : string) (df : DataFrame R) : bool :=
  bool_decide (c ∈ columns df).

(** Any expression [pl.col(c)] is resolved against the schema first. *)
Definition require_column {R} (c : string) (df : DataFrame R) : result unit :=
  if has_column c df then Ok tt else Raise (ColumnNotFoundError c).

(** [df.filter(<predicate on pl.col(c)>)]. *)
Definition df_filter {R} (c : string) (p : R -> bool) (df : DataFrame R)
  : result (DataFrame R) :=
  _ ← require_column c df;
  mret (mkDF (columns df) (List.filter p (rows df))).

(** [row[k]] inside a loop over the rows: without row the body never runs,
    else the first key (in the order the body reads them) that the rows do
    not have raises [KeyError]. *)
Definition require_keys {R} (ks : list string) (df : DataFrame R) : result unit :=
  match rows df with
  | [] => Ok tt
  | _ :: _ =>
      foldr (fun k rest => if has_column k df then rest else Raise (KeyError k))
            (Ok tt) ks
  end.

(** ** Match records (one row of the weeks table) *)

Record MatchRecord : Type := mkMatch {
  Jornada           : option Z;        (* 'Jornada' *)
  vs_               : option string;   (* 'vs.' *)
  Resultat          : option string;   (* 'Resultat' *)
  Posicio           : option string;   (* 'Posició' *)
  Marcador_Local    : option Z;        (* 'Marcador Local' *)
  Marcador_Visitant : option Z         (* 'Marcador Visitant' *)
}.

Definition weeks_columns : list string :=
  ["Jornada"; "vs."; "Resultat"; "Posició"; "Marcador Local"; "Marcador Visitant"].

(** The frame polars builds from a weeks table with the expected header. *)
Definition weeks_frame (l : list MatchRecord) : DataFrame MatchRecord :=
  mkDF weeks_columns l.

(** [cell == "literal"] on a nullable string cell: null is never equal. *)
Definition str_is (o : option string) (s : string) : bool :=
  match o with Some t => String.eqb t s | None => false end.

(** ** Season aggregator: [calculate_stats] *)

Record SeasonStats : Type := mkStats {
  total_matches       : Z;
  total_wins          : Z;
  total_draws         : Z;
  total_losses        : Z;
  total_goals_for     : Z;
  total_goals_against : Z
}.

(** Body of the [for row in df_weeks.iter_rows(named=True)] loop of
    [calculate_stats]; the state is [(goals_for, goals_against)]. *)
Definition stats_step (acc : Z * Z) (row : MatchRecord) : Z * Z :=
  let '(goals_for, goals_against) := acc in
  let local_goals := match Marcador_Local row with Some g => g | None => 0 end in
  let visitor_goals := match Marcador_Visitant row with Some g => g | None => 0 end in
  if str_is (Posicio row) "Local" then
    (goals_for + local_goals, goals_against + visitor_goals)
  else if str_is (Posicio row) "Visitant" then
    (goals_for + visitor_goals, goals_against + local_goals)
  else (goals_for, goals_against).

(** [df[c].sum()] on a score column.  polars types a column by its cells:
    a score column in which no cell holds an integer (the table has no row,
    or every cell of the column is empty) is read as a String column, and
    the sum of a String column raises; else the sum skips the nulls.  The
    type is taken here from the rows the frame has. *)
Definition has_number (cell_of : MatchRecord -> option Z)
    (df : DataFrame MatchRecord) : bool :=
  existsb (fun r => bool_decide (is_Some (cell_of r))) (rows df).

Definition column_sum (c : string) (cell_of : MatchRecord -> option Z)
    (df : DataFrame MatchRecord) : result Z :=
  _ ← require_column c df;
  if has_number cell_of df
  then mret (fold_left (fun acc r => acc + default 0 (cell_of r)) (rows df) 0)
  else Raise InvalidOperationError.

Definition calculate_stats (df_weeks : DataFrame MatchRecord) : result SeasonStats :=
  let total_matches := height df_weeks in
  w ← df_filter "Resultat" (fun r => str_is (Resultat r) "Victòria") df_weeks;
  let wins := height w in
  d ← df_filter "Resultat" (fun r => str_is (Resultat r) "Empat") df_weeks;
  let draws := height d in
  l ← df_filter "Resultat" (fun r => str_is (Resultat r) "Derrota") df_weeks;
  let losses := height l in
  (* total_goals_for: the two sums are computed, their value is not used *)
  sum_local ← column_sum "Marcador Local" Marcador_Local df_weeks;
  sum_visitor ← column_sum "Marcador Visitant" Marcador_Visitant df_weeks;
  let total_goals_for := sum_local + sum_visitor in
  _ ← require_keys ["Marcador Local"; "Marcador Visitant"; "Posició"] df_weeks;
  let '(goals_for, goals_against) := fold_left stats_step (rows df_weeks) (0, 0) in
  mret (mkStats total_matches wins draws losses goals_for goals_against).

(** ** Cumulative series: the chart part of [render_pages] *)

(** [df.sort("Jornada")]: ascending, nulls first. *)
Definition key_leb (a b : option Z) : bool :=
  match a, b with
  | None, _ => true
  | Some _, None => false
  | Some x, Some y => Z.leb x y
  end.

Definition jornada_le (a b : MatchRecord) : Prop :=
  key_leb (Jornada a) (Jornada b) = true.

#[global] Instance jornada_le_dec : RelDecision jornada_le :=
  fun a b => decide (key_leb (Jornada a) (Jornada b) = true).

Definition sort_by_jornada (df : DataFrame MatchRecord)
  : result (DataFrame MatchRecord) :=
  _ ← require_column "Jornada" df;
  mret (mkDF (columns df) (merge_sort jornada_le (rows df))).

Record ChartData : Type := mkChart {
  labels        : list (option string);
  points        : list Z;
  goals_for     : list Z;
  goals_against : list Z;
  results       : list (option string)
}.

(** State of the chart loop: the five lists and the three running totals. *)
Record ChartState : Type := mkChartState {
  chart : ChartData;
  running_points : Z;
  running_goals_for : Z;
  running_goals_against : Z
}.

Definition chart_init : ChartState :=
  mkChartState (mkChart [] [] [] [] []) 0 0 0.

(** Body of [for row in df_sorted.iter_rows(named=True)]. *)
Definition chart_step (st : ChartState) (row : MatchRecord) : ChartState :=
  let chart_labels := labels (chart st) ++ [vs_ row] in
  let chart_results := results (chart st) ++ [Resultat row] in
  let points_ :=
    if str_is (Resultat row) "Victòria" then 3
    else if str_is (Resultat row) "Empat" then 1
    else 0 in
  let running_points := running_points st + points_ in
  let chart_points := points (chart st) ++ [running_points] in
  let local_goals := match Marcador_Local row with Some g => g | None => 0 end in
  let visitor_goals := match Marcador_Visitant row with Some g => g | None => 0 end in
  let '(match_gf, match_ga) :=
    if str_is (Posicio row) "Local" then (local_goals, visitor_goals)
    else if str_is (Posicio row) "Visitant" then (visitor_goals, local_goals)
    else (0, 0) in
  let running_goals_for := running_goals_for st + match_gf in
  let running_goals_against := running_goals_against st + match_ga in
  let chart_goals_for := goals_for (chart st) ++ [running_goals_for] in
  let chart_goals_against := goals_against (chart st) ++ [running_goals_against] in
  mkChartState
    (mkChart chart_labels chart_points chart_goals_for chart_goals_against chart_results)
    running_points running_goals_for running_goals_against.

Definition chart_data (df_weeks : DataFrame MatchRecord) : result ChartData :=
  df_sorted ← sort_by_jornada df_weeks;
  _ ← require_keys ["vs."; "Resultat"; "Marcador Local"; "Marcador Visitant"; "Posició"]
        df_sorted;
  mret (chart (fold_left chart_step (rows df_sorted) chart_init)).

(** ** Cells of the players table *)

(** A cell as polars holds it: null, a 64-bit integer, a binary64 float or a
    string. *)
Inductive scalar : Type :=
| VNull
| VInt (z : Z)
| VFloat (f : spec_float)
| VStr (s : string).

#[global] Instance scalar_inhabited : Inhabited scalar := populate VNull.

#[global] Instance spec_float_eq_dec : EqDecision spec_float.
Proof. solve_decision. Defined.

#[global] Instance scalar_eq_dec : EqDecision scalar.
Proof. solve_decision. Defined.

Definition is_not_null (v : scalar) : bool :=
  match v with VNull => false | _ => true end.

(** A named row ([iter_rows(named=True)], [to_dicts()]). *)
Abbreviation row := (gmap string scalar).

(** [row[c]]; a column the frame has but the row lacks reads as null. *)
Definition cell (r : row) (c : string) : scalar := default VNull (r !! c).

(** *** binary64 *)

Definition prec64 : Z := 53.
Definition emax64 : Z := 1024.

Definition f64_zero : spec_float := S754_zero false.
Definition f64_of_Z (z : Z) : spec_float := binary_normalize prec64 emax64 z 0 false.
Definition f64_div : spec_float -> spec_float -> spec_float := SFdiv prec64 emax64.
Definition f64_mul : spec_float -> spec_float -> spec_float := SFmul prec64 emax64.

(** The double nearest to [m / d] (ties to even), for [m, d > 0]. *)
Definition f64_of_ratio (neg : bool) (m d : Z) : spec_float :=
  let '(q, e, l) := SFdiv_core_binary prec64 emax64 m 0 d 0 in
  binary_round_aux prec64 emax64 neg q e l.

(** The double nearest to [m * 10^e10], for [m >= 0]. *)
Definition f64_of_decimal (neg : bool) (m e10 : Z) : spec_float :=
  if m =? 0 then S754_zero neg
  else if 0 <=? e10 then
    binary_normalize prec64 emax64 ((if neg then - m else m) * 10 ^ e10) 0 false
  else f64_of_ratio neg m (10 ^ (- e10)).

Definition is_nan (f : spec_float) : bool :=
  match f with S754_nan => true | _ => false end.

(** Truncation toward zero of a finite double; [None] on NaN and infinities. *)
Definition f64_trunc (f : spec_float) : option Z :=
  match f with
  | S754_zero _ => Some 0
  | S754_finite s m e =>
      let a := Z.shiftl (Z.pos m) e in
      Some (if s then - a else a)
  | _ => None
  end.

(** To the nearest integer, ties to the even one (the rounding mode of
    [round] by default; no statement below depends on how ties go). *)
Definition f64_round_int (f : spec_float) : spec_float :=
  match f with
  | S754_finite s m e =>
      if 0 <=? e then f
      else
        let a := Z.shiftl (Z.pos m) e in
        let rest := Z.pos m - Z.shiftl a (- e) in
        let half := Z.shiftl 1 (- e - 1) in
        let a' :=
          match rest ?= half with
          | Lt => a
          | Eq => if Z.even a then a else a + 1
          | Gt => a + 1
          end in
        match a' with
        | Z0 => S754_zero s
        | _ => binary_normalize prec64 emax64 (if s then - a' else a') 0 false
        end
  | _ => f
  end.

(** [Series.round(2)]: scale by 100, round, scale back; a value whose
    hundredfold is not finite is left as it is. *)
Definition f64_round2 (f : spec_float) : spec_float :=
  let scaled := f64_mul f (f64_of_Z 100) in
  match scaled with
  | S754_zero _ | S754_finite _ _ _ =>
      f64_div (f64_round_int scaled) (f64_of_Z 100)
  | _ => f
  end.

(** *** Reading numbers from text *)

Definition int64_min : Z := - 2 ^ 63.
Definition int64_max : Z := 2 ^ 63 - 1.
Definition in_int64 (z : Z) : bool := (int64_min <=? z) && (z <=? int64_max).

Definition digit_of (c : ascii) : option Z :=
  let n := Z.of_N (N_of_ascii c) in
  if (48 <=? n) && (n <=? 57) then Some (n - 48) else None.

(** Longest prefix of digits: the number read (on top of [acc]), how many
    digits were read, and the rest of the text. *)
Fixpoint take_digits (s : string) (acc : Z) (n : Z) : Z * Z * string :=
  match s with
  | String c s' =>
      match digit_of c with
      | Some d => take_digits s' (10 * acc + d) (n + 1)
      | None => (acc, n, s)
      end
  | EmptyString => (acc, n, s)
  end.

(** An optional sign. *)
Definition take_sign (s : string) : bool * string :=
  match s with
  | String "-"%char s' => (true, s')
  | String "+"%char s' => (false, s')
  | _ => (false, s)
  end.

(** A whole text as a signed integer: sign, then one digit or more. *)
Definition parse_integer (s : string) : option Z :=
  let '(neg, body) := take_sign s in
  match take_digits body 0 0 with
  | (v, n, EmptyString) => if 0 <? n then Some (if neg then - v else v) else None
  | _ => None
  end.

Definition lower_ascii (c : ascii) : ascii :=
  let n := N_of_ascii c in
  if ((65 <=? n) && (n <=? 90))%N then ascii_of_N (n + 32) else c.

Fixpoint lower (s : string) : string :=
  match s with
  | EmptyString => EmptyString
  | String c s' => String (lower_ascii c) (lower s')
  end.

(** A whole text as a double: sign, then [inf], [infinity], [nan] (in any
    case) or digits with an optional fraction and an optional exponent. *)
Definition parse_float (s : string) : option spec_float :=
  let '(neg, body) := take_sign s in
  let lb := lower body in
  if String.eqb lb "inf" || String.eqb lb "infinity" then Some (S754_infinity neg)
  else if String.eqb lb "nan" then Some S754_nan
  else
    let '(i, ni, r1) := take_digits body 0 0 in
    let '(m, nf, r2) :=
      match r1 with
      | String "."%char r => take_digits r i 0
      | _ => (i, 0, r1)
      end in
    if ni + nf =? 0 then None
    else
      match r2 with
      | EmptyString => Some (f64_of_decimal neg m (- nf))
      | String c r3 =>
          if Ascii.eqb c "e" || Ascii.eqb c "E" then
            match parse_integer r3 with
            | Some e => Some (f64_of_decimal neg m (e - nf))
            | None => None
            end
          else None
      end.

(** *** Column expressions, cell by cell *)

(** [.cast(pl.Int64, strict=False)]: what cannot be represented is null. *)
Definition cast_int64 (v : scalar) : scalar :=
  match v with
  | VNull => VNull
  | VInt z => VInt z
  | VFloat f =>
      match f64_trunc f with
      | Some z => if in_int64 z then VInt z else VNull
      | None => VNull
      end
  | VStr s =>
      match parse_integer s with
      | Some z => if in_int64 z then VInt z else VNull
      | None => VNull
      end
  end.

(** [.cast(pl.Float64, strict=False)]. *)
Definition cast_float64 (v : scalar) : scalar :=
  match v with
  | VNull => VNull
  | VInt z => VFloat (f64_of_Z z)
  | VFloat f => VFloat f
  | VStr s =>
      match parse_float s with
      | Some f => VFloat f
      | None => VNull
      end
  end.

(** [.str.replace(",", ".")]: the first comma only. *)
Fixpoint replace_comma (s : string) : string :=
  match s with
  | EmptyString => EmptyString
  | String c s' =>
      if Ascii.eqb c "," then String "."%char s' else String c (replace_comma s')
  end.

(** [.cast(pl.String).str.replace(",", ".").cast(pl.Float64, strict=False)].
    On a numeric cell the text round trip changes nothing: polars prints a
    number as a text without comma that reads back as the same number. *)
Definition comma_float (v : scalar) : scalar :=
  match v with
  | VStr s => cast_float64 (VStr (replace_comma s))
  | _ => cast_float64 v
  end.

(** [.fill_null(lit)]. *)
Definition fill_null (lit v : scalar) : scalar :=
  match v with VNull => lit | _ => v end.

(** [.fill_nan(0)]: NaN only; null and the infinities stay. *)
Definition fill_nan_0 (v : scalar) : scalar :=
  match v with
  | VFloat f => if is_nan f then VFloat f64_zero else v
  | _ => v
  end.

Definition to_f64 (v : scalar) : option spec_float :=
  match v with
  | VInt z => Some (f64_of_Z z)
  | VFloat f => Some f
  | _ => None
  end.

(** [a / b] on numeric columns: true division in binary64, null if either
    side is null (a text column is refused before, see [add_grogues_ratio]). *)
Definition truediv (a b : scalar) : scalar :=
  match to_f64 a, to_f64 b with
  | Some x, Some y => VFloat (f64_div x y)
  | _, _ => VNull
  end.

(** [(pl.col("Grogues") / pl.col("Partits")).fill_nan(0)] on one row. *)
Definition grogues_ratio (grogues partits : scalar) : scalar :=
  fill_nan_0 (truediv grogues partits).

(** ** The loader: [load_data] *)

(** What the two row types need from the reader and from [round_df]. *)
Class CsvRow (R : Type) : Type := {
  nullify   : list string -> R -> R;   (* cells equal to a null token become null *)
  round_row : R -> R                   (* Float64 cells rounded to 2 decimals *)
}.

Definition null_token (null_values : list string) (v : scalar) : scalar :=
  match v with
  | VStr s => if bool_decide (s ∈ null_values) then VNull else v
  | _ => v
  end.

Definition round_cell (v : scalar) : scalar :=
  match v with VFloat f => VFloat (f64_round2 f) | _ => v end.

#[global] Instance row_csv : CsvRow row := {|
  nullify nv r := null_token nv <$> r;
  round_row r := round_cell <$> r
|}.

Definition null_text (null_values : list string) (o : option string) : option string :=
  match o with
  | Some s => if bool_decide (s ∈ null_values) then None else o
  | None => None
  end.

(** A match record has no Float64 field. *)
#[global] Instance match_csv : CsvRow MatchRecord := {|
  nullify nv r :=
    mkMatch (Jornada r) (null_text nv (vs_ r)) (null_text nv (Resultat r))
            (null_text nv (Posicio r)) (Marcador_Local r) (Marcador_Visitant r);
  round_row r := r
|}.

(** [pl.read_csv(path, null_values=...)].  The file is [None] when it cannot
    be read as a table (missing, wrong encoding), else the table of its
    cells. *)
Definition read_csv {R} `{CsvRow R} (file : option (DataFrame R))
    (null_values : list string) : result (DataFrame R) :=
  match file with
  | None => Raise ReadError
  | Some t => Ok (mkDF (columns t) (map (nullify null_values) (rows t)))
  end.

(** [df.with_columns(<expression>.alias(c))]: the column [c] is replaced, or
    added when the frame does not have it. *)
Definition with_column (c : string) (e : row -> scalar) (df : DataFrame row)
  : DataFrame row :=
  mkDF (if has_column c df then columns df else columns df ++ [c])
       (map (fun r => <[c := e r]> r) (rows df)).

Definition numeric_cols_int : list string :=
  ["Partits"; "Gols"; "Assistències"; "Grogues"; "Vermelles"; "Expulsions";
   "Normal"; "Segon Pal"; "Penalti"; "D. Penalti"; "Tir Lliure (falta)"].

Definition numeric_cols_float : list string :=
  ["Win Rate"; "Loss Rate"; "Draw Rate"; "Gols x partit";
   "Partits per gol"; "Assitències x partit"; "Grogues_Ratio";
   "Minuts sense gols (porter)"; "Gols x partit en contra";
   "Gols x minut en contra"].

(** One turn of [for col in cols: if col in df.columns: df = df.with_columns(...)]. *)
Definition cast_if_present (f : scalar -> scalar) (df : DataFrame row) (col : string)
  : DataFrame row :=
  if has_column col df then with_column col (fun r => f (cell r col)) df else df.

Definition minuts : string := "Minuts sense gols (porter)".

(** The [try] block on the players table. *)
Definition try_load_players (file : option (DataFrame row)) : result (DataFrame row) :=
  df_players ← read_csv file ["#DIV/0!"];
  df_players ← df_filter "Jugador" (fun r => is_not_null (cell r "Jugador")) df_players;
  let df_players := fold_left (cast_if_present cast_int64) numeric_cols_int df_players in
  let df_players := fold_left (cast_if_present comma_float) numeric_cols_float df_players in
  let df_players :=
    if has_column minuts df_players then
      with_column minuts
        (fun r => cast_int64 (fill_null (VFloat f64_zero) (cell r minuts))) df_players
    else df_players in
  df_filter "Partits" (fun r => is_not_null (cell r "Partits")) df_players.

(** The [try] block on the weeks table. *)
Definition try_load_weeks (file : option (DataFrame MatchRecord))
  : result (DataFrame MatchRecord) :=
  df_weeks ← read_csv file ["#DIV/0!"];
  df_filter "Jornada" (fun r => bool_decide (is_Some (Jornada r))) df_weeks.

(** [except Exception: df = pl.DataFrame()]. *)
Definition or_empty {R} (m : result (DataFrame R)) : DataFrame R :=
  match m with Ok df => df | Raise _ => empty_df end.

Definition round_df {R} `{CsvRow R} (df : DataFrame R) : DataFrame R :=
  mkDF (columns df) (map round_row (rows df)).

Definition load_data (players_file : option (DataFrame row))
    (weeks_file : option (DataFrame MatchRecord))
  : DataFrame row * DataFrame MatchRecord :=
  let df_players := or_empty (try_load_players players_file) in
  let df_weeks := or_empty (try_load_weeks weeks_file) in
  (round_df df_players, round_df df_weeks).

(** ** Slugs and pictures

    [slugify] is written three times: in [render_pages] of [build.py], in
    [debug_slug.py] and in [organize_images.py]; the first also normalises
    the text and drops what is not ASCII.  The model is of ASCII text: a
    string is the list of its characters, all below 128, on which the
    normalisation changes nothing; the classes [\s] and [\w] and the methods
    [lower] and [strip] are those of Python on these characters. *)

Definition is_ascii_char (c : ascii) : bool := (N_of_ascii c <? 128)%N.

Definition is_ascii_text (text : string) : Prop :=
  Forall (fun c => is_ascii_char c = true) (list_ascii_of_string text).

(** [str.isspace] and the class [\s]: tab to carriage return, the four
    separators 28 to 31 and the space. *)
Definition is_space (c : ascii) : bool :=
  let n := N_of_ascii c in
  ((9 <=? n) && (n <=? 13) || (28 <=? n) && (n <=? 32))%N.

Definition is_digit (c : ascii) : bool :=
  let n := N_of_ascii c in ((48 <=? n) && (n <=? 57))%N.

Definition is_upper (c : ascii) : bool :=
  let n := N_of_ascii c in ((65 <=? n) && (n <=? 90))%N.

Definition is_lower (c : ascii) : bool :=
  let n := N_of_ascii c in ((97 <=? n) && (n <=? 122))%N.

Definition is_hyphen (c : ascii) : bool := Ascii.eqb c "-".
Definition is_underscore (c : ascii) : bool := Ascii.eqb c "_".

(** The class [\w]. *)
Definition is_word (c : ascii) : bool :=
  is_digit c || is_upper c || is_lower c || is_underscore c.

(** [str.strip()]. *)
Fixpoint lstrip (l : list ascii) : list ascii :=
  match l with
  | c :: l' => if is_space c then lstrip l' else l
  | [] => []
  end.

Definition strip (l : list ascii) : list ascii := rev (lstrip (rev (lstrip l))).

(** [.encode('ascii', 'ignore')]. *)
Definition encode_ascii_ignore (l : list ascii) : list ascii :=
  List.filter is_ascii_char l.

(** [re.sub(r'[^\w\s-]', '', text)]: the characters of [[\w\s-]] stay. *)
Definition in_word_space_hyphen (c : ascii) : bool :=
  is_word c || is_space c || is_hyphen c.

Definition remove_other (l : list ascii) : list ascii :=
  List.filter in_word_space_hyphen l.

(** [re.sub(r'[\s_-]+', '-', text)]: every maximal run of characters of
    [[\s_-]] becomes one hyphen; [in_run] tells that the run the scan is in
    has its hyphen already. *)
Definition in_space_underscore_hyphen (c : ascii) : bool :=
  is_space c || is_underscore c || is_hyphen c.

Fixpoint hyphenate (in_run : bool) (l : list ascii) : list ascii :=
  match l with
  | [] => []
  | c :: l' =>
      if in_space_underscore_hyphen c then
        if in_run then hyphenate true l' else "-"%char :: hyphenate true l'
      else c :: hyphenate false l'
  end.

(** [slugify] of [build.py]. *)
Definition slugify (text : string) : string :=
  let text := strip (map lower_ascii (list_ascii_of_string text)) in
  let text := encode_ascii_ignore text in
  let text := remove_other text in
  string_of_list_ascii (hyphenate false text).

Module debug_slug.
Definition slugify (text : string) : string :=
  let text := strip (map lower_ascii (list_ascii_of_string text)) in
  let text := remove_other text in
  string_of_list_ascii (hyphenate false text).
End debug_slug.

Module organize_images.
Definition slugify (text : string) : string :=
  let text := strip (map lower_ascii (list_ascii_of_string text)) in
  let text := remove_other text in
  string_of_list_ascii (hyphenate false text).
End organize_images.

(** The characters a slug is made of: lower-case letters, digits, hyphens. *)
Definition slug_char (c : ascii) : bool := is_lower c || is_digit c || is_hyphen c.

(** No two hyphens side by side. *)
Fixpoint hyphens_apart (l : list ascii) : bool :=
  match l with
  | c :: l' =>
      negb (is_hyphen c && match l' with d :: _ => is_hyphen d | [] => false end)
      && hyphens_apart l'
  | [] => true
  end.

(** [f"player_{p_slug}.html"]. *)
Definition player_filename (text : string) : string :=
  "player_" +:+ slugify text +:+ ".html".

(** [os.path.join] of [posixpath]. *)
Definition starts_with_sep (p : string) : bool :=
  match p with String c _ => Ascii.eqb c "/" | EmptyString => false end.

Fixpoint ends_with_sep (p : string) : bool :=
  match p with
  | EmptyString => false
  | String c EmptyString => Ascii.eqb c "/"
  | String _ p' => ends_with_sep p'
  end.

Definition is_empty (p : string) : bool :=
  match p with EmptyString => true | _ => false end.

Definition join_step (path b : string) : string :=
  if starts_with_sep b || is_empty path then b
  else if ends_with_sep path then path +:+ b
  else path +:+ "/" +:+ b.

Definition path_join (a : string) (p : list string) : string :=
  fold_left join_step p a.

Definition ASSETS_DIR : string := "assets".

Definition image_exts : list string := [".png"; ".jpg"; ".jpeg"; ".webp"].

(** The search for the picture of a player in [render_pages]: the first of
    the four extensions under which a file exists gives the path that is
    recorded; [path_exists] is [os.path.exists] at the time of the build. *)
Fixpoint image_search (path_exists : string -> bool) (p_slug : string)
    (exts : list string) : option string :=
  match exts with
  | [] => None
  | ext :: exts' =>
      let potential_path := path_join ASSETS_DIR ["players"; p_slug +:+ ext] in
      if path_exists potential_path
      then Some ("assets/players/" +:+ p_slug +:+ ext)
      else image_search path_exists p_slug exts'
  end.

Definition image_path (path_exists : string -> bool) (p_slug : string)
  : option string :=
  image_search path_exists p_slug image_exts.

(** ** Leaderboard: [get_top_player] and the metrics of [render_pages] *)

(** The order polars sorts a column by: nulls apart, numbers by value with
    -inf below and +inf above the finite ones and NaN above all, texts by
    their characters. *)
Definition f64_to_Q (f : spec_float) : Q :=
  match f with
  | S754_finite s m e =>
      ((if s then inject_Z (Z.neg m) else inject_Z (Z.pos m)) * 2 ^ e)%Q
  | _ => 0%Q
  end.

Definition f64_rank (f : spec_float) : Z :=
  match f with
  | S754_infinity true => 0
  | S754_zero _ | S754_finite _ _ _ => 1
  | S754_infinity false => 2
  | S754_nan => 3
  end.

(** A sort key: class (null, number, text), rank within the numbers, value. *)
Inductive sort_key : Type :=
| KNull
| KNum (rank : Z) (q : Q)
| KStr (s : string).

Definition key_of (v : scalar) : sort_key :=
  match v with
  | VNull => KNull
  | VInt z => KNum 1 (inject_Z z)
  | VFloat f => KNum (f64_rank f) (f64_to_Q f)
  | VStr s => KStr s
  end.

Definition sort_key_leb (a b : sort_key) : bool :=
  match a, b with
  | KNull, _ => true
  | _, KNull => false
  | KNum r1 q1, KNum r2 q2 =>
      (r1 <? r2) || ((r1 =? r2) && (negb (r1 =? 1) || Qle_bool q1 q2))
  | KNum _ _, KStr _ => true
  | KStr _, KNum _ _ => false
  | KStr s, KStr t => String.leb s t
  end.

Definition scalar_leb (a b : scalar) : bool := sort_key_leb (key_of a) (key_of b).

(** [r1] may stand before [r2] in [df.sort(col, descending=True)]. *)
Definition desc_by (col : string) (r1 r2 : row) : Prop :=
  scalar_leb (cell r2 col) (cell r1 col) = true.

#[global] Instance desc_by_dec col : RelDecision (desc_by col) :=
  fun r1 r2 => decide (scalar_leb (cell r2 col) (cell r1 col) = true).

Definition sort_desc (col : string) (df : DataFrame row) : result (DataFrame row) :=
  _ ← require_column col df;
  mret (mkDF (columns df) (merge_sort (desc_by col) (rows df))).

(** [top_row[k]] on the dict of a row. *)
Definition row_get (df : DataFrame row) (r : row) (k : string) : result scalar :=
  if has_column k df then Ok (cell r k) else Raise (KeyError k).

(** A leaderboard entry.  [value] and [suffix] are the two parts of the
    displayed text [f"{value}{suffix}"]; the link ([url]) is looked up in
    the row and not kept in the entry. *)
Record Entry : Type := mkEntry {
  name   : scalar;
  value  : scalar;
  suffix : string;
  label  : string
}.

(** The default of the [suffix] parameter of [get_top_player]: no text. *)
Definition no_suffix : string := EmptyString.

Definition get_top_player (df : DataFrame row) (col label suffix : string)
  : result (option Entry) :=
  valid_df ← df_filter col (fun r => is_not_null (cell r col)) df;
  if height valid_df =? 0 then mret None
  else
    sorted ← sort_desc col valid_df;
    match rows sorted with
    | top_row :: _ =>
        n ← row_get sorted top_row "Jugador";
        v ← row_get sorted top_row col;
        _ ← row_get sorted top_row "url";
        mret (Some (mkEntry n v suffix label))
    | [] => mret None
    end.

(** Metric 6, written out in [render_pages]: the value shown is the rate
    times 100 with the sign %, for a rate that is a number, and the rate as
    it is for any other. *)
Definition top_win_rate (df : DataFrame row) : result (option Entry) :=
  valid_wr ← df_filter "Win Rate" (fun r => is_not_null (cell r "Win Rate")) df;
  if 0 <? height valid_wr then
    sorted ← sort_desc "Win Rate" valid_wr;
    match rows sorted with
    | top_wr_row :: _ =>
        val ← row_get sorted top_wr_row "Win Rate";
        let '(shown, sign) :=
          match val with
          | VInt z => (VInt (z * 100), "%")
          | VFloat f => (VFloat (f64_mul f (f64_of_Z 100)), "%")
          | _ => (val, no_suffix)
          end in
        n ← row_get sorted top_wr_row "Jugador";
        _ ← row_get sorted top_wr_row "url";
        mret (Some (mkEntry n shown sign "Major % Victòria"))
    | [] => mret None
    end
  else mret None.

(** [float(s) > 0] on the text [s] of a value.  Python reads back the text
    of a number as that number, and a comparison with NaN is false. *)
Definition float_positive (v : scalar) : result bool :=
  match v with
  | VInt z => Ok (0 <? z)
  | VFloat f => Ok (SFltb f64_zero f)
  | VStr s =>
      match parse_float s with
      | Some f => Ok (SFltb f64_zero f)
      | None => Raise ValueError
      end
  | VNull => Raise ValueError
  end.

(** [int(s) > 0] on the text [s] of a value: the text of a float is not the
    text of an integer. *)
Definition int_positive (v : scalar) : result bool :=
  match v with
  | VInt z => Ok (0 <? z)
  | VStr s =>
      match parse_integer s with
      | Some z => Ok (0 <? z)
      | None => Raise ValueError
      end
  | _ => Raise ValueError
  end.

(** [if e: leaderboard.append(e)]. *)
Definition append_entry (leaderboard : list Entry) (e : option Entry) : list Entry :=
  match e with Some x => leaderboard ++ [x] | None => leaderboard end.

(** [if e and test(e['value']): leaderboard.append(e)]. *)
Definition append_if (test : scalar -> result bool) (leaderboard : list Entry)
    (e : option Entry) : result (list Entry) :=
  match e with
  | Some x =>
      b ← test (value x);
      mret (if b : bool then leaderboard ++ [x] else leaderboard)
  | None => mret leaderboard
  end.

Definition is_text (v : scalar) : bool :=
  match v with VStr _ => true | _ => false end.

(** [df.with_columns((pl.col("Grogues") / pl.col("Partits")).fill_nan(0)
    .alias("Grogues_Ratio"))]; polars refuses to divide a text column. *)
Definition add_grogues_ratio (df : DataFrame row) : result (DataFrame row) :=
  _ ← require_column "Grogues" df;
  _ ← require_column "Partits" df;
  if existsb (fun r => is_text (cell r "Grogues") || is_text (cell r "Partits"))
       (rows df)
  then Raise InvalidOperationError
  else
    mret (with_column "Grogues_Ratio"
            (fun r => grogues_ratio (cell r "Grogues") (cell r "Partits")) df).

(** [df_players.with_columns(pl.Series("url", urls))]: the link of a player
    is the name of the player's page.  The names are texts at this point of
    [render_pages] (the filter of the goalkeepers has passed); the link of a
    name cell that is not a text is left null. *)
Definition url_of (r : row) : scalar :=
  match cell r "Jugador" with
  | VStr s => VStr (player_filename s)
  | _ => VNull
  end.

Definition with_url (df : DataFrame row) : DataFrame row :=
  with_column "url" url_of df.

(** The leaderboard logic of [render_pages], on the frame with the links. *)
Definition leaderboard_from (df_players : DataFrame row) : result (list Entry) :=
  let leaderboard := [] in
  top_scorer ← get_top_player df_players "Gols" "Màxim Golejador" no_suffix;
  let leaderboard := append_entry leaderboard top_scorer in
  top_scorer_pg ← get_top_player df_players "Gols x partit" "Gols / Partit" no_suffix;
  let leaderboard := append_entry leaderboard top_scorer_pg in
  top_assistant ← get_top_player df_players "Assistències" "Màxim Assistent" no_suffix;
  let leaderboard := append_entry leaderboard top_assistant in
  top_assistant_pg ← get_top_player df_players "Assitències x partit" "Ass. / Partit" no_suffix;
  let leaderboard := append_entry leaderboard top_assistant_pg in
  top_gk ← get_top_player df_players minuts "Millor Porter (Minuts imbatut)" "'";
  let leaderboard := append_entry leaderboard top_gk in
  top_wr ← top_win_rate df_players;
  let leaderboard := append_entry leaderboard top_wr in
  df_players ← add_grogues_ratio df_players;
  top_yellow ← get_top_player df_players "Grogues_Ratio" "Major % Grogues/Partit" no_suffix;
  leaderboard ← append_if float_positive leaderboard top_yellow;
  top_red ← get_top_player df_players "Vermelles" "Més Targetes Vermelles" no_suffix;
  leaderboard ← append_if int_positive leaderboard top_red;
  mret leaderboard.

(** The leaderboard of a players frame: the links are added, then the eight
    selections are made. *)
Definition leaderboard_of (df_players : DataFrame row) : result (list Entry) :=
  leaderboard_from (with_url df_players).

(** ** [render_pages] and [main], up to the data handed to the templates *)

Definition gk_names : list string :=
  ["SANCHEZ LAYA, PAU"; "GISBERT PEREZ, ORIOL"; "RAS JIMENEZ, BLAI"].

Definition is_in (names : list string) (v : scalar) : bool :=
  match v with VStr s => bool_decide (s ∈ names) | _ => false end.

Definition is_number (v : scalar) : bool :=
  match v with VInt _ | VFloat _ => true | _ => false end.

(** [df.filter(pl.col(c).is_in(names))] for a list of texts: polars refuses
    the test on a column of numbers. *)
Definition filter_is_in (c : string) (names : list string) (df : DataFrame row)
  : result (DataFrame row) :=
  _ ← require_column c df;
  if existsb (fun r => is_number (cell r c)) (rows df)
  then Raise InvalidOperationError
  else mret (mkDF (columns df) (List.filter (fun r => is_in names (cell r c)) (rows df))).

(** [weeks_data[-5:][::-1]]. *)
Definition last5_reversed {A} (l : list A) : list A :=
  rev (skipn (length l - 5)%nat l).

(** The data handed to the templates.  [players_data] are the rows of the
    players frame; the three keys that the loop over the players adds to
    each of them ([filename], [url], [image_path]) are left out. *)
Record Pages : Type := mkPages {
  index_stats      : SeasonStats;
  recent_matches   : list MatchRecord;
  leaderboard      : list Entry;
  players_data     : list row;
  goalkeepers_data : list row;
  weeks_data       : list MatchRecord;
  chart_data_      : ChartData
}.

Definition render_pages (df_players : DataFrame row)
    (df_weeks : DataFrame MatchRecord) (stats : SeasonStats) : result Pages :=
  let players_data := rows df_players in
  let weeks_data := rows df_weeks in
  let recent_matches := last5_reversed weeks_data in
  df_goalkeepers ← filter_is_in "Jugador" gk_names df_players;
  let goalkeepers_data := rows df_goalkeepers in
  chart ← chart_data df_weeks;
  leaderboard ← leaderboard_of df_players;
  mret (mkPages stats recent_matches leaderboard players_data goalkeepers_data
          weeks_data chart).

Definition main (players_file : option (DataFrame row))
    (weeks_file : option (DataFrame MatchRecord)) : result Pages :=
  let '(df_players, df_weeks) := load_data players_file weeks_file in
  stats ← calculate_stats df_weeks;
  render_pages df_players df_weeks stats.

(** ** Reference definitions for the series

    The running-total scan of the specification, stated apart from the loop
    of [render_pages]; the theorems below relate the two. *)

(** Point increment per match: win 3, draw 1, loss or anything else 0. *)
Definition match_points (r : MatchRecord) : Z :=
  if str_is (Resultat r) "Victòria" then 3
  else if str_is (Resultat r) "Empat" then 1
  else 0.

Definition score (o : option Z) : Z := default 0 o.

(** Team goals of a match: the home score at home, the away score away,
    nothing for any other side indicator. *)
Definition match_gf (r : MatchRecord) : Z :=
  if str_is (Posicio r) "Local" then score (Marcador_Local r)
  else if str_is (Posicio r) "Visitant" then score (Marcador_Visitant r)
  else 0.

(** Opponent goals of a match. *)
Definition match_ga (r : MatchRecord) : Z :=
  if str_is (Posicio r) "Local" then score (Marcador_Visitant r)
  else if str_is (Posicio r) "Visitant" then score (Marcador_Local r)
  else 0.

Definition zsum (l : list Z) : Z := foldr Z.add 0 l.

(** Running totals of [l] on top of [acc]. *)
Fixpoint running (acc : Z) (l : list Z) : list Z :=
  match l with
  | [] => []
  | x :: l' => (acc + x) :: running (acc + x) l'
  end.

(** Tally of the records whose result indicator is [s]. *)
Definition tally (s : string) (l : list MatchRecord) : Z :=
  Z.of_nat (length (List.filter (fun r => str_is (Resultat r) s) l)).

(** The result indicator is one of the three enumerated values. *)
Definition known_result (r : MatchRecord) : bool :=
  str_is (Resultat r) "Victòria" || str_is (Resultat r) "Empat"
  || str_is (Resultat r) "Derrota".

(** Both scores are absent or not negative. *)
Definition scores_not_negative (r : MatchRecord) : bool :=
  (0 <=? score (Marcador_Local r)) && (0 <=? score (Marcador_Visitant r)).

(** ** Concrete tables used by the examples *)

(** The scenario of the specification: fixture 2 (away win 1-3) listed before
    fixture 1 (home draw 1-1). *)
Definition scenario_weeks : DataFrame MatchRecord :=
  weeks_frame
    [ mkMatch (Some 2) (Some "B") (Some "Victòria") (Some "Visitant") (Some 1) (Some 3);
      mkMatch (Some 1) (Some "A") (Some "Empat") (Some "Local") (Some 1) (Some 1) ].

(** A fixture that is scheduled but not played yet: no result, no score. *)
Definition pending_weeks : DataFrame MatchRecord :=
  weeks_frame
    [ mkMatch (Some 1) (Some "A") (Some "Victòria") (Some "Local") (Some 2) (Some 0);
      mkMatch (Some 2) (Some "B") None (Some "Visitant") None None ].

(** A season in which no match is played yet: one scheduled fixture, no
    result, no score. *)
Definition unplayed_weeks : DataFrame MatchRecord :=
  weeks_frame [ mkMatch (Some 1) (Some "A") None (Some "Local") None None ].

(** A table with a negative score cell. *)
Definition negative_weeks : DataFrame MatchRecord :=
  weeks_frame
    [ mkMatch (Some 1) (Some "A") (Some "Victòria") (Some "Local") (Some 2) (Some 0);
      mkMatch (Some 2) (Some "B") (Some "Derrota") (Some "Local") (Some (-1)) (Some 3) ].

(** ** The loader, row by row

    Every step of the [try] block between the two filters rewrites one
    column and leaves the others; seen from one row it is the following. *)

(** One turn of a cast loop on one row of a frame whose header is [cols]. *)
Definition cast_row (f : scalar -> scalar) (cols : list string) (r : row)
    (col : string) : row :=
  if bool_decide (col ∈ cols) then <[col := f (cell r col)]> r else r.

Definition load_row (cols : list string) (r : row) : row :=
  let r := fold_left (cast_row cast_int64 cols) numeric_cols_int r in
  let r := fold_left (cast_row comma_float cols) numeric_cols_float r in
  if bool_decide (minuts ∈ cols) then
    <[minuts := cast_int64 (fill_null (VFloat f64_zero) (cell r minuts))]> r
  else r.

(** The same seen from one cell of column [k]. *)
Definition loaded_cell (cols : list string) (k : string) (v : scalar) : scalar :=
  if bool_decide (k ∈ cols) then
    let v := if bool_decide (k ∈ numeric_cols_int) then cast_int64 v else v in
    let v := if bool_decide (k ∈ numeric_cols_float) then comma_float v else v in
    if bool_decide (k = minuts) then cast_int64 (fill_null (VFloat f64_zero) v) else v
  else v.

(** What the loader makes of a raw "minutes without conceding" cell. *)
Definition minutes_loaded (v : scalar) : scalar :=
  cast_int64 (fill_null (VFloat f64_zero) (comma_float (null_token ["#DIV/0!"] v))).

(** The rows the players loader keeps: a name, and a number of matches that
    reads as an integer. *)
Definition name_ok (r : row) : bool := is_not_null (cell r "Jugador").
Definition partits_ok (r : row) : bool := is_not_null (cell r "Partits").

(** ** The first six metrics of the leaderboard

    Column, label and suffix of the selections that [leaderboard_of] makes
    for metrics 1 to 6, in their order. *)
Definition metrics_1_6 : list (string * string * string) :=
  [ ("Gols", "Màxim Golejador", no_suffix);
    ("Gols x partit", "Gols / Partit", no_suffix);
    ("Assistències", "Màxim Assistent", no_suffix);
    ("Assitències x partit", "Ass. / Partit", no_suffix);
    (minuts, "Millor Porter (Minuts imbatut)", "'");
    ("Win Rate", "Major % Victòria", "%") ].

(** The columns [leaderboard_of] reads. *)
Definition leaderboard_columns : list string :=
  ["Jugador"; "Partits"; "Gols"; "Gols x partit"; "Assistències";
   "Assitències x partit"; minuts; "Win Rate"; "Grogues"; "Vermelles"].

(** The frame the cards metrics need: the columns, no text among the yellow
    cards and the matches, integers (or null) among the red cards. *)
Definition cards_are_numbers (df : DataFrame row) : Prop :=
  forall r, r ∈ rows df ->
    is_text (cell r "Grogues") = false
    /\ is_text (cell r "Partits") = false
    /\ (cell r "Vermelles" = VNull \/ exists z, cell r "Vermelles" = VInt z).

(** The entries of a leaderboard that carry a given label. *)
Definition with_label (l : string) (lb : list Entry) : list Entry :=
  List.filter (fun e => String.eqb (label e) l) lb.

(** [r] is eligible for the metric on [col] and no eligible row of [df] is
    above it in the sort order. *)
Definition is_top (df : DataFrame row) (col : string) (r : row) : Prop :=
  r ∈ rows df
  /\ is_not_null (cell r col) = true
  /\ forall r', r' ∈ rows df -> is_not_null (cell r' col) = true ->
       scalar_leb (cell r' col) (cell r col) = true.

(** The value of a number, for the reading of "the maximum value": an
    integer and a finite double stand for a rational, the infinities lie
    below and above every rational, and NaN, null and texts stand for no
    number. *)
Inductive ext_num : Type :=
| NegInf
| Fin (q : Q)
| PosInf.

Definition number_of (v : scalar) : option ext_num :=
  match v with
  | VInt z => Some (Fin (inject_Z z))
  | VFloat (S754_infinity true) => Some NegInf
  | VFloat (S754_infinity false) => Some PosInf
  | VFloat S754_nan => None
  | VFloat f => Some (Fin (f64_to_Q f))
  | _ => None
  end.

Definition ext_le (a b : ext_num) : Prop :=
  match a, b with
  | NegInf, _ => True
  | _, PosInf => True
  | Fin p, Fin q => (p <= q)%Q
  | _, _ => False
  end.

(** [a] and [b] are numbers and [a] is at most [b]. *)
Definition value_le (a b : scalar) : Prop :=
  match number_of a, number_of b with
  | Some x, Some y => ext_le x y
  | _, _ => False
  end.

Definition is_nan_cell (v : scalar) : bool :=
  match v with VFloat f => is_nan f | _ => false end.

(** A players table: three players with 5, 9 and no goals. *)
Definition player (n : string) (partits gols : scalar) : row :=
  list_to_map
    [ ("Jugador", VStr n); ("Partits", partits); ("Gols", gols);
      ("Assistències", VInt 0); ("Grogues", VInt 0); ("Vermelles", VInt 0);
      ("Win Rate", VStr "0,50"); ("Gols x partit", VStr "#DIV/0!");
      ("Assitències x partit", VInt 0); (minuts, VNull) ].

Definition players_columns : list string :=
  ["Jugador"; "Partits"; "Gols"; "Assistències"; "Grogues"; "Vermelles";
   "Win Rate"; "Gols x partit"; "Assitències x partit"; minuts].

Definition goals_file : DataFrame row :=
  mkDF players_columns
    [ player "A" (VInt 4) (VInt 5); player "B" (VInt 4) (VInt 9);
      player "C" (VInt 4) VNull ].

(** Tables that are read and have their columns but no row. *)
Definition no_players : DataFrame row := mkDF players_columns [].
Definition no_weeks : DataFrame MatchRecord := weeks_frame [].

(** The loaded players of [goals_file] and their leaderboard. *)
Definition goals_players : DataFrame row := (load_data (Some goals_file) None).1.

Definition goals_leaderboard : list Entry :=
  Eval vm_compute in
    match leaderboard_of goals_players with Ok lb => lb | Raise _ => [] end.

(** A players table with a player who was booked without having played. *)
Definition booked_file : DataFrame row :=
  mkDF players_columns
    [ <["Grogues" := VInt 1]> (player "A" (VInt 0) (VInt 0));
      <["Grogues" := VInt 1]> (player "B" (VInt 4) (VInt 2)) ].

(** The rows the [try] block on the players table ends with. *)
Definition loaded_rows (cols : list string) (l : list row) : list row :=
  List.filter partits_ok
    (map (load_row cols) (List.filter name_ok (map (nullify ["#DIV/0!"]) l))).

(** A players table whose minutes cell reads as a number beyond Int64. *)
Definition overflow_file : DataFrame row :=
  mkDF players_columns [ <[minuts := VStr "1e30"]> (player "A" (VInt 4) (VInt 5)) ].

(** The row the loader makes of the row of [overflow_file]. *)
Definition overflow_row : row :=
  round_row (load_row players_columns
               (nullify ["#DIV/0!"]
                  (<[minuts := VStr "1e30"]> (player "A" (VInt 4) (VInt 5))))).

(** A players table with a row whose name cell is the error token. *)
Definition nameless_file : DataFrame row :=
  mkDF players_columns
    [ player "A" (VInt 4) (VInt 5); player "#DIV/0!" (VInt 4) (VInt 9) ].

(** A players table whose minutes cells are a text with a decimal comma, a
    text of digits, the error token, a text that is not a number, and no
    value. *)
Definition minutes_file : DataFrame row :=
  mkDF players_columns
    [ <[minuts := VStr "12,7"]> (player "A" (VInt 4) (VInt 5));
      <[minuts := VStr "90"]> (player "B" (VInt 4) (VInt 5));
      <[minuts := VStr "#DIV/0!"]> (player "C" (VInt 4) (VInt 5));
      <[minuts := VStr "n/a"]> (player "D" (VInt 4) (VInt 5));
      player "E" (VInt 4) (VInt 5) ].




(** A players table with a win rate that reads as NaN. *)
Definition nan_file : DataFrame row :=
  mkDF players_columns
    [ <["Win Rate" := VStr "0.9"]> (player "A" (VInt 4) (VInt 5));
      <["Win Rate" := VStr "nan"]> (player "B" (VInt 4) (VInt 9)) ].

Definition nan_players : DataFrame row := (load_data (Some nan_file) None).1.

Definition nan_leaderboard : list Entry :=
  Eval vm_compute in
    match leaderboard_of nan_players with Ok lb => lb | Raise _ => [] end.

(** ** Definitions for the further properties *)

(** Both score cells of a match, when its side is one of the two values. *)
Definition scores_of_known_side (r : MatchRecord) : Z :=
  if str_is (Posicio r) "Local" || str_is (Posicio r) "Visitant"
  then score (Marcador_Local r) + score (Marcador_Visitant r)
  else 0.

(** What the sum of a score column checks: the column is there and holds a
    number. *)
Definition number_column (c : string) (cell_of : MatchRecord -> option Z)
    (df : DataFrame MatchRecord) : result unit :=
  _ ← require_column c df;
  if has_number cell_of df then Ok tt else Raise InvalidOperationError.

(** The record has a fixture index. *)
Definition has_jornada (r : MatchRecord) : bool := bool_decide (is_Some (Jornada r)).

(** The labels of the eight metrics, in the order [leaderboard_of] appends
    them. *)
Definition leaderboard_labels : list string :=
  ["Màxim Golejador"; "Gols / Partit"; "Màxim Assistent"; "Ass. / Partit";
   "Millor Porter (Minuts imbatut)"; "Major % Victòria";
   "Major % Grogues/Partit"; "Més Targetes Vermelles"].

(** What a guarded append ([if e and test(e['value']): ...]) adds. *)
Definition guarded (test : scalar -> result bool) (o : option Entry) : list Entry :=
  match o with
  | Some x => match test (value x) with Ok true => [x] | _ => [] end
  | None => []
  end.

(** A players table with two booked players, one of them sent off twice, and
    its loaded frame and leaderboard. *)
Definition cards_file : DataFrame row :=
  mkDF players_columns
    [ <["Vermelles" := VInt 2]> (<["Grogues" := VInt 1]> (player "A" (VInt 4) (VInt 0)));
      <["Grogues" := VInt 3]> (player "B" (VInt 4) (VInt 2)) ].

Definition cards_players : DataFrame row := (load_data (Some cards_file) None).1.

Definition cards_leaderboard : list Entry :=
  Eval vm_compute in
    match leaderboard_of cards_players with Ok lb => lb | Raise _ => [] end.

(** The entry for the yellow cards in [cards_leaderboard]: player B, with
    three yellow cards in four matches. *)
Definition cards_yellow : Entry :=
  mkEntry (VStr "B") (VFloat (f64_div (f64_of_Z 3) (f64_of_Z 4))) no_suffix
    "Major % Grogues/Partit".

(** The row the loader makes of the first row of [cards_file]. *)
Definition cards_row : row :=
  round_row (load_row players_columns
               (nullify ["#DIV/0!"]
                  (<["Vermelles" := VInt 2]>
                     (<["Grogues" := VInt 1]> (player "A" (VInt 4) (VInt 0)))))).

(** A loaded players frame with one of the listed goalkeepers. *)
Definition squad_players : DataFrame row :=
  (load_data
     (Some (mkDF players_columns
              [ player "A" (VInt 4) (VInt 5);
                player "RAS JIMENEZ, BLAI" (VInt 4) (VInt 0) ]))
     None).1.

(** ** [organize_images.py]: where a picture is copied to

    The script walks the directory of the pictures; a file counts as a
    picture by the end of its lower-cased name, is named after the folder it
    is in and keeps its own extension.  [rfind], the slices, [endswith],
    [os.path.basename] and [os.path.splitext] are those of Python on POSIX
    paths. *)

Definition SOURCE_DIR : string := "images".
Definition DEST_DIR : string := "assets/players".

Definition len (p : string) : Z := Z.of_nat (String.length p).

(** [p.rfind(c)]: the index of the last [c] in [p], or -1. *)
Fixpoint rfind (c : ascii) (p : string) : Z :=
  match p with
  | EmptyString => -1
  | String d p' =>
      let i := rfind c p' in
      if 0 <=? i then i + 1 else if Ascii.eqb d c then 0 else -1
  end.

(** [p[i:j]] for [0 <= i <= j <= len(p)]. *)
Definition slice (i j : Z) (p : string) : string :=
  substring (Z.to_nat i) (Z.to_nat (j - i)) p.

Definition basename (p : string) : string :=
  let i := rfind "/" p + 1 in
  slice i (len p) p.

(** [os.path.splitext]: the extension starts at the last dot, if that dot
    is in the last component and has a character other than a dot before it
    there. *)
Definition splitext (p : string) : string * string :=
  let sepIndex := rfind "/" p in
  let dotIndex := rfind "." p in
  if (sepIndex <? dotIndex)
     && existsb (fun c => negb (Ascii.eqb c "."))
          (list_ascii_of_string (slice (sepIndex + 1) dotIndex p))
  then (slice 0 dotIndex p, slice dotIndex (len p) p)
  else (p, EmptyString).

(** [s.endswith(suffix)]. *)
Definition endswith (s suffix : string) : bool :=
  (len suffix <=? len s)
  && String.eqb (slice (len s - len suffix) (len s) s) suffix.

(** [file.lower().endswith(('.png', '.jpg', '.jpeg', '.webp'))]. *)
Definition is_picture (file : string) : bool :=
  existsb (endswith (lower file)) image_exts.

(** One turn of the inner loop on the file [file] of the directory [root]:
    the source and the destination of the copy it makes, if it makes one. *)
Definition copy_of (root file : string) : option (string * string) :=
  if is_picture file then
    let parent_folder := basename root in
    if String.eqb root SOURCE_DIR then None
    else
      let player_slug := organize_images.slugify parent_folder in
      let ext := (splitext file).2 in
      let new_filename := player_slug +:+ ext in
      let src_path := path_join root [file] in
      let dest_path := path_join DEST_DIR [new_filename] in
      Some (src_path, dest_path)
  else None.

(** [OUTPUT_DIR] and the file a player's page is written to:
    [os.path.join(OUTPUT_DIR, player['filename'])]. *)
Definition OUTPUT_DIR : string := "docs".

Definition player_page_path (text : string) : string :=
  path_join OUTPUT_DIR [player_filename text].

(** What the loader makes of a row of the file that it keeps. *)
Definition loaded_row (cols : list string) (r : row) : row :=
  round_row (load_row cols (nullify ["#DIV/0!"] r)).

(** The entry for the win rate in [cards_leaderboard]: player A, with the
    rate 0,50 of the file shown as 50. *)
Definition cards_win_rate : Entry :=
  mkEntry (VStr "A")
    (VFloat (f64_mul (f64_round2 (f64_of_ratio false 1 2)) (f64_of_Z 100)))
    "%" "Major % Victòria".

(** * Theorems *)

(** ** The error monad *)

Lemma bind_Ok {A B} (m : result A) (f : A -> result B) (b : B) :
  m ≫= f = Ok b -> exists a, m = Ok a /\ f a = Ok b.
Proof. destruct m as [a|e]; simpl; [eauto | discriminate]. Qed.

Lemma is_ok_Ok {A} (m : result A) : is_ok m = true -> exists a, m = Ok a.
Proof. destruct m; [eauto | discriminate]. Qed.

Lemma require_column_Ok {R} c (df : DataFrame R) u :
  require_column c df = Ok u -> c ∈ columns df.
Proof.
  unfold require_column, has_column. case_bool_decide; [done | discriminate].
Qed.

Lemma require_column_elem {R} c (df : DataFrame R) :
  c ∈ columns df -> require_column c df = Ok tt.
Proof.
  intros Hc. unfold require_column, has_column. by rewrite bool_decide_eq_true_2.
Qed.

Lemma df_filter_Ok {R} c (p : R -> bool) (df df' : DataFrame R) :
  df_filter c p df = Ok df' ->
  c ∈ columns df /\ columns df' = columns df /\ rows df' = List.filter p (rows df).
Proof.
  unfold df_filter. intros H. apply bind_Ok in H as (u & Hc & H).
  apply require_column_Ok in Hc. simpl in H. by injection H as <-.
Qed.

Lemma df_filter_elem {R} c (p : R -> bool) (df : DataFrame R) :
  c ∈ columns df ->
  df_filter c p df = Ok (mkDF (columns df) (List.filter p (rows df))).
Proof. intros Hc. unfold df_filter. by rewrite require_column_elem. Qed.

Lemma require_keys_subset {R} ks (df : DataFrame R) :
  ks ⊆ columns df -> require_keys ks df = Ok tt.
Proof.
  intros Hks. unfold require_keys. destruct (rows df); [done |].
  induction ks as [|k ks IH]; simpl; [done |].
  unfold has_column at 1. rewrite bool_decide_eq_true_2.
  - apply IH. intros k' Hk'. apply Hks. by right.
  - apply Hks. by left.
Qed.

(** Membership in, and inclusion between, lists of column names that are
    written out. *)
Ltac in_columns :=
  match goal with
  | Hc : ?l ⊆ ?cols |- _ ∈ ?cols => apply Hc; in_columns
  | |- _ ∈ _ =>
      solve [repeat first [apply list_elem_of_here | apply list_elem_of_further]]
  | |- _ ⊆ _ =>
      let k := fresh "k" in
      let Hk := fresh "Hk" in
      intros k Hk; apply list_elem_of_In in Hk; simpl in Hk;
      repeat (destruct Hk as [<- | Hk]; [in_columns |]); destruct Hk
  end.

(** Inversion of a monadic definition that returned [Ok]. *)
Ltac invert_bind H :=
  let a := fresh "a" in
  let Ha := fresh "Hstep" in
  apply bind_Ok in H as (a & Ha & H).

(** ** Sums and running totals *)

Lemma zsum_app l1 l2 : zsum (l1 ++ l2) = zsum l1 + zsum l2.
Proof. induction l1 as [|x l1 IH]; simpl; [done | rewrite IH; lia]. Qed.

Lemma zsum_Permutation l1 l2 : l1 ≡ₚ l2 -> zsum l1 = zsum l2.
Proof. induction 1; simpl; lia. Qed.

Lemma zsum_map_Permutation {A} (f : A -> Z) (l1 l2 : list A) :
  l1 ≡ₚ l2 -> zsum (map f l1) = zsum (map f l2).
Proof. intros Hp. apply zsum_Permutation. by apply Permutation_map. Qed.

Lemma running_length acc l : length (running acc l) = length l.
Proof. revert acc. induction l as [|x l IH]; intros acc; simpl; [done | by rewrite IH]. Qed.

Lemma running_last acc l : l <> [] -> last (running acc l) = Some (acc + zsum l).
Proof.
  revert acc. induction l as [|x l IH]; intros acc Hne; [done |].
  destruct l as [|y l].
  - simpl. f_equal. lia.
  - change (running acc (x :: y :: l)) with ((acc + x) :: running (acc + x) (y :: l)).
    rewrite last_cons, IH by done. simpl. f_equal. lia.
Qed.

Lemma running_head_le acc l :
  Forall (fun x => 0 <= x) l -> HdRel Z.le acc (running acc l).
Proof. destruct 1; simpl; constructor. lia. Qed.

Lemma running_sorted acc l :
  Forall (fun x => 0 <= x) l -> Sorted Z.le (running acc l).
Proof.
  revert acc. induction l as [|x l IH]; intros acc Hpos; simpl; [constructor |].
  inversion_clear Hpos. constructor; [by apply IH | by apply running_head_le].
Qed.

(** ** The two loops over the weeks table *)

Lemma stats_step_eq acc r :
  stats_step acc r = (acc.1 + match_gf r, acc.2 + match_ga r).
Proof.
  destruct acc as [gf ga]. unfold stats_step, match_gf, match_ga, score. simpl.
  destruct (str_is (Posicio r) "Local"); [done |].
  destruct (str_is (Posicio r) "Visitant"); [done |].
  f_equal; lia.
Qed.

Lemma stats_fold l gf ga :
  fold_left stats_step l (gf, ga)
  = (gf + zsum (map match_gf l), ga + zsum (map match_ga l)).
Proof.
  revert gf ga. induction l as [|r l IH]; intros gf ga; cbn [fold_left].
  - simpl. f_equal; lia.
  - rewrite stats_step_eq. simpl fst. simpl snd. rewrite IH. simpl. f_equal; lia.
Qed.

Lemma chart_step_eq st r :
  chart_step st r =
  mkChartState
    (mkChart (labels (chart st) ++ [vs_ r])
             (points (chart st) ++ [running_points st + match_points r])
             (goals_for (chart st) ++ [running_goals_for st + match_gf r])
             (goals_against (chart st) ++ [running_goals_against st + match_ga r])
             (results (chart st) ++ [Resultat r]))
    (running_points st + match_points r)
    (running_goals_for st + match_gf r)
    (running_goals_against st + match_ga r).
Proof.
  unfold chart_step, match_points, match_gf, match_ga, score.
  destruct (str_is (Posicio r) "Local"); [done |].
  by destruct (str_is (Posicio r) "Visitant").
Qed.

Lemma chart_fold l st :
  fold_left chart_step l st =
  mkChartState
    (mkChart (labels (chart st) ++ map vs_ l)
             (points (chart st) ++ running (running_points st) (map match_points l))
             (goals_for (chart st) ++ running (running_goals_for st) (map match_gf l))
             (goals_against (chart st)
                ++ running (running_goals_against st) (map match_ga l))
             (results (chart st) ++ map Resultat l))
    (running_points st + zsum (map match_points l))
    (running_goals_for st + zsum (map match_gf l))
    (running_goals_against st + zsum (map match_ga l)).
Proof.
  revert st. induction l as [|r l IH]; intros st; cbn [fold_left].
  - destruct st as [[] ? ? ?]. simpl. rewrite !app_nil_r. f_equal; lia.
  - rewrite IH, chart_step_eq. simpl. rewrite <- !app_assoc. simpl.
    f_equal; lia.
Qed.

(** What [calculate_stats] returns, when it returns. *)
Lemma calculate_stats_Ok df st :
  calculate_stats df = Ok st ->
  st = mkStats (height df) (tally "Victòria" (rows df)) (tally "Empat" (rows df))
         (tally "Derrota" (rows df))
         (zsum (map match_gf (rows df))) (zsum (map match_ga (rows df))).
Proof.
  unfold calculate_stats. intros H.
  invert_bind H. apply df_filter_Ok in Hstep as (_ & _ & Hw).
  invert_bind H. apply df_filter_Ok in Hstep as (_ & _ & Hd).
  invert_bind H. apply df_filter_Ok in Hstep as (_ & _ & Hl).
  invert_bind H. invert_bind H. invert_bind H.
  rewrite stats_fold in H. simpl in H. injection H as <-.
  unfold tally, height. by rewrite Hw, Hd, Hl.
Qed.

Lemma column_sum_number c cell_of df :
  c ∈ columns df -> has_number cell_of df = true ->
  exists z, column_sum c cell_of df = Ok z.
Proof.
  intros Hc Hn. unfold column_sum. rewrite require_column_elem by done.
  cbn [mbind result_bind]. rewrite Hn. by eexists.
Qed.

(** It returns on every frame that has the columns of the weeks table and a
    number in each of the two score columns. *)
Lemma calculate_stats_total df :
  weeks_columns ⊆ columns df ->
  has_number Marcador_Local df = true -> has_number Marcador_Visitant df = true ->
  is_ok (calculate_stats df) = true.
Proof.
  intros Hc Hl Hv. unfold calculate_stats.
  rewrite !df_filter_elem by in_columns. cbn [mbind result_bind].
  destruct (column_sum_number "Marcador Local" _ df ltac:(in_columns) Hl) as [zl ->].
  destruct (column_sum_number "Marcador Visitant" _ df ltac:(in_columns) Hv) as [zv ->].
  cbn [mbind result_bind].
  rewrite require_keys_subset by in_columns. cbn [mbind result_bind].
  by rewrite stats_fold.
Qed.

(** What [chart_data] returns, when it returns: the scan of the records in
    sorted order. *)
Lemma chart_data_Ok df cd :
  chart_data df = Ok cd ->
  let sorted := merge_sort jornada_le (rows df) in
  cd = mkChart (map vs_ sorted) (running 0 (map match_points sorted))
         (running 0 (map match_gf sorted)) (running 0 (map match_ga sorted))
         (map Resultat sorted).
Proof.
  unfold chart_data, sort_by_jornada. intros H.
  invert_bind H. invert_bind Hstep. simpl in Hstep. injection Hstep as <-.
  invert_bind H. simpl in H. injection H as <-.
  by rewrite chart_fold.
Qed.

Lemma chart_data_total df :
  weeks_columns ⊆ columns df -> is_ok (chart_data df) = true.
Proof.
  intros Hc. unfold chart_data, sort_by_jornada.
  rewrite require_column_elem by in_columns. simpl.
  rewrite require_keys_subset by in_columns. done.
Qed.

(** ** The order of the fixtures *)

Lemma key_leb_total a b : key_leb a b = true \/ key_leb b a = true.
Proof. destruct a, b; simpl; auto. lia. Qed.

Lemma key_leb_trans a b c : key_leb a b = true -> key_leb b c = true -> key_leb a c = true.
Proof. destruct a, b, c; simpl; try done. lia. Qed.

#[global] Instance jornada_le_total : Total jornada_le.
Proof. intros a b. apply key_leb_total. Qed.

#[global] Instance jornada_le_trans : Transitive jornada_le.
Proof. intros a b c. apply key_leb_trans. Qed.

(** ** Tallies *)

Lemma tally_cons s r l :
  tally s (r :: l) = (if str_is (Resultat r) s then 1 else 0) + tally s l.
Proof.
  unfold tally. simpl. destruct (str_is (Resultat r) s); simpl length; lia.
Qed.

Lemma tally_nonneg s l : 0 <= tally s l.
Proof. unfold tally. lia. Qed.

Lemma str_is_inj o s t : str_is o s = true -> str_is o t = true -> s = t.
Proof.
  destruct o as [u|]; simpl; [| done].
  intros H1 H2. apply String.eqb_eq in H1, H2. congruence.
Qed.

(** The three indicators exclude one another. *)
Lemma result_cases r :
  (str_is (Resultat r) "Victòria" = true /\ str_is (Resultat r) "Empat" = false
     /\ str_is (Resultat r) "Derrota" = false)
  \/ (str_is (Resultat r) "Victòria" = false /\ str_is (Resultat r) "Empat" = true
     /\ str_is (Resultat r) "Derrota" = false)
  \/ (str_is (Resultat r) "Victòria" = false /\ str_is (Resultat r) "Empat" = false
     /\ str_is (Resultat r) "Derrota" = true)
  \/ (str_is (Resultat r) "Victòria" = false /\ str_is (Resultat r) "Empat" = false
     /\ str_is (Resultat r) "Derrota" = false).
Proof.
  destruct (str_is (Resultat r) "Victòria") eqn:Hw,
           (str_is (Resultat r) "Empat") eqn:Hd,
           (str_is (Resultat r) "Derrota") eqn:Hl; auto 10; exfalso.
  - discriminate (str_is_inj _ _ _ Hw Hd).
  - discriminate (str_is_inj _ _ _ Hw Hd).
  - discriminate (str_is_inj _ _ _ Hw Hl).
  - discriminate (str_is_inj _ _ _ Hd Hl).
Qed.

Lemma tally_points l :
  3 * tally "Victòria" l + tally "Empat" l = zsum (map match_points l).
Proof.
  induction l as [|r l IH]; [done |].
  rewrite !tally_cons. simpl. unfold match_points at 1.
  destruct (result_cases r) as [(-> & -> & _)|[(-> & -> & _)|[(-> & -> & _)|(-> & -> & _)]]];
    lia.
Qed.

Lemma tally_le l :
  tally "Victòria" l + tally "Empat" l + tally "Derrota" l <= Z.of_nat (length l).
Proof.
  induction l as [|r l IH]; [done |].
  rewrite !tally_cons. simpl length.
  destruct (result_cases r) as [(-> & -> & ->)|[(-> & -> & ->)|[(-> & -> & ->)|(-> & -> & ->)]]];
    lia.
Qed.

Lemma tally_all l :
  tally "Victòria" l + tally "Empat" l + tally "Derrota" l = Z.of_nat (length l)
  <-> Forall (fun r => known_result r = true) l.
Proof.
  induction l as [|r l IH]; [by split; [constructor |] |].
  rewrite !tally_cons, Forall_cons. simpl length. unfold known_result at 1.
  pose proof (tally_le l).
  destruct (result_cases r) as [(-> & -> & ->)|[(-> & -> & ->)|[(-> & -> & ->)|(-> & -> & ->)]]];
    simpl; rewrite <- IH; split; intros; try split; try done; try lia.
Qed.

(** ** Season aggregator against the result indicators (C2) *)

(** C2, as stated, fails: in a clean table (the loader returns it as it is:
    every fixture index is present) a fixture whose result cell is null
    (scheduled, not played) is counted in the total and in none of the three
    tallies. *)
Lemma C2_pending_fixture :
  (load_data None (Some pending_weeks)).2 = pending_weeks
  /\ exists st, calculate_stats pending_weeks = Ok st
       /\ total_wins st + total_draws st + total_losses st <> total_matches st.
Proof.
  split; [vm_compute; reflexivity |].
  exists (mkStats 2 1 0 0 2 0). split; [vm_compute; reflexivity | simpl; lia].
Qed.

(** C2, amended: whenever [calculate_stats] returns, the three counts are
    the tallies of the records by result indicator, their sum never exceeds
    the match count, and it equals the match count exactly when every record
    carries one of the three enumerated indicators; and it returns on every
    weeks table that has the columns and a number in each score column. *)
Theorem C2_tallies_and_total (df : DataFrame MatchRecord) :
  (weeks_columns ⊆ columns df ->
   has_number Marcador_Local df = true -> has_number Marcador_Visitant df = true ->
   exists st, calculate_stats df = Ok st)
  /\ forall st, calculate_stats df = Ok st ->
       total_matches st = height df
       /\ total_wins st = tally "Victòria" (rows df)
       /\ total_draws st = tally "Empat" (rows df)
       /\ total_losses st = tally "Derrota" (rows df)
       /\ total_wins st + total_draws st + total_losses st <= total_matches st
       /\ (total_wins st + total_draws st + total_losses st = total_matches st
           <-> Forall (fun r => known_result r = true) (rows df)).
Proof.
  split.
  - intros Hc Hl Hv. by apply is_ok_Ok, calculate_stats_total.
  - intros st Hst. apply calculate_stats_Ok in Hst as ->. simpl.
    repeat split; try done.
    + apply tally_le.
    + apply tally_all.
    + apply tally_all.
Qed.

(** C2, amended, on the scenario of the specification. *)
Lemma C2_tallies_and_total_witness :
  weeks_columns ⊆ columns scenario_weeks
  /\ has_number Marcador_Local scenario_weeks = true
  /\ has_number Marcador_Visitant scenario_weeks = true
  /\ (exists st, calculate_stats scenario_weeks = Ok st)
  /\ calculate_stats scenario_weeks = Ok (mkStats 2 1 1 0 4 2)
  /\ total_wins (mkStats 2 1 1 0 4 2) + total_draws (mkStats 2 1 1 0 4 2)
     + total_losses (mkStats 2 1 1 0 4 2) = total_matches (mkStats 2 1 1 0 4 2).
Proof.
  assert (Hc : weeks_columns ⊆ columns scenario_weeks) by (intros c Hin; exact Hin).
  assert (Hst : calculate_stats scenario_weeks = Ok (mkStats 2 1 1 0 4 2))
    by (vm_compute; reflexivity).
  split; [exact Hc |]. split; [reflexivity |]. split; [reflexivity |].
  split; [exact (proj1 (C2_tallies_and_total scenario_weeks) Hc eq_refl eq_refl) |].
  split; [exact Hst |].
  destruct (proj2 (C2_tallies_and_total scenario_weeks) _ Hst)
    as (_ & _ & _ & _ & _ & Hiff).
  apply Hiff. repeat constructor.
Defined.

(** ** Cumulative series against the season totals (C4) *)

(** C4 fails on the code for a season in which no match is played yet: every
    score cell is empty, polars reads the score columns as text and the sum
    in [calculate_stats] raises, so there are no season totals, while the
    chart has its point.  Whenever both stages return, the series has one
    point per match and the running totals of its last point are the season
    totals of [calculate_stats]: goals for, goals against, and, for the
    points, three per win and one per draw; and both return on every weeks
    table that has the columns and a number in each score column. *)
Theorem C4_series_length_and_last :
  (load_data None (Some unplayed_weeks)).2 = unplayed_weeks
  /\ calculate_stats unplayed_weeks = Raise InvalidOperationError
  /\ chart_data unplayed_weeks = Ok (mkChart [Some "A"] [0] [0] [0] [None])
  /\ (forall df st cd,
        calculate_stats df = Ok st -> chart_data df = Ok cd ->
        Z.of_nat (length (points cd)) = total_matches st
        /\ Z.of_nat (length (goals_for cd)) = total_matches st
        /\ Z.of_nat (length (goals_against cd)) = total_matches st
        /\ Z.of_nat (length (labels cd)) = total_matches st
        /\ Z.of_nat (length (results cd)) = total_matches st
        /\ (rows df <> [] ->
            last (points cd) = Some (3 * total_wins st + total_draws st)
            /\ last (goals_for cd) = Some (total_goals_for st)
            /\ last (goals_against cd) = Some (total_goals_against st)))
  /\ (forall df, weeks_columns ⊆ columns df ->
        has_number Marcador_Local df = true ->
        has_number Marcador_Visitant df = true ->
        exists st cd, calculate_stats df = Ok st /\ chart_data df = Ok cd).
Proof.
  split; [vm_compute; reflexivity |]. split; [vm_compute; reflexivity |].
  split; [vm_compute; reflexivity |]. split.
  - intros df st cd Hst Hcd.
    apply calculate_stats_Ok in Hst as ->. apply chart_data_Ok in Hcd as ->.
    pose proof (merge_sort_Permutation jornada_le (rows df)) as Hperm.
    assert (Hne : rows df <> [] -> forall {B} (f : MatchRecord -> B),
              map f (merge_sort jornada_le (rows df)) <> []).
    { intros Hrows B f Hnil. apply map_eq_nil in Hnil. rewrite Hnil in Hperm.
      by apply Permutation_nil_l in Hperm. }
    simpl. unfold height.
    rewrite !running_length, !length_map, (Permutation_length Hperm).
    repeat split; try done; rewrite running_last by (by apply Hne).
    + by rewrite tally_points, (zsum_map_Permutation _ _ _ Hperm).
    + by rewrite (zsum_map_Permutation _ _ _ Hperm).
    + by rewrite (zsum_map_Permutation _ _ _ Hperm).
  - intros df Hc Hl Hv.
    destruct (is_ok_Ok _ (calculate_stats_total df Hc Hl Hv)) as [st Hst].
    destruct (is_ok_Ok _ (chart_data_total df Hc)) as [cd Hcd].
    by exists st, cd.
Qed.

(** C4 on the scenario of the specification, where both stages return. *)
Lemma C4_series_length_and_last_witness :
  rows scenario_weeks <> []
  /\ calculate_stats scenario_weeks = Ok (mkStats 2 1 1 0 4 2)
  /\ chart_data scenario_weeks
     = Ok (mkChart [Some "A"; Some "B"] [1; 4] [1; 4] [1; 2]
             [Some "Empat"; Some "Victòria"])
  /\ last [1; 4] = Some (3 * 1 + 1)
  /\ last [1; 4] = Some 4
  /\ last [1; 2] = Some 2.
Proof.
  assert (Hne : rows scenario_weeks <> []) by discriminate.
  assert (Hst : calculate_stats scenario_weeks = Ok (mkStats 2 1 1 0 4 2))
    by (vm_compute; reflexivity).
  assert (Hcd : chart_data scenario_weeks
                = Ok (mkChart [Some "A"; Some "B"] [1; 4] [1; 4] [1; 2]
                        [Some "Empat"; Some "Victòria"]))
    by (vm_compute; reflexivity).
  split; [exact Hne |]. split; [exact Hst |]. split; [exact Hcd |].
  exact (proj2 (proj2 (proj2 (proj2 (proj2
           (proj1 (proj2 (proj2 (proj2 C4_series_length_and_last)))
              scenario_weeks _ _ Hst Hcd))))) Hne).
Defined.

(** ** Monotone running totals (C5) *)

(** C5, as stated, fails: a score cell is a signed integer, and in a clean
    table (the loader returns it as it is) a negative one makes the running
    goals-for total go down (2, then 1). *)
Lemma C5_negative_score :
  (load_data None (Some negative_weeks)).2 = negative_weeks
  /\ exists cd, chart_data negative_weeks = Ok cd
       /\ goals_for cd = [2; 1] /\ ~ Sorted Z.le (goals_for cd).
Proof.
  split; [vm_compute; reflexivity |].
  exists (mkChart [Some "A"; Some "B"] [3; 3] [2; 1] [0; 3]
            [Some "Victòria"; Some "Derrota"]).
  split; [vm_compute; reflexivity |]. split; [reflexivity |].
  simpl. intros Hs. inversion_clear Hs as [|? ? _ Hhd].
  inversion_clear Hhd. lia.
Qed.

Lemma match_points_nonneg r : 0 <= match_points r.
Proof.
  unfold match_points.
  destruct (str_is (Resultat r) "Victòria"); [lia |].
  destruct (str_is (Resultat r) "Empat"); lia.
Qed.

Lemma match_goals_nonneg r :
  scores_not_negative r = true -> 0 <= match_gf r /\ 0 <= match_ga r.
Proof.
  unfold scores_not_negative, match_gf, match_ga. intros H.
  apply andb_true_iff in H as [H1 H2].
  destruct (str_is (Posicio r) "Local"); [lia |].
  destruct (str_is (Posicio r) "Visitant"); lia.
Qed.

(** C5, amended: for every weeks table, in any order of its rows, the
    series is produced and its running point total never decreases; the
    running goals-for and goals-against totals never decrease when no score
    is negative. *)
Theorem C5_running_totals_monotone (df : DataFrame MatchRecord) :
  weeks_columns ⊆ columns df ->
  exists cd, chart_data df = Ok cd
    /\ Sorted Z.le (points cd)
    /\ (Forall (fun r => scores_not_negative r = true) (rows df) ->
        Sorted Z.le (goals_for cd) /\ Sorted Z.le (goals_against cd)).
Proof.
  intros Hc. destruct (is_ok_Ok _ (chart_data_total df Hc)) as [cd Hcd].
  exists cd. split; [done |].
  apply chart_data_Ok in Hcd as ->. simpl. split.
  - apply running_sorted, Forall_map, Forall_forall.
    intros r _. apply match_points_nonneg.
  - intros Hpos.
    assert (Hs : Forall (fun r => scores_not_negative r = true)
                   (merge_sort jornada_le (rows df)))
      by (by rewrite merge_sort_Permutation).
    split; apply running_sorted, Forall_map; eapply Forall_impl; try exact Hs;
      intros r Hr; by apply match_goals_nonneg.
Qed.

(** C5, amended, on the scenario of the specification. *)
Lemma C5_running_totals_monotone_witness :
  weeks_columns ⊆ columns scenario_weeks
  /\ Forall (fun r => scores_not_negative r = true) (rows scenario_weeks)
  /\ exists cd, chart_data scenario_weeks = Ok cd
       /\ Sorted Z.le (points cd) /\ Sorted Z.le (goals_for cd)
       /\ Sorted Z.le (goals_against cd).
Proof.
  assert (Hc : weeks_columns ⊆ columns scenario_weeks) by (intros c Hin; exact Hin).
  assert (Hpos : Forall (fun r => scores_not_negative r = true) (rows scenario_weeks))
    by (repeat constructor).
  split; [exact Hc |]. split; [exact Hpos |].
  destruct (C5_running_totals_monotone scenario_weeks Hc) as (cd & Hcd & Hp & Hg).
  destruct (Hg Hpos) as [Hf Ha].
  exists cd. auto.
Defined.

(** ** Sort, then scan (C6) *)

(** C6: on every weeks table the series is the running-total scan (3 per
    win, 1 per draw, 0 otherwise; goals resolved through the side) of the
    records sorted by fixture index ascending, and on the scenario of the
    specification it is points [1, 4], goals for [1, 4], goals against
    [1, 2]. *)
Theorem C6_sort_then_scan :
  (forall df, weeks_columns ⊆ columns df ->
     exists cd sorted,
       chart_data df = Ok cd
       /\ sorted ≡ₚ rows df
       /\ StronglySorted jornada_le sorted
       /\ labels cd = map vs_ sorted
       /\ results cd = map Resultat sorted
       /\ points cd = running 0 (map match_points sorted)
       /\ goals_for cd = running 0 (map match_gf sorted)
       /\ goals_against cd = running 0 (map match_ga sorted))
  /\ chart_data scenario_weeks
     = Ok (mkChart [Some "A"; Some "B"] [1; 4] [1; 4] [1; 2]
             [Some "Empat"; Some "Victòria"]).
Proof.
  split.
  - intros df Hc. destruct (is_ok_Ok _ (chart_data_total df Hc)) as [cd Hcd].
    exists cd, (merge_sort jornada_le (rows df)). split; [done |].
    apply chart_data_Ok in Hcd as ->. simpl.
    split; [apply merge_sort_Permutation |].
    split; [apply StronglySorted_merge_sort; apply _ |].
    done.
  - vm_compute. reflexivity.
Qed.

(** C6, the general part, on the scenario of the specification. *)
Lemma C6_sort_then_scan_witness :
  weeks_columns ⊆ columns scenario_weeks
  /\ exists cd sorted,
       chart_data scenario_weeks = Ok cd
       /\ sorted ≡ₚ rows scenario_weeks /\ StronglySorted jornada_le sorted
       /\ points cd = running 0 (map match_points sorted).
Proof.
  assert (Hc : weeks_columns ⊆ columns scenario_weeks) by (intros c Hin; exact Hin).
  split; [exact Hc |].
  destruct (proj1 C6_sort_then_scan scenario_weeks Hc)
    as (cd & sorted & Hcd & Hp & Hs & _ & _ & Hpts & _).
  exists cd, sorted. auto.
Defined.

(** ** The sort order of cells *)

Lemma ascii_compare_refl c : Ascii.compare c c = Eq.
Proof. unfold Ascii.compare. apply N.compare_refl. Qed.

Lemma string_leb_trans s1 s2 s3 :
  String.leb s1 s2 = true -> String.leb s2 s3 = true -> String.leb s1 s3 = true.
Proof.
  unfold String.leb.
  revert s2 s3. induction s1 as [|c1 s1 IH]; intros [|c2 s2] [|c3 s3]; simpl; try done.
  unfold Ascii.compare.
  destruct (N.compare_spec (N_of_ascii c1) (N_of_ascii c2)) as [E12|L12|G12]; try done;
  destruct (N.compare_spec (N_of_ascii c2) (N_of_ascii c3)) as [E23|L23|G23]; try done.
  - rewrite E12, E23, N.compare_refl. apply IH.
  - rewrite E12. by rewrite (proj2 (N.compare_lt_iff _ _) L23).
  - rewrite <- E23. by rewrite (proj2 (N.compare_lt_iff _ _) L12).
  - by rewrite (proj2 (N.compare_lt_iff _ _) (N.lt_trans _ _ _ L12 L23)).
Qed.

Lemma Qle_bool_total x y : Qle_bool x y = true \/ Qle_bool y x = true.
Proof.
  rewrite !Qle_bool_iff. destruct (Qlt_le_dec x y) as [H|H]; [left | right]; [| done].
  by apply Qlt_le_weak.
Qed.

Lemma Qle_bool_trans x y z :
  Qle_bool x y = true -> Qle_bool y z = true -> Qle_bool x z = true.
Proof. rewrite !Qle_bool_iff. apply Qle_trans. Qed.

Lemma sort_key_leb_total a b : sort_key_leb a b = true \/ sort_key_leb b a = true.
Proof.
  destruct a as [|r1 q1|s], b as [|r2 q2|t]; simpl; auto.
  - destruct (Z.ltb_spec r1 r2); [by left |].
    destruct (Z.ltb_spec r2 r1); [by right |].
    assert (r1 = r2) as -> by lia. rewrite Z.eqb_refl. simpl.
    destruct (r2 =? 1); simpl; [apply Qle_bool_total | by left].
  - apply String.leb_total.
Qed.

Lemma sort_key_leb_trans a b c :
  sort_key_leb a b = true -> sort_key_leb b c = true -> sort_key_leb a c = true.
Proof.
  destruct a as [|r1 q1|s], b as [|r2 q2|t], c as [|r3 q3|u]; simpl; try done.
  - intros H1 H2.
    apply orb_true_iff in H1 as [H1|H1], H2 as [H2|H2];
      rewrite ?andb_true_iff, ?Z.ltb_lt, ?Z.eqb_eq in *.
    + apply orb_true_iff. left. apply Z.ltb_lt. lia.
    + destruct H2 as [<- _]. apply orb_true_iff. left. by apply Z.ltb_lt.
    + destruct H1 as [-> _]. apply orb_true_iff. left. by apply Z.ltb_lt.
    + destruct H1 as [-> H1], H2 as [-> H2]. apply orb_true_iff. right.
      rewrite Z.eqb_refl. simpl.
      destruct (r3 =? 1); simpl in *; [| done]. by eapply Qle_bool_trans.
  - apply string_leb_trans.
Qed.

#[global] Instance desc_by_total col : Total (desc_by col).
Proof. intros a b. unfold desc_by, scalar_leb. apply sort_key_leb_total. Qed.

#[global] Instance desc_by_trans col : Transitive (desc_by col).
Proof.
  intros a b c H1 H2. unfold desc_by, scalar_leb in *.
  by eapply sort_key_leb_trans; [exact H2 | exact H1].
Qed.

(** The first row of a sorted permutation is above all rows. *)
Lemma sorted_head_max col (l : list row) top rest :
  merge_sort (desc_by col) l = top :: rest ->
  top ∈ l /\ forall r, r ∈ l -> scalar_leb (cell r col) (cell top col) = true.
Proof.
  intros Hs.
  pose proof (merge_sort_Permutation (desc_by col) l) as Hp.
  pose proof (StronglySorted_merge_sort (desc_by col) l) as Hss.
  rewrite Hs in Hp, Hss. split.
  - rewrite <- Hp. by left.
  - intros r Hr. rewrite <- Hp in Hr.
    apply StronglySorted_inv in Hss as [_ Hall].
    apply elem_of_cons in Hr as [->|Hr].
    + destruct (sort_key_leb_total (key_of (cell top col)) (key_of (cell top col))); done.
    + rewrite Forall_forall in Hall. by apply Hall.
Qed.

(** ** Selecting the top player *)

Lemma cell_insert (r : row) c v k :
  cell (<[c := v]> r) k = if decide (c = k) then v else cell r k.
Proof. unfold cell. rewrite lookup_insert. by case_decide. Qed.

Lemma cell_insert_eq (r : row) c v : cell (<[c := v]> r) c = v.
Proof. rewrite cell_insert. by rewrite decide_True. Qed.

Lemma cell_insert_ne (r : row) c v k : c <> k -> cell (<[c := v]> r) k = cell r k.
Proof. intros H. rewrite cell_insert. by rewrite decide_False. Qed.

Lemma is_not_null_false v : is_not_null v = false <-> v = VNull.
Proof. by destruct v. Qed.

Lemma elem_of_List_filter {A} (p : A -> bool) (l : list A) x :
  x ∈ List.filter p l <-> x ∈ l /\ p x = true.
Proof. rewrite !list_elem_of_In. apply filter_In. Qed.

Lemma List_filter_nil {A} (p : A -> bool) (l : list A) :
  List.filter p l = [] -> forall x, x ∈ l -> p x = false.
Proof.
  intros Hnil x Hx. destruct (p x) eqn:Hp; [| done].
  assert (Hin : x ∈ List.filter p l) by (by apply elem_of_List_filter).
  rewrite Hnil in Hin. by apply elem_of_nil in Hin.
Qed.

Lemma height_0 {R} (df : DataFrame R) : (height df =? 0) = true <-> rows df = [].
Proof.
  unfold height. rewrite Z.eqb_eq. destruct (rows df); simpl; split; try done; lia.
Qed.

Lemma merge_sort_nil {A} (R : relation A) `{!RelDecision R} (l : list A) :
  merge_sort R l = [] -> l = [].
Proof.
  intros H. pose proof (merge_sort_Permutation R l) as Hp. rewrite H in Hp.
  by apply Permutation_nil_l in Hp.
Qed.

(** The top row of the eligible rows of [df] on [col]. *)
Lemma top_of_filter df col top rest :
  merge_sort (desc_by col)
    (List.filter (fun r => is_not_null (cell r col)) (rows df)) = top :: rest ->
  is_top df col top.
Proof.
  intros Hs. apply sorted_head_max in Hs as [Hin Hmax].
  apply elem_of_List_filter in Hin as [Hin Hnn].
  repeat split; [done | done |].
  intros r' Hr' Hnn'. apply Hmax. by apply elem_of_List_filter.
Qed.

Lemma row_get_Ok df r k v : row_get df r k = Ok v -> v = cell r k.
Proof. unfold row_get. destruct (has_column k df); [congruence | discriminate]. Qed.

(** What [get_top_player] returns, when it returns. *)
Lemma get_top_player_Ok df col lbl suf o :
  get_top_player df col lbl suf = Ok o ->
  match o with
  | None => forall r, r ∈ rows df -> cell r col = VNull
  | Some e =>
      exists r, is_top df col r
        /\ e = mkEntry (cell r "Jugador") (cell r col) suf lbl
  end.
Proof.
  unfold get_top_player. intros H.
  invert_bind H. apply df_filter_Ok in Hstep as (Hcol & Hcols & Hrows).
  destruct (height a =? 0) eqn:Hh.
  - injection H as <-. apply height_0 in Hh. rewrite Hrows in Hh.
    intros r Hr. apply is_not_null_false. by apply (List_filter_nil _ _ Hh).
  - unfold sort_desc in H. invert_bind H. invert_bind Hstep.
    simpl in Hstep. injection Hstep as <-. simpl in H.
    destruct (merge_sort (desc_by col) (rows a)) as [|top rest] eqn:Hs.
    + apply merge_sort_nil in Hs. apply height_0 in Hs. congruence.
    + invert_bind H. invert_bind H. invert_bind H. simpl in H. injection H as <-.
      apply row_get_Ok in Hstep, Hstep1. simpl in Hstep, Hstep1. subst.
      exists top. split; [| done]. rewrite Hrows in Hs. by eapply top_of_filter.
Qed.

(** It returns whenever the frame has the metric, the name and the link
    columns. *)
Lemma get_top_player_total df col lbl suf :
  col ∈ columns df -> "Jugador" ∈ columns df -> "url" ∈ columns df ->
  is_ok (get_top_player df col lbl suf) = true.
Proof.
  intros Hc Hj Hu. unfold get_top_player. rewrite df_filter_elem by done. simpl.
  match goal with |- context [height ?d =? 0] => destruct (height d =? 0) end; [done |].
  unfold sort_desc. rewrite require_column_elem by done. simpl.
  match goal with |- context [merge_sort ?R ?l] => destruct (merge_sort R l) end; [done |].
  unfold row_get, has_column. simpl. by rewrite !bool_decide_eq_true_2.
Qed.

(** Metric 6 selects the same way; the value shown is the rate times 100. *)
Lemma top_win_rate_Ok df o :
  top_win_rate df = Ok o ->
  match o with
  | None => forall r, r ∈ rows df -> cell r "Win Rate" = VNull
  | Some e =>
      exists r, is_top df "Win Rate" r
        /\ name e = cell r "Jugador" /\ label e = "Major % Victòria"
  end.
Proof.
  unfold top_win_rate. intros H.
  invert_bind H. apply df_filter_Ok in Hstep as (Hcol & Hcols & Hrows).
  destruct (0 <? height a) eqn:Hh.
  - unfold sort_desc in H. invert_bind H. invert_bind Hstep.
    simpl in Hstep. injection Hstep as <-. simpl in H.
    destruct (merge_sort (desc_by "Win Rate") (rows a)) as [|top rest] eqn:Hs.
    + apply merge_sort_nil in Hs. unfold height in Hh. rewrite Hs in Hh. done.
    + invert_bind H. rewrite Hrows in Hs. apply top_of_filter in Hs.
      destruct a0; invert_bind H; invert_bind H; simpl in H; injection H as <-;
        repeat match goal with
               | Hx : row_get _ _ _ = Ok _ |- _ => apply row_get_Ok in Hx
               end;
        simpl in *; subst; by exists top.
  - injection H as <-.
    assert (Hnil : rows a = []).
    { apply height_0. unfold height in *. apply Z.ltb_ge in Hh. apply Z.eqb_eq. lia. }
    rewrite Hrows in Hnil.
    intros r Hr. apply is_not_null_false. by apply (List_filter_nil _ _ Hnil).
Qed.

(** ** The leaderboard, metric by metric *)

Lemma append_entry_app lb o : append_entry lb o = lb ++ option_list o.
Proof. destruct o; simpl; [done | by rewrite app_nil_r]. Qed.

(** A guarded append adds the entry or nothing. *)
Lemma append_if_Ok test lb o lb' :
  append_if test lb o = Ok lb' ->
  exists l, lb' = lb ++ l
    /\ forall P : Entry -> Prop, Forall P (option_list o) -> Forall P l.
Proof.
  unfold append_if. destruct o as [x|]; intros H.
  - invert_bind H. simpl in H. injection H as <-. destruct a.
    + by exists [x].
    + exists []. split; [by rewrite app_nil_r | by constructor].
  - simpl in H. injection H as <-. exists []. split; [by rewrite app_nil_r | done].
Qed.

Lemma append_if_total test lb o :
  (forall e, o = Some e -> is_ok (test (value e)) = true) ->
  is_ok (append_if test lb o) = true.
Proof.
  intros Ht. unfold append_if. destruct o as [x|]; [| done].
  destruct (is_ok_Ok _ (Ht x eq_refl)) as [b ->]. done.
Qed.

Lemma with_label_app l lb1 lb2 :
  with_label l (lb1 ++ lb2) = with_label l lb1 ++ with_label l lb2.
Proof. apply List.filter_app. Qed.

Lemma with_label_labelled l l' lb :
  Forall (fun e => label e = l') lb ->
  with_label l lb = if String.eqb l' l then lb else [].
Proof.
  induction 1 as [|e lb He _ IH]; [by destruct (String.eqb l' l) |].
  unfold with_label in *. cbn [List.filter]. subst l'. rewrite IH.
  by destruct (String.eqb (label e) l).
Qed.

Lemma get_top_player_label df col lbl suf o :
  get_top_player df col lbl suf = Ok o ->
  Forall (fun e => label e = lbl) (option_list o).
Proof.
  intros H. apply get_top_player_Ok in H. destruct o as [e|]; simpl; [| constructor].
  destruct H as (r & _ & ->). by repeat constructor.
Qed.

Lemma top_win_rate_label df o :
  top_win_rate df = Ok o ->
  Forall (fun e => label e = "Major % Victòria") (option_list o).
Proof.
  intros H. apply top_win_rate_Ok in H. destruct o as [e|]; simpl; [| constructor].
  destruct H as (r & _ & _ & Hl). by repeat constructor.
Qed.

(** The leaderboard is the list of the eight selections, in order; the last
    two are kept or not. *)
Lemma leaderboard_from_Ok df lb :
  leaderboard_from df = Ok lb ->
  exists o1 o2 o3 o4 o5 o6 df7 o7 o8 l7 l8,
    get_top_player df "Gols" "Màxim Golejador" no_suffix = Ok o1
    /\ get_top_player df "Gols x partit" "Gols / Partit" no_suffix = Ok o2
    /\ get_top_player df "Assistències" "Màxim Assistent" no_suffix = Ok o3
    /\ get_top_player df "Assitències x partit" "Ass. / Partit" no_suffix = Ok o4
    /\ get_top_player df minuts "Millor Porter (Minuts imbatut)" "'" = Ok o5
    /\ top_win_rate df = Ok o6
    /\ add_grogues_ratio df = Ok df7
    /\ get_top_player df7 "Grogues_Ratio" "Major % Grogues/Partit" no_suffix = Ok o7
    /\ get_top_player df7 "Vermelles" "Més Targetes Vermelles" no_suffix = Ok o8
    /\ (forall P : Entry -> Prop, Forall P (option_list o7) -> Forall P l7)
    /\ (forall P : Entry -> Prop, Forall P (option_list o8) -> Forall P l8)
    /\ lb = option_list o1 ++ option_list o2 ++ option_list o3 ++ option_list o4
            ++ option_list o5 ++ option_list o6 ++ l7 ++ l8.
Proof.
  unfold leaderboard_from. intros H.
  apply bind_Ok in H as (o1 & H1 & H). apply bind_Ok in H as (o2 & H2 & H).
  apply bind_Ok in H as (o3 & H3 & H). apply bind_Ok in H as (o4 & H4 & H).
  apply bind_Ok in H as (o5 & H5 & H). apply bind_Ok in H as (o6 & H6 & H).
  apply bind_Ok in H as (df7 & Hdf & H). apply bind_Ok in H as (o7 & H7 & H).
  apply bind_Ok in H as (lb7 & Ha7 & H). apply bind_Ok in H as (o8 & H8 & H).
  apply bind_Ok in H as (lb8 & Ha8 & H). simpl in H. injection H as <-.
  apply append_if_Ok in Ha7 as (l7 & -> & Hl7).
  apply append_if_Ok in Ha8 as (l8 & -> & Hl8).
  exists o1, o2, o3, o4, o5, o6, df7, o7, o8, l7, l8.
  repeat (split; [done |]).
  rewrite !append_entry_app. simpl. by rewrite <- !app_assoc.
Qed.

Lemma existsb_false {A} (f : A -> bool) (l : list A) :
  existsb f l = false <-> forall x, x ∈ l -> f x = false.
Proof.
  induction l as [|a l IH]; simpl.
  - split; [intros _ x Hx; by apply elem_of_nil in Hx | done].
  - rewrite orb_false_iff, IH. split.
    + intros [Ha Hl] x [->|Hx]%elem_of_cons; auto.
    + intros H. split; [apply H; by left | intros x Hx; apply H; by right].
Qed.

Lemma add_grogues_ratio_Ok df df7 :
  add_grogues_ratio df = Ok df7 ->
  "Grogues" ∈ columns df /\ "Partits" ∈ columns df
  /\ df7 = with_column "Grogues_Ratio"
             (fun r => grogues_ratio (cell r "Grogues") (cell r "Partits")) df.
Proof.
  unfold add_grogues_ratio. intros H. invert_bind H. invert_bind H.
  apply require_column_Ok in Hstep, Hstep0.
  destruct (existsb _ _); [discriminate |]. simpl in H. by injection H as <-.
Qed.

Lemma with_column_columns c e df k :
  k ∈ columns df -> k ∈ columns (with_column c e df).
Proof.
  intros Hk. unfold with_column. simpl.
  destruct (has_column c df); [done |]. apply elem_of_app. by left.
Qed.

Lemma with_column_new c e df : c ∈ columns (with_column c e df).
Proof.
  unfold with_column, has_column. simpl. case_bool_decide; [done |].
  apply elem_of_app. right. by left.
Qed.

Lemma top_win_rate_total df :
  "Win Rate" ∈ columns df -> "Jugador" ∈ columns df -> "url" ∈ columns df ->
  is_ok (top_win_rate df) = true.
Proof.
  intros Hc Hj Hu. unfold top_win_rate. rewrite df_filter_elem by done. simpl.
  match goal with |- context [0 <? height ?d] => destruct (0 <? height d) end; [| done].
  unfold sort_desc. rewrite require_column_elem by done. simpl.
  match goal with |- context [merge_sort ?R ?l] => destruct (merge_sort R l) end; [done |].
  unfold row_get, has_column. simpl. rewrite !bool_decide_eq_true_2 by done.
  cbn [mbind result_bind].
  by match goal with |- context [cell ?r "Win Rate"] => destruct (cell r "Win Rate") end.
Qed.

Lemma grogues_ratio_cases a b :
  grogues_ratio a b = VNull \/ exists f, grogues_ratio a b = VFloat f.
Proof.
  unfold grogues_ratio, truediv.
  destruct (to_f64 a) as [x|]; [| by left].
  destruct (to_f64 b) as [y|]; [| by left].
  right. simpl. destruct (is_nan (f64_div x y)); eauto.
Qed.

(** The leaderboard is produced whenever the frame has the columns it reads
    and numbers in the cards columns. *)
Lemma leaderboard_from_total df :
  leaderboard_columns ⊆ columns df -> "url" ∈ columns df -> cards_are_numbers df ->
  is_ok (leaderboard_from df) = true.
Proof.
  unfold leaderboard_columns. intros Hc Hu Hnum. unfold leaderboard_from.
  destruct (is_ok_Ok _ (get_top_player_total df "Gols" "Màxim Golejador" no_suffix
                          ltac:(in_columns) ltac:(in_columns) Hu)) as [o1 ->].
  destruct (is_ok_Ok _ (get_top_player_total df "Gols x partit" "Gols / Partit" no_suffix
                          ltac:(in_columns) ltac:(in_columns) Hu)) as [o2 ->].
  destruct (is_ok_Ok _ (get_top_player_total df "Assistències" "Màxim Assistent" no_suffix
                          ltac:(in_columns) ltac:(in_columns) Hu)) as [o3 ->].
  destruct (is_ok_Ok _ (get_top_player_total df "Assitències x partit" "Ass. / Partit" no_suffix
                          ltac:(in_columns) ltac:(in_columns) Hu)) as [o4 ->].
  destruct (is_ok_Ok _ (get_top_player_total df minuts "Millor Porter (Minuts imbatut)" "'"
                          ltac:(in_columns) ltac:(in_columns) Hu)) as [o5 ->].
  destruct (is_ok_Ok _ (top_win_rate_total df ltac:(in_columns) ltac:(in_columns) Hu))
    as [o6 ->].
  cbn [mbind result_bind]. unfold add_grogues_ratio.
  rewrite !require_column_elem by in_columns. cbn [mbind result_bind].
  rewrite (proj2 (existsb_false _ _)); cycle 1.
  { intros r Hr. destruct (Hnum r Hr) as (-> & -> & _). done. }
  cbn [mbind result_bind mret result_ret].
  assert (Hj : "Jugador" ∈ columns df) by in_columns.
  assert (Hv : "Vermelles" ∈ columns df) by in_columns.
  set (df7 := with_column "Grogues_Ratio" _ df).
  destruct (is_ok_Ok _ (get_top_player_total df7 "Grogues_Ratio"
              "Major % Grogues/Partit" no_suffix (with_column_new _ _ _)
              (with_column_columns _ _ _ _ Hj)
              (with_column_columns _ _ _ _ Hu))) as [o7 H7].
  rewrite H7. cbn [mbind result_bind].
  assert (H7ok : is_ok (append_if float_positive
                          (append_entry (append_entry (append_entry (append_entry
                             (append_entry (append_entry [] o1) o2) o3) o4) o5) o6) o7)
                 = true).
  { apply append_if_total. intros e ->. apply get_top_player_Ok in H7 as (r & Ht & ->).
    simpl. destruct Ht as (Hr & Hnn & _).
    apply list_elem_of_fmap in Hr as (r0 & -> & _).
    rewrite cell_insert_eq in Hnn |- *.
    destruct (grogues_ratio_cases (cell r0 "Grogues") (cell r0 "Partits"))
      as [E|[f E]]; rewrite E in Hnn |- *; done. }
  destruct (is_ok_Ok _ H7ok) as [lb7 ->]. cbn [mbind result_bind].
  destruct (is_ok_Ok _ (get_top_player_total df7 "Vermelles"
              "Més Targetes Vermelles" no_suffix (with_column_columns _ _ _ _ Hv)
              (with_column_columns _ _ _ _ Hj)
              (with_column_columns _ _ _ _ Hu))) as [o8 H8].
  rewrite H8. cbn [mbind result_bind].
  assert (H8ok : is_ok (append_if int_positive lb7 o8) = true).
  { apply append_if_total. intros e ->. apply get_top_player_Ok in H8 as (r & Ht & ->).
    simpl. destruct Ht as (Hr & Hnn & _).
    apply list_elem_of_fmap in Hr as (r0 & -> & Hr0).
    rewrite cell_insert_ne in Hnn |- * by done.
    destruct (Hnum r0 Hr0) as (_ & _ & [E|[z E]]); rewrite E in Hnn |- *; done. }
  destruct (is_ok_Ok _ H8ok) as [lb8 ->]. done.
Qed.

(** The entries of the leaderboard under the labels of the first six
    metrics. *)
Lemma with_label_leaderboard df lb :
  leaderboard_from df = Ok lb ->
  exists o1 o2 o3 o4 o5 o6,
    get_top_player df "Gols" "Màxim Golejador" no_suffix = Ok o1
    /\ get_top_player df "Gols x partit" "Gols / Partit" no_suffix = Ok o2
    /\ get_top_player df "Assistències" "Màxim Assistent" no_suffix = Ok o3
    /\ get_top_player df "Assitències x partit" "Ass. / Partit" no_suffix = Ok o4
    /\ get_top_player df minuts "Millor Porter (Minuts imbatut)" "'" = Ok o5
    /\ top_win_rate df = Ok o6
    /\ with_label "Màxim Golejador" lb = option_list o1
    /\ with_label "Gols / Partit" lb = option_list o2
    /\ with_label "Màxim Assistent" lb = option_list o3
    /\ with_label "Ass. / Partit" lb = option_list o4
    /\ with_label "Millor Porter (Minuts imbatut)" lb = option_list o5
    /\ with_label "Major % Victòria" lb = option_list o6.
Proof.
  intros H.
  apply leaderboard_from_Ok in H
    as (o1 & o2 & o3 & o4 & o5 & o6 & df7 & o7 & o8 & l7 & l8
        & H1 & H2 & H3 & H4 & H5 & H6 & _ & H7 & H8 & P7 & P8 & ->).
  exists o1, o2, o3, o4, o5, o6. repeat (split; [done |]).
  pose proof (get_top_player_label _ _ _ _ _ H1) as L1.
  pose proof (get_top_player_label _ _ _ _ _ H2) as L2.
  pose proof (get_top_player_label _ _ _ _ _ H3) as L3.
  pose proof (get_top_player_label _ _ _ _ _ H4) as L4.
  pose proof (get_top_player_label _ _ _ _ _ H5) as L5.
  pose proof (top_win_rate_label _ _ H6) as L6.
  pose proof (P7 _ (get_top_player_label _ _ _ _ _ H7)) as L7.
  pose proof (P8 _ (get_top_player_label _ _ _ _ _ H8)) as L8.
  repeat split;
    rewrite !with_label_app,
      (with_label_labelled _ _ _ L1), (with_label_labelled _ _ _ L2),
      (with_label_labelled _ _ _ L3), (with_label_labelled _ _ _ L4),
      (with_label_labelled _ _ _ L5), (with_label_labelled _ _ _ L6),
      (with_label_labelled _ _ _ L7), (with_label_labelled _ _ _ L8);
    cbn [String.eqb Ascii.eqb Bool.eqb app]; by rewrite ?app_nil_r.
Qed.

(** On integer cells the sort order is the order of the integers. *)
Lemma scalar_leb_int a b : scalar_leb (VInt a) (VInt b) = (a <=? b).
Proof.
  unfold scalar_leb. simpl. unfold Qle_bool. simpl. by rewrite !Z.mul_1_r.
Qed.

(** Below a number the sort order is the order of the values: what is not
    null and stands before a number is a number and at most it. *)
Lemma scalar_leb_value a b :
  is_not_null a = true -> is_Some (number_of b) -> scalar_leb a b = true ->
  value_le a b.
Proof.
  intros Ha [y Hb]. unfold scalar_leb, value_le. rewrite Hb.
  destruct a as [|x|[sa|[]| |sa ma ea]|s]; try done;
    destruct b as [|z|[sb|[]| |sb mb eb]|t]; try done;
    simpl in Hb; injection Hb as <-; simpl;
    rewrite ?Qle_bool_iff; try done.
Qed.

(** NaN is the only value above a number that is not at most it. *)
Lemma scalar_leb_nan a : is_not_null a = true -> scalar_leb a (VFloat S754_nan) = true
  <-> is_text a = false.
Proof. intros Ha. by destruct a as [|x|[sa|[]| |sa ma ea]|s]. Qed.

(** The metrics 1 to 6 on a frame that has the column of links: no entry
    when every player is null on the metric, and else one entry, naming a
    top player. *)
Lemma leaderboard_from_metric df lb col lbl suf :
  leaderboard_from df = Ok lb ->
  (col, lbl, suf) ∈ metrics_1_6 ->
  ((forall r, r ∈ rows df -> cell r col = VNull) /\ with_label lbl lb = [])
  \/ (exists e r, with_label lbl lb = [e] /\ is_top df col r
                  /\ name e = cell r "Jugador").
Proof.
  intros Hlb Hm.
  apply with_label_leaderboard in Hlb
    as (o1 & o2 & o3 & o4 & o5 & o6 & H1 & H2 & H3 & H4 & H5 & H6
        & E1 & E2 & E3 & E4 & E5 & E6).
  apply get_top_player_Ok in H1, H2, H3, H4, H5. apply top_win_rate_Ok in H6.
  apply list_elem_of_In in Hm. simpl in Hm.
  destruct Hm as [Hm|[Hm|[Hm|[Hm|[Hm|[Hm|[]]]]]]]; injection Hm as <- <- <-.
  - rewrite E1. destruct o1 as [e|]; [right | by left].
    destruct H1 as (r & Ht & ->). eexists _, r.
    split; [reflexivity |]. split; [exact Ht | reflexivity].
  - rewrite E2. destruct o2 as [e|]; [right | by left].
    destruct H2 as (r & Ht & ->). eexists _, r.
    split; [reflexivity |]. split; [exact Ht | reflexivity].
  - rewrite E3. destruct o3 as [e|]; [right | by left].
    destruct H3 as (r & Ht & ->). eexists _, r.
    split; [reflexivity |]. split; [exact Ht | reflexivity].
  - rewrite E4. destruct o4 as [e|]; [right | by left].
    destruct H4 as (r & Ht & ->). eexists _, r.
    split; [reflexivity |]. split; [exact Ht | reflexivity].
  - rewrite E5. destruct o5 as [e|]; [right | by left].
    destruct H5 as (r & Ht & ->). eexists _, r.
    split; [reflexivity |]. split; [exact Ht | reflexivity].
  - rewrite E6. destruct o6 as [e|]; [right | by left].
    destruct H6 as (r & Ht & Hn & _). by exists e, r.
Qed.

(** *** The frame with the links, seen from the frame without *)

Lemma with_url_rows df :
  rows (with_url df) = map (fun r => <["url" := url_of r]> r) (rows df).
Proof. reflexivity. Qed.

Lemma with_url_row df r :
  r ∈ rows df ->
  exists r', r' ∈ rows (with_url df) /\ forall k, k <> "url" -> cell r' k = cell r k.
Proof.
  intros Hr. exists (<["url" := url_of r]> r). split.
  - rewrite with_url_rows. apply list_elem_of_fmap. by exists r.
  - intros k Hk. by rewrite cell_insert_ne.
Qed.

Lemma with_url_source df r' :
  r' ∈ rows (with_url df) ->
  exists r, r ∈ rows df /\ forall k, k <> "url" -> cell r' k = cell r k.
Proof.
  rewrite with_url_rows. intros (r & -> & Hr)%list_elem_of_fmap.
  exists r. split; [done |]. intros k Hk. by rewrite cell_insert_ne.
Qed.

Lemma with_url_null df col :
  col <> "url" ->
  (forall r', r' ∈ rows (with_url df) -> cell r' col = VNull) ->
  forall r, r ∈ rows df -> cell r col = VNull.
Proof.
  intros Hcol Hnull r Hr. destruct (with_url_row df r Hr) as (r' & Hr' & Hk).
  rewrite <- (Hk col Hcol). by apply Hnull.
Qed.

Lemma with_url_top df col r' :
  col <> "url" -> is_top (with_url df) col r' ->
  exists r, is_top df col r /\ forall k, k <> "url" -> cell r' k = cell r k.
Proof.
  intros Hcol (Hr' & Hnn & Hmax).
  destruct (with_url_source df r' Hr') as (r & Hr & Hk).
  exists r. split; [| done]. rewrite (Hk col Hcol) in Hnn, Hmax.
  split; [done |]. split; [done |]. intros r0 Hr0 Hnn0.
  destruct (with_url_row df r0 Hr0) as (r0' & Hr0' & Hk0).
  rewrite <- (Hk0 col Hcol) in Hnn0 |- *. by apply Hmax.
Qed.

Lemma with_url_cards df : cards_are_numbers df -> cards_are_numbers (with_url df).
Proof.
  intros Hnum r' Hr'. destruct (with_url_source df r' Hr') as (r & Hr & Hk).
  rewrite !Hk by done. by apply Hnum.
Qed.

Lemma with_url_columns df : columns df ⊆ columns (with_url df).
Proof. intros k Hk. by apply with_column_columns. Qed.

Lemma with_url_columns_inv df c :
  c ∈ columns (with_url df) -> c <> "url" -> c ∈ columns df.
Proof.
  unfold with_url, with_column. cbn [columns].
  destruct (has_column "url" df); [done |].
  intros [H|H%list_elem_of_singleton]%elem_of_app; done.
Qed.

(** The leaderboard is produced whenever the frame has the columns it reads
    and numbers in the cards columns. *)
Lemma leaderboard_of_total df :
  leaderboard_columns ⊆ columns df -> cards_are_numbers df ->
  is_ok (leaderboard_of df) = true.
Proof.
  intros Hc Hnum. unfold leaderboard_of. apply leaderboard_from_total.
  - intros k Hk. by apply with_url_columns, Hc.
  - apply with_column_new.
  - by apply with_url_cards.
Qed.

Lemma metrics_1_6_not_url col lbl suf : (col, lbl, suf) ∈ metrics_1_6 -> col <> "url".
Proof.
  intros Hm. apply list_elem_of_In in Hm. simpl in Hm.
  destruct Hm as [Hm|[Hm|[Hm|[Hm|[Hm|[Hm|[]]]]]]]; by injection Hm as <- <- <-.
Qed.

(** For each of the metrics 1 to 6 a leaderboard has no entry when every
    player is null on the metric, and else one entry, naming a top player. *)
Lemma leaderboard_metric df lb col lbl suf :
  leaderboard_of df = Ok lb ->
  (col, lbl, suf) ∈ metrics_1_6 ->
  ((forall r, r ∈ rows df -> cell r col = VNull) /\ with_label lbl lb = [])
  \/ (exists e r, with_label lbl lb = [e] /\ is_top df col r
                  /\ name e = cell r "Jugador").
Proof.
  intros Hlb Hm. pose proof (metrics_1_6_not_url _ _ _ Hm) as Hcol.
  destruct (leaderboard_from_metric _ _ _ _ _ Hlb Hm)
    as [[Hnull Hno]|(e & r' & He & Htop & Hname)].
  - left. split; [| done]. by apply (with_url_null df col Hcol).
  - right. destruct (with_url_top df col r' Hcol Htop) as (r & Ht & Hk).
    exists e, r. split; [done |]. split; [done |]. by rewrite Hname, Hk.
Qed.

(** ** Load failure (C1) *)

(** Files that hold a header and no row are read, and the season aggregator
    raises on the sum of a score column, which polars reads as text. *)
Example main_on_header_only_files :
  main (Some no_players) (Some no_weeks) = Raise InvalidOperationError.
Proof. vm_compute. reflexivity. Qed.

Example main_on_examples :
  is_ok (main (Some goals_file) (Some scenario_weeks)) = true.
Proof. vm_compute. reflexivity. Qed.

(** C1 fails on the code: a table that cannot be read is replaced by
    [pl.DataFrame()], a frame without columns, and the next stage that names
    a column raises.  Without weeks table [calculate_stats] raises on
    ['Resultat'], whatever the players table; without players table
    [render_pages] raises on ['Jugador']. *)
Theorem C1_load_failure_raises :
  load_data None None = (empty_df, empty_df)
  /\ calculate_stats empty_df = Raise (ColumnNotFoundError "Resultat")
  /\ (forall players_file,
        main players_file None = Raise (ColumnNotFoundError "Resultat"))
  /\ main None (Some scenario_weeks) = Raise (ColumnNotFoundError "Jugador").
Proof.
  split; [reflexivity |]. split; [reflexivity |]. split; [| vm_compute; reflexivity].
  intros players_file. reflexivity.
Qed.

(** ** Yellow cards per match (C3) *)

Example grogues_ratio_0_0 : grogues_ratio (VInt 0) (VInt 0) = VFloat f64_zero.
Proof. reflexivity. Qed.

Example grogues_ratio_2_4 :
  grogues_ratio (VInt 2) (VInt 4) = cast_float64 (VStr "0.5").
Proof. vm_compute. reflexivity. Qed.

Example grogues_ratio_0_5 : grogues_ratio (VInt 0) (VInt 5) = VFloat f64_zero.
Proof. reflexivity. Qed.

(** Null matches played gives null, which [fill_nan] leaves. *)
Example grogues_ratio_null : grogues_ratio (VInt 2) VNull = VNull.
Proof. reflexivity. Qed.

(** A numerator that is not zero over zero matches is an infinity. *)
Lemma grogues_ratio_over_zero s m e :
  grogues_ratio (VFloat (S754_finite s m e)) (VInt 0) = VFloat (S754_infinity s).
Proof. unfold grogues_ratio, truediv. simpl. by destruct s. Qed.

Example grogues_ratio_over_zero_examples :
  grogues_ratio (VInt 2) (VInt 0) = VFloat (S754_infinity false)
  /\ grogues_ratio (VInt 7) (VInt 0) = VFloat (S754_infinity false).
Proof. split; reflexivity. Qed.

(** C3 fails on the code: with one yellow card and no match played the
    division gives +infinity, which [fill_nan(0)] does not replace; the
    loader keeps such a player (0 matches is not null) and the leaderboard
    shows the infinite ratio. *)
Theorem C3_ratio_over_zero_matches :
  grogues_ratio (VInt 1) (VInt 0) = VFloat (S754_infinity false)
  /\ (exists lb, leaderboard_of (load_data (Some booked_file) None).1 = Ok lb
        /\ with_label "Major % Grogues/Partit" lb
           = [mkEntry (VStr "A") (VFloat (S754_infinity false)) no_suffix
                "Major % Grogues/Partit"]).
Proof.
  split; [reflexivity |].
  eexists. split; vm_compute; reflexivity.
Qed.

(** ** The cell model on examples *)

Example parse_float_examples :
  parse_float "3.50" = Some (f64_of_ratio false 7 2)
  /\ parse_float "-0.5" = Some (f64_of_ratio true 1 2)
  /\ parse_float "1e3" = Some (f64_of_Z 1000)
  /\ parse_float "12" = Some (f64_of_Z 12)
  /\ parse_float "inf" = Some (S754_infinity false)
  /\ parse_float "3,50" = None
  /\ parse_float EmptyString = None
  /\ parse_float "n/a" = None.
Proof. repeat split; vm_compute; reflexivity. Qed.

Example cast_int64_examples :
  cast_int64 (VStr "12") = VInt 12
  /\ cast_int64 (VStr "-3") = VInt (-3)
  /\ cast_int64 (VStr "12.5") = VNull
  /\ cast_int64 (VStr EmptyString) = VNull
  /\ cast_int64 (VFloat (f64_of_ratio false 7 2)) = VInt 3
  /\ cast_int64 (VFloat (f64_of_ratio true 7 2)) = VInt (-3)
  /\ cast_int64 (VFloat S754_nan) = VNull
  /\ cast_int64 (VFloat (S754_infinity false)) = VNull
  /\ cast_int64 (VFloat (f64_of_Z (2 ^ 63))) = VNull
  /\ cast_int64 (VFloat (f64_of_Z (- 2 ^ 63))) = VInt (- 2 ^ 63).
Proof. repeat split; vm_compute; reflexivity. Qed.

Example comma_float_examples :
  comma_float (VStr "0,75") = VFloat (f64_of_ratio false 3 4)
  /\ comma_float (VStr "0.75") = VFloat (f64_of_ratio false 3 4)
  /\ comma_float (VStr "1,234,5") = VNull
  /\ comma_float (VInt 2) = VFloat (f64_of_Z 2)
  /\ comma_float VNull = VNull.
Proof. repeat split; vm_compute; reflexivity. Qed.

Example round_cell_examples :
  round_cell (VFloat (f64_of_ratio false 1 3)) = cast_float64 (VStr "0.33")
  /\ round_cell (VFloat (f64_of_ratio false 2 3)) = cast_float64 (VStr "0.67")
  /\ round_cell (VFloat (f64_of_ratio false 7 2)) = VFloat (f64_of_ratio false 7 2)
  /\ round_cell (VInt 3) = VInt 3.
Proof. repeat split; vm_compute; reflexivity. Qed.

Example minutes_loaded_examples :
  minutes_loaded (VInt 90) = VInt 90
  /\ minutes_loaded (VStr "45,9") = VInt 45
  /\ minutes_loaded (VStr "n/a") = VInt 0
  /\ minutes_loaded (VStr "99999999999999999999") = VNull
  /\ minutes_loaded (VStr "nan") = VNull.
Proof. repeat split; vm_compute; reflexivity. Qed.

(** ** The loader, row by row and cell by cell *)

Lemma cell_nullify nv (r : row) k : cell (nullify nv r) k = null_token nv (cell r k).
Proof. unfold cell. simpl. rewrite lookup_fmap. by destruct (r !! k). Qed.

Lemma cell_round_row (r : row) k : cell (round_row r) k = round_cell (cell r k).
Proof. unfold cell. simpl. rewrite lookup_fmap. by destruct (r !! k). Qed.

Lemma cast_if_present_eq f df c :
  cast_if_present f df c
  = mkDF (columns df) (map (fun r => cast_row f (columns df) r c) (rows df)).
Proof.
  unfold cast_if_present, with_column, cast_row, has_column.
  destruct df as [cols l]. simpl. case_bool_decide; [done |].
  by rewrite map_id.
Qed.

Lemma fold_cast_if_present f cs df :
  fold_left (cast_if_present f) cs df
  = mkDF (columns df)
      (map (fun r => fold_left (cast_row f (columns df)) cs r) (rows df)).
Proof.
  revert df. induction cs as [|c cs IH]; intros df; cbn [fold_left].
  - destruct df. simpl. by rewrite map_id.
  - rewrite IH, cast_if_present_eq. simpl. by rewrite map_map.
Qed.

Lemma bind_Ok_l {A B} (a : A) (f : A -> result B) : Ok a ≫= f = f a.
Proof. reflexivity. Qed.

Lemma df_filter_eq {R} c (p : R -> bool) (df : DataFrame R) :
  df_filter c p df =
  if has_column c df then Ok (mkDF (columns df) (List.filter p (rows df)))
  else Raise (ColumnNotFoundError c).
Proof. unfold df_filter, require_column. by destruct (has_column c df). Qed.

Lemma has_column_mkDF {R} c cols (l : list R) :
  has_column c (mkDF cols l) = bool_decide (c ∈ cols).
Proof. reflexivity. Qed.

(** The [try] block on a table that was read. *)
Lemma try_load_players_Some t :
  try_load_players (Some t) =
  if has_column "Jugador" t then
    if has_column "Partits" t then
      Ok (mkDF (columns t) (loaded_rows (columns t) (rows t)))
    else Raise (ColumnNotFoundError "Partits")
  else Raise (ColumnNotFoundError "Jugador").
Proof.
  unfold try_load_players, read_csv. rewrite bind_Ok_l.
  rewrite df_filter_eq. rewrite has_column_mkDF. fold (has_column "Jugador" t).
  destruct (has_column "Jugador" t); [| reflexivity].
  rewrite bind_Ok_l. rewrite !fold_cast_if_present.
  cbn [columns rows]. rewrite !has_column_mkDF. unfold with_column.
  rewrite !has_column_mkDF. cbn [columns rows].
  rewrite df_filter_eq.
  unfold loaded_rows, load_row, name_ok, partits_ok.
  destruct (bool_decide (minuts ∈ columns t)) eqn:Hm; cbn [columns rows];
    rewrite has_column_mkDF; fold (has_column "Partits" t);
    (destruct (has_column "Partits" t); [| reflexivity]);
    rewrite !map_map; do 2 f_equal; f_equal; apply map_ext; intros r; by rewrite Hm.
Qed.

Lemma numeric_cols_int_NoDup : NoDup numeric_cols_int.
Proof. apply (bool_decide_unpack _). by vm_compute. Qed.

Lemma numeric_cols_float_NoDup : NoDup numeric_cols_float.
Proof. apply (bool_decide_unpack _). by vm_compute. Qed.

Lemma cell_cast_row f cols (r : row) c k :
  cell (cast_row f cols r c) k
  = if bool_decide (c = k) && bool_decide (c ∈ cols) then f (cell r c) else cell r k.
Proof.
  unfold cast_row. case_bool_decide as Hc.
  - rewrite cell_insert, andb_true_r. by repeat case_decide; case_bool_decide.
  - by rewrite andb_false_r.
Qed.

(** A cast loop applies the cast once to each listed column the table has. *)
Lemma cell_fold_cast f cols cs (r : row) k :
  NoDup cs ->
  cell (fold_left (cast_row f cols) cs r) k
  = if bool_decide (k ∈ cs) && bool_decide (k ∈ cols) then f (cell r k) else cell r k.
Proof.
  intros Hnd. revert r. induction Hnd as [|c cs Hc Hnd IH]; intros r; cbn [fold_left].
  - done.
  - rewrite IH, !cell_cast_row.
    destruct (decide (c = k)) as [->|Hne].
    + rewrite (bool_decide_eq_true_2 (k = k)) by done.
      rewrite (bool_decide_eq_false_2 (k ∈ cs)) by done.
      rewrite (bool_decide_eq_true_2 (k ∈ k :: cs)) by left. done.
    + rewrite (bool_decide_eq_false_2 (c = k)) by done. simpl.
      destruct (decide (k ∈ cs)) as [Hin|Hnin].
      * rewrite (bool_decide_eq_true_2 (k ∈ cs)) by done.
        rewrite (bool_decide_eq_true_2 (k ∈ c :: cs)) by (by right). done.
      * rewrite (bool_decide_eq_false_2 (k ∈ cs)) by done.
        rewrite (bool_decide_eq_false_2 (k ∈ c :: cs)); [done |].
        intros [?|?]%elem_of_cons; congruence.
Qed.

Lemma cell_load_row cols (r : row) k :
  cell (load_row cols r) k = loaded_cell cols k (cell r k).
Proof.
  unfold load_row, loaded_cell.
  assert (Hfold :
    cell (fold_left (cast_row comma_float cols) numeric_cols_float
            (fold_left (cast_row cast_int64 cols) numeric_cols_int r)) k
    = if bool_decide (k ∈ cols) then
        let v := if bool_decide (k ∈ numeric_cols_int) then cast_int64 (cell r k)
                 else cell r k in
        if bool_decide (k ∈ numeric_cols_float) then comma_float v else v
      else cell r k).
  { rewrite (cell_fold_cast _ _ _ _ _ numeric_cols_float_NoDup).
    rewrite (cell_fold_cast _ _ _ _ _ numeric_cols_int_NoDup).
    by destruct (bool_decide (k ∈ cols)), (bool_decide (k ∈ numeric_cols_int)),
         (bool_decide (k ∈ numeric_cols_float)). }
  destruct (decide (k = minuts)) as [->|Hne].
  - rewrite (bool_decide_eq_true_2 (minuts = minuts)) by done.
    destruct (bool_decide (minuts ∈ cols)) eqn:Hc.
    + rewrite cell_insert. rewrite decide_True by done. by rewrite Hfold.
    + by rewrite Hfold.
  - rewrite (bool_decide_eq_false_2 (k = minuts)) by done.
    destruct (bool_decide (minuts ∈ cols)) eqn:Hc.
    + rewrite cell_insert, decide_False by done. by rewrite Hfold.
    + by rewrite Hfold.
Qed.

(** The name column is in neither cast list, the matches column is an
    integer column, the minutes column a float column only. *)
Lemma loaded_cell_name cols v : loaded_cell cols "Jugador" v = v.
Proof. unfold loaded_cell. by case_bool_decide. Qed.

Lemma loaded_cell_partits cols v :
  "Partits" ∈ cols -> loaded_cell cols "Partits" v = cast_int64 v.
Proof. intros H. unfold loaded_cell. by rewrite bool_decide_eq_true_2. Qed.

Lemma loaded_cell_minuts cols v :
  minuts ∈ cols ->
  loaded_cell cols minuts (null_token ["#DIV/0!"] v) = minutes_loaded v.
Proof. intros H. unfold loaded_cell. by rewrite bool_decide_eq_true_2. Qed.

(** The players frame that [load_data] returns. *)
Lemma load_data_players pf wf :
  (load_data pf wf).1 = round_df (or_empty (try_load_players pf)).
Proof. reflexivity. Qed.

Lemma loaded_players_rows t wf :
  "Jugador" ∈ columns t -> "Partits" ∈ columns t ->
  rows (load_data (Some t) wf).1 = map round_row (loaded_rows (columns t) (rows t)).
Proof.
  intros Hj Hp. rewrite load_data_players, try_load_players_Some.
  unfold has_column. by rewrite !bool_decide_eq_true_2.
Qed.

Lemma loaded_players_empty t wf :
  ~ ("Jugador" ∈ columns t /\ "Partits" ∈ columns t) ->
  rows (load_data (Some t) wf).1 = [].
Proof.
  intros Hno. rewrite load_data_players, try_load_players_Some.
  unfold has_column. repeat case_bool_decide; try done. tauto.
Qed.

(** Every loaded row comes from a row of the table that has a name and a
    number of matches, cell by cell. *)
Lemma loaded_row_source t wf r' :
  r' ∈ rows (load_data (Some t) wf).1 ->
  exists r, r ∈ rows t
    /\ is_not_null (null_token ["#DIV/0!"] (cell r "Jugador")) = true
    /\ is_not_null (cast_int64 (null_token ["#DIV/0!"] (cell r "Partits"))) = true
    /\ forall k, cell r' k
         = round_cell (loaded_cell (columns t) k (null_token ["#DIV/0!"] (cell r k))).
Proof.
  intros Hr'.
  destruct (decide ("Jugador" ∈ columns t /\ "Partits" ∈ columns t)) as [[Hj Hp]|Hno].
  - rewrite loaded_players_rows in Hr' by done.
    apply list_elem_of_fmap in Hr' as (r1 & -> & Hr1).
    unfold loaded_rows in Hr1.
    apply elem_of_List_filter in Hr1 as [Hr1 Hpok].
    apply list_elem_of_fmap in Hr1 as (r2 & -> & Hr2).
    apply elem_of_List_filter in Hr2 as [Hr2 Hnok].
    apply list_elem_of_fmap in Hr2 as (r & -> & Hr).
    exists r. unfold name_ok, partits_ok in *.
    rewrite cell_load_row, cell_nullify, loaded_cell_partits in Hpok by done.
    rewrite cell_nullify in Hnok.
    repeat split; try done.
    intros k. by rewrite cell_round_row, cell_load_row, cell_nullify.
  - rewrite loaded_players_empty in Hr' by done. by apply elem_of_nil in Hr'.
Qed.


(** ** The name filter (C10) *)

Lemma round_cell_not_null v : is_not_null (round_cell v) = is_not_null v.
Proof. by destruct v. Qed.

Lemma loaded_rows_drop cols l1 r l2 :
  null_token ["#DIV/0!"] (cell r "Jugador") = VNull ->
  loaded_rows cols (l1 ++ r :: l2) = loaded_rows cols (l1 ++ l2).
Proof.
  intros Hnull. unfold loaded_rows.
  rewrite !map_app, !List.filter_app. cbn [map List.filter].
  unfold name_ok at 2. by rewrite cell_nullify, Hnull.
Qed.

(** C10: every player record the loader returns has a name, and a row whose
    name cell is null or the error token is dropped whatever its other cells
    hold (a valid number of matches included): the table loads as if the
    row were not there. *)
Theorem C10_rows_without_name_dropped :
  (forall pf wf r,
     r ∈ rows (load_data pf wf).1 -> is_not_null (cell r "Jugador") = true)
  /\ (forall cols l1 r l2 wf,
        null_token ["#DIV/0!"] (cell r "Jugador") = VNull ->
        load_data (Some (mkDF cols (l1 ++ r :: l2))) wf
        = load_data (Some (mkDF cols (l1 ++ l2))) wf)
  /\ map (fun r => cell r "Jugador") (rows (load_data (Some nameless_file) None).1)
     = [VStr "A"].
Proof.
  split; [| split].
  - intros [t|] wf r Hr; [| by apply elem_of_nil in Hr].
    apply loaded_row_source in Hr as (r0 & _ & Hn & _ & Hcells).
    by rewrite Hcells, round_cell_not_null, loaded_cell_name.
  - intros cols l1 r l2 wf Hnull. unfold load_data.
    rewrite !try_load_players_Some. unfold has_column. cbn [columns rows].
    by rewrite loaded_rows_drop.
  - vm_compute. reflexivity.
Qed.

(** C10 on a table with a row whose name cell is the error token. *)
Lemma C10_rows_without_name_dropped_witness :
  null_token ["#DIV/0!"] (cell (player "#DIV/0!" (VInt 4) (VInt 9)) "Jugador") = VNull
  /\ load_data (Some nameless_file) None
     = load_data (Some (mkDF players_columns [player "A" (VInt 4) (VInt 5)])) None.
Proof.
  assert (H : null_token ["#DIV/0!"]
                (cell (player "#DIV/0!" (VInt 4) (VInt 9)) "Jugador") = VNull)
    by (vm_compute; reflexivity).
  split; [exact H |].
  exact (proj1 (proj2 C10_rows_without_name_dropped) players_columns
           [player "A" (VInt 4) (VInt 5)] _ [] None H).
Defined.

(** ** Minutes without conceding (C7) *)

Lemma cast_int64_cases v :
  cast_int64 v = VNull
  \/ (exists z, cast_int64 v = VInt z /\ in_int64 z = true)
  \/ (exists z, v = VInt z /\ cast_int64 v = VInt z).
Proof.
  destruct v as [|z|f|s]; simpl.
  - by left.
  - right. right. by exists z.
  - destruct (f64_trunc f) as [z|]; [| by left].
    destruct (in_int64 z) eqn:Hz; eauto.
  - destruct (parse_integer s) as [z|]; [| by left].
    destruct (in_int64 z) eqn:Hz; eauto.
Qed.

Lemma round_cell_cast_int64 v : round_cell (cast_int64 v) = cast_int64 v.
Proof.
  destruct (cast_int64_cases v) as [->|[(z & -> & _)|(z & _ & ->)]]; done.
Qed.

Lemma comma_float_cases v :
  comma_float v = VNull \/ exists f, comma_float v = VFloat f.
Proof.
  destruct v as [|z|f|s]; simpl; eauto.
  destruct (parse_float (replace_comma s)); eauto.
Qed.

(** C7.  In every retained player record of a table that has the column, the
    minutes field is what [minutes_loaded] makes of the raw cell.  Null is
    replaced by 0 before the integer coercion, so an absent cell, the error
    token and a text that is not a number load as 0, and a cell that reads
    as a number whose integer part is a 64-bit integer loads as that integer
    part.  The replacement misses the cells that read as NaN, an infinity or
    a number beyond the 64-bit integers: they pass [fill_null(0)] as doubles
    and the non-strict cast makes them null, as on the table with the cell
    1e30.  Whatever the cell, the field is null or a 64-bit integer. *)
Theorem C7_minutes_field :
  (forall t wf r',
     minuts ∈ columns t ->
     r' ∈ rows (load_data (Some t) wf).1 ->
     exists r, r ∈ rows t /\ cell r' minuts = minutes_loaded (cell r minuts))
  /\ minutes_loaded VNull = VInt 0
  /\ minutes_loaded (VStr "#DIV/0!") = VInt 0
  /\ (forall s, parse_float (replace_comma s) = None ->
        minutes_loaded (VStr s) = VInt 0)
  /\ (forall s f z,
        s <> "#DIV/0!" -> parse_float (replace_comma s) = Some f ->
        f64_trunc f = Some z -> in_int64 z = true ->
        minutes_loaded (VStr s) = VInt z)
  /\ (forall f z,
        f64_trunc f = Some z -> in_int64 z = true ->
        minutes_loaded (VFloat f) = VInt z)
  /\ (forall z, minutes_loaded (VInt z) = minutes_loaded (VFloat (f64_of_Z z)))
  /\ (forall v, minutes_loaded v = VNull
        \/ exists z, minutes_loaded v = VInt z /\ in_int64 z = true)
  /\ (forall v, minutes_loaded v = VNull <->
        exists f, comma_float (null_token ["#DIV/0!"] v) = VFloat f
          /\ forall z, f64_trunc f = Some z -> in_int64 z = false)
  /\ map (fun r => (cell r "Jugador", cell r minuts))
       (rows (load_data (Some minutes_file) None).1)
     = [(VStr "A", VInt 12); (VStr "B", VInt 90); (VStr "C", VInt 0);
        (VStr "D", VInt 0); (VStr "E", VInt 0)]
  /\ map (fun r => (cell r "Jugador", cell r minuts))
       (rows (load_data (Some overflow_file) None).1)
     = [(VStr "A", VNull)].
Proof.
  split_and!.
  - intros t wf r' Hm Hr'.
    apply loaded_row_source in Hr' as (r & Hr & _ & _ & Hcells).
    exists r. split; [done |].
    rewrite Hcells, loaded_cell_minuts by done.
    unfold minutes_loaded. apply round_cell_cast_int64.
  - reflexivity.
  - reflexivity.
  - intros s Hs. unfold minutes_loaded, null_token.
    case_bool_decide; [reflexivity |]. simpl. by rewrite Hs.
  - intros s f z Hs Hf Hz Hin. unfold minutes_loaded, null_token.
    rewrite bool_decide_eq_false_2 by (by intros ->%list_elem_of_singleton).
    simpl. by rewrite Hf; simpl; rewrite Hz, Hin.
  - intros f z Hz Hin. unfold minutes_loaded. simpl. by rewrite Hz, Hin.
  - reflexivity.
  - intros v. unfold minutes_loaded.
    destruct (comma_float_cases (null_token ["#DIV/0!"] v)) as [->|[f ->]];
      [right; by exists 0 |].
    simpl. destruct (f64_trunc f) as [z|]; [| by left].
    destruct (in_int64 z) eqn:Hz; [right; by exists z | by left].
  - intros v. unfold minutes_loaded.
    destruct (comma_float_cases (null_token ["#DIV/0!"] v)) as [->|[f ->]].
    + split; [discriminate | by intros (f & ? & _)].
    + simpl. split.
      * intros H. exists f. split; [done |]. intros z Hz. rewrite Hz in H.
        by destruct (in_int64 z).
      * intros (f' & [= <-] & Hf). destruct (f64_trunc f) as [z|]; [| done].
        by rewrite (Hf z).
  - vm_compute. reflexivity.
  - vm_compute. reflexivity.
Qed.

(** C7 on the table with the cell 1e30, on a text that is not a number and
    on the text 12,7, which reads as a double with integer part 12. *)
Lemma C7_minutes_field_witness :
  minuts ∈ columns overflow_file
  /\ overflow_row ∈ rows (load_data (Some overflow_file) None).1
  /\ (exists r, r ∈ rows overflow_file
         /\ cell overflow_row minuts = minutes_loaded (cell r minuts))
  /\ parse_float (replace_comma "n/a") = None
  /\ minutes_loaded (VStr "n/a") = VInt 0
  /\ parse_float (replace_comma "12,7") = Some (f64_of_ratio false 127 10)
  /\ f64_trunc (f64_of_ratio false 127 10) = Some 12
  /\ in_int64 12 = true
  /\ minutes_loaded (VStr "12,7") = VInt 12
  /\ minutes_loaded (VFloat (f64_of_ratio false 127 10)) = VInt 12.
Proof.
  assert (Hm : minuts ∈ columns overflow_file) by (by apply (bool_decide_unpack _)).
  assert (Hr : overflow_row ∈ rows (load_data (Some overflow_file) None).1)
    by (apply (bool_decide_unpack _); by vm_compute).
  assert (Hp : parse_float (replace_comma "n/a") = None) by reflexivity.
  assert (Hs : "12,7" <> "#DIV/0!") by discriminate.
  assert (Hf : parse_float (replace_comma "12,7") = Some (f64_of_ratio false 127 10))
    by (vm_compute; reflexivity).
  assert (Hz : f64_trunc (f64_of_ratio false 127 10) = Some 12)
    by (vm_compute; reflexivity).
  assert (Hin : in_int64 12 = true) by reflexivity.
  destruct C7_minutes_field as (Hrow & _ & _ & Htext & Hnum & Hdouble & _).
  split; [exact Hm |]. split; [exact Hr |].
  split; [exact (Hrow overflow_file None overflow_row Hm Hr) |].
  split; [exact Hp |]. split; [exact (Htext "n/a" Hp) |].
  split; [exact Hf |]. split; [exact Hz |]. split; [exact Hin |].
  split; [exact (Hnum "12,7" _ 12 Hs Hf Hz Hin) |].
  exact (Hdouble _ 12 Hz Hin).
Defined.

(** ** Non-strict coercion (C8) *)

Lemma try_load_players_total t :
  "Jugador" ∈ columns t -> "Partits" ∈ columns t ->
  is_ok (try_load_players (Some t)) = true.
Proof.
  intros Hj Hp. rewrite try_load_players_Some. unfold has_column.
  by rewrite !bool_decide_eq_true_2.
Qed.


(** A cast loop is a map over the rows: it drops none. *)
Lemma cast_loop_length f cs df :
  length (rows (fold_left (cast_if_present f) cs df)) = length (rows df).
Proof. rewrite fold_cast_if_present. simpl. apply length_map. Qed.

Lemma loaded_cell_float cols k v :
  k ∈ cols -> k ∈ numeric_cols_float -> k <> minuts ->
  loaded_cell cols k v = comma_float v.
Proof.
  intros Hc Hf Hne. apply list_elem_of_In in Hf. simpl in Hf.
  repeat (destruct Hf as [<- | Hf];
          [first [ done | unfold loaded_cell; by rewrite bool_decide_eq_true_2 ] |]).
  destruct Hf.
Qed.

Lemma loaded_cell_int cols k v :
  k ∈ cols -> k ∈ numeric_cols_int -> loaded_cell cols k v = cast_int64 v.
Proof.
  intros Hc Hi. apply list_elem_of_In in Hi. simpl in Hi.
  repeat (destruct Hi as [<- | Hi];
          [unfold loaded_cell; by rewrite bool_decide_eq_true_2 |]).
  destruct Hi.
Qed.





(** ** Leaderboard metrics 1 to 6 (C9) *)

Lemma loaded_players_columns t wf :
  "Jugador" ∈ columns t -> "Partits" ∈ columns t ->
  columns (load_data (Some t) wf).1 = columns t.
Proof.
  intros Hj Hp. rewrite load_data_players, try_load_players_Some.
  unfold has_column. by rewrite !bool_decide_eq_true_2.
Qed.

Lemma loaded_cell_grogues cols v :
  "Grogues" ∈ cols -> loaded_cell cols "Grogues" v = cast_int64 v.
Proof. intros H. unfold loaded_cell. by rewrite bool_decide_eq_true_2. Qed.

Lemma loaded_cell_vermelles cols v :
  "Vermelles" ∈ cols -> loaded_cell cols "Vermelles" v = cast_int64 v.
Proof. intros H. unfold loaded_cell. by rewrite bool_decide_eq_true_2. Qed.

Lemma cast_int64_int_or_null v :
  cast_int64 v = VNull \/ exists z, cast_int64 v = VInt z.
Proof.
  destruct (cast_int64_cases v) as [H|[(z & H & _)|(z & _ & H)]]; eauto.
Qed.

(** After the loader the cards columns hold integers or null. *)
Lemma loaded_cards_are_numbers t wf :
  leaderboard_columns ⊆ columns t ->
  cards_are_numbers (load_data (Some t) wf).1.
Proof.
  unfold leaderboard_columns. intros Hc r' Hr'.
  apply loaded_row_source in Hr' as (r & _ & _ & _ & Hcells).
  rewrite !Hcells.
  rewrite loaded_cell_grogues, loaded_cell_partits, loaded_cell_vermelles by in_columns.
  rewrite !round_cell_cast_int64.
  repeat split.
  - by destruct (cast_int64_int_or_null (null_token ["#DIV/0!"] (cell r "Grogues")))
      as [->|[z ->]].
  - by destruct (cast_int64_int_or_null (null_token ["#DIV/0!"] (cell r "Partits")))
      as [->|[z ->]].
  - apply cast_int64_int_or_null.
Qed.

(** After the loader the columns of the metrics 1 to 6 hold no text. *)
Lemma loaded_metric_not_text t wf r col lbl suf :
  leaderboard_columns ⊆ columns t ->
  (col, lbl, suf) ∈ metrics_1_6 ->
  r ∈ rows (load_data (Some t) wf).1 ->
  is_text (cell r col) = false.
Proof.
  unfold leaderboard_columns. intros Hc Hm Hr.
  apply loaded_row_source in Hr as (r0 & _ & _ & _ & Hcells). rewrite Hcells.
  set (v := null_token ["#DIV/0!"] (cell r0 col)).
  assert (Hint : is_text (round_cell (cast_int64 v)) = false).
  { rewrite round_cell_cast_int64.
    by destruct (cast_int64_int_or_null v) as [->|[z ->]]. }
  assert (Hfloat : is_text (round_cell (comma_float v)) = false).
  { by destruct (comma_float_cases v) as [->|[f ->]]. }
  apply list_elem_of_In in Hm. simpl in Hm.
  destruct Hm as [Hm|[Hm|[Hm|[Hm|[Hm|[Hm|[]]]]]]]; injection Hm as <- <- <-;
    subst v.
  - rewrite loaded_cell_int; [done | in_columns | by apply (bool_decide_unpack _)].
  - rewrite loaded_cell_float;
      [done | in_columns | by apply (bool_decide_unpack _) | done].
  - rewrite loaded_cell_int; [done | in_columns | by apply (bool_decide_unpack _)].
  - rewrite loaded_cell_float;
      [done | in_columns | by apply (bool_decide_unpack _) | done].
  - rewrite loaded_cell_minuts by in_columns. unfold minutes_loaded.
    rewrite round_cell_cast_int64.
    by destruct (cast_int64_int_or_null
                   (fill_null (VFloat f64_zero)
                      (comma_float (null_token ["#DIV/0!"] (cell r0 minuts)))))
      as [->|[z ->]].
  - rewrite loaded_cell_float;
      [done | in_columns | by apply (bool_decide_unpack _) | done].
Qed.

(** A value that is neither null nor a text is a number or NaN. *)
Lemma number_or_nan v :
  is_not_null v = true -> is_text v = false ->
  v = VFloat S754_nan \/ is_Some (number_of v).
Proof.
  destruct v as [|z|[s|[]| |s m e]|x]; try done; intros _ _;
    first [by left | right; by eexists].
Qed.

Lemma value_le_nan v : ~ value_le v (VFloat S754_nan).
Proof. unfold value_le. cbn [number_of]. intros H. by destruct (number_of v). Qed.

(** C9 fails on the code where it says that the maximum value is selected:
    a win rate that reads as NaN is not null, the descending sort puts it
    first, and the entry names its player, although the rate 0.9 of the
    other player is no less. *)
Lemma C9_nan_rate_selected :
  map (fun r => (cell r "Jugador", cell r "Win Rate")) (rows nan_players)
  = [ (VStr "A", VFloat (f64_of_ratio false 9 10)); (VStr "B", VFloat S754_nan) ]
  /\ leaderboard_of nan_players = Ok nan_leaderboard
  /\ map name (with_label "Major % Victòria" nan_leaderboard) = [VStr "B"]
  /\ ~ value_le (VFloat (f64_of_ratio false 9 10)) (VFloat S754_nan).
Proof.
  split_and!; [vm_compute; reflexivity.. |]. apply value_le_nan.
Qed.

(** C9, amended: for every players table that has the columns the
    leaderboard reads, the leaderboard of the loaded players is produced
    and, for each of the metrics 1 to 6, either every player has a null
    source value and there is no entry under the metric's label, or there is
    exactly one, which names a player whose value is not null and stands
    first in the descending sort order: its value is NaN, which the sort
    puts above every number, or every value that is not null is a number at
    most it.  With goals 5, 9 and null the entry for most goals names the
    player with 9. *)
Theorem C9_leaderboard_maximum :
  (forall t wf, leaderboard_columns ⊆ columns t ->
     exists lb, leaderboard_of (load_data (Some t) wf).1 = Ok lb
       /\ forall col lbl suf, (col, lbl, suf) ∈ metrics_1_6 ->
            ((forall r, r ∈ rows (load_data (Some t) wf).1 -> cell r col = VNull)
             /\ with_label lbl lb = [])
            \/ (exists e r, with_label lbl lb = [e]
                  /\ is_top (load_data (Some t) wf).1 col r
                  /\ name e = cell r "Jugador"
                  /\ (cell r col = VFloat S754_nan
                      \/ forall r', r' ∈ rows (load_data (Some t) wf).1 ->
                           is_not_null (cell r' col) = true ->
                           value_le (cell r' col) (cell r col))))
  /\ map (fun r => (cell r "Jugador", cell r "Gols")) (rows goals_players)
     = [(VStr "A", VInt 5); (VStr "B", VInt 9); (VStr "C", VNull)]
  /\ (exists lb, leaderboard_of goals_players = Ok lb
        /\ with_label "Màxim Golejador" lb
           = [mkEntry (VStr "B") (VInt 9) no_suffix "Màxim Golejador"]).
Proof.
  split; [| split].
  - intros t wf Hc.
    assert (Hcols : leaderboard_columns ⊆ columns (load_data (Some t) wf).1).
    { unfold leaderboard_columns in *.
      rewrite loaded_players_columns by in_columns. done. }
    destruct (is_ok_Ok _ (leaderboard_of_total _ Hcols (loaded_cards_are_numbers t wf Hc)))
      as [lb Hlb].
    exists lb. split; [done |]. intros col lbl suf Hm.
    destruct (leaderboard_metric _ _ _ _ suf Hlb Hm)
      as [Hnone|(e & r & He & Htop & Hname)]; [by left | right].
    exists e, r. split_and!; [done.. |].
    pose proof Htop as (Hr & Hnn & Hmax).
    destruct (number_or_nan _ Hnn (loaded_metric_not_text t wf r col lbl suf Hc Hm Hr))
      as [Hnan|Hnum]; [by left | right].
    intros r' Hr' Hnn'. apply scalar_leb_value; [done | done | by apply Hmax].
  - vm_compute. reflexivity.
  - exists goals_leaderboard. split; vm_compute; reflexivity.
Qed.

(** C9 on the table with goals 5, 9 and null, for the metric of most goals. *)
Lemma C9_leaderboard_maximum_witness :
  leaderboard_columns ⊆ columns goals_file
  /\ ("Gols", "Màxim Golejador", no_suffix) ∈ metrics_1_6
  /\ exists lb, leaderboard_of goals_players = Ok lb
       /\ (((forall r, r ∈ rows goals_players -> cell r "Gols" = VNull)
            /\ with_label "Màxim Golejador" lb = [])
           \/ (exists e r, with_label "Màxim Golejador" lb = [e]
                 /\ is_top goals_players "Gols" r
                 /\ name e = cell r "Jugador"
                 /\ (cell r "Gols" = VFloat S754_nan
                     \/ forall r', r' ∈ rows goals_players ->
                          is_not_null (cell r' "Gols") = true ->
                          value_le (cell r' "Gols") (cell r "Gols")))).
Proof.
  assert (Hc : leaderboard_columns ⊆ columns goals_file).
  { intros c Hin. apply (bool_decide_unpack _).
    apply list_elem_of_In in Hin. simpl in Hin.
    repeat (destruct Hin as [<- | Hin]; [by vm_compute |]). destruct Hin. }
  assert (Hm : ("Gols", "Màxim Golejador", no_suffix) ∈ metrics_1_6)
    by apply list_elem_of_here.
  split; [exact Hc |]. split; [exact Hm |].
  destruct (proj1 C9_leaderboard_maximum goals_file None Hc) as (lb & Hlb & Hall).
  exists lb. split; [exact Hlb |]. exact (Hall _ _ _ Hm).
Defined.

(** * Further properties of the code *)

(** ** [calculate_stats]: what it reads, and in what order *)

Lemma bind_Raise_l {A B} (e : exn) (f : A -> result B) : Raise e ≫= f = Raise e.
Proof. reflexivity. Qed.

Lemma column_sum_check {B} c cell_of df (k : result B) :
  column_sum c cell_of df ≫= (fun _ => k)
  = number_column c cell_of df ≫= (fun _ => k).
Proof.
  unfold column_sum, number_column.
  destruct (require_column c df) as [[]|e]; [| reflexivity].
  rewrite !bind_Ok_l. by destruct (has_number cell_of df).
Qed.

(** [calculate_stats] after its checks. *)
Lemma calculate_stats_eq df :
  calculate_stats df =
  (_ ← require_column "Resultat" df;
   _ ← number_column "Marcador Local" Marcador_Local df;
   _ ← number_column "Marcador Visitant" Marcador_Visitant df;
   _ ← require_keys ["Marcador Local"; "Marcador Visitant"; "Posició"] df;
   mret (mkStats (height df) (tally "Victòria" (rows df)) (tally "Empat" (rows df))
           (tally "Derrota" (rows df))
           (zsum (map match_gf (rows df))) (zsum (map match_ga (rows df))))).
Proof.
  unfold calculate_stats, df_filter.
  destruct (require_column "Resultat" df) as [[]|e]; [| reflexivity].
  rewrite ?bind_Ok_l. cbn [mret result_ret]. rewrite ?bind_Ok_l.
  rewrite column_sum_check.
  destruct (number_column "Marcador Local" _ df) as [[]|e]; [| reflexivity].
  rewrite ?bind_Ok_l, column_sum_check.
  destruct (number_column "Marcador Visitant" _ df) as [[]|e]; [| reflexivity].
  rewrite ?bind_Ok_l.
  destruct (require_keys _ df) as [[]|e]; [| reflexivity].
  rewrite ?bind_Ok_l, stats_fold. reflexivity.
Qed.

Lemma List_filter_Permutation {A} (p : A -> bool) (l1 l2 : list A) :
  l1 ≡ₚ l2 -> List.filter p l1 ≡ₚ List.filter p l2.
Proof.
  induction 1 as [|x l1 l2 _ IH|x y l|l1 l2 l3 _ IH1 _ IH2]; simpl.
  - done.
  - destruct (p x); [by constructor | done].
  - destruct (p x), (p y); try done. apply perm_swap.
  - by etrans.
Qed.

Lemma tally_Permutation s l1 l2 : l1 ≡ₚ l2 -> tally s l1 = tally s l2.
Proof.
  intros Hp. unfold tally. f_equal.
  by apply Permutation_length, List_filter_Permutation.
Qed.

Lemma require_column_columns {R} c (df1 df2 : DataFrame R) :
  columns df1 = columns df2 -> require_column c df1 = require_column c df2.
Proof. intros H. unfold require_column, has_column. by rewrite H. Qed.

Lemma existsb_Permutation {A} (p : A -> bool) (l1 l2 : list A) :
  l1 ≡ₚ l2 -> existsb p l1 = existsb p l2.
Proof.
  induction 1 as [|x l1 l2 _ IH|x y l|l1 l2 l3 _ IH1 _ IH2]; simpl.
  - done.
  - by rewrite IH.
  - by destruct (p x), (p y).
  - by etrans.
Qed.

Lemma number_column_Permutation c cell_of (df1 df2 : DataFrame MatchRecord) :
  columns df1 = columns df2 -> rows df1 ≡ₚ rows df2 ->
  number_column c cell_of df1 = number_column c cell_of df2.
Proof.
  intros Hc Hp. unfold number_column, has_number.
  by rewrite (require_column_columns _ df1 df2 Hc), (existsb_Permutation _ _ _ Hp).
Qed.

Lemma require_keys_Permutation {R} ks (df1 df2 : DataFrame R) :
  columns df1 = columns df2 -> rows df1 ≡ₚ rows df2 ->
  require_keys ks df1 = require_keys ks df2.
Proof.
  intros Hc Hp. unfold require_keys, has_column. rewrite Hc.
  destruct (rows df1) as [|a l1], (rows df2) as [|b l2]; try done.
  - by apply Permutation_nil_cons in Hp.
  - symmetry in Hp. by apply Permutation_nil_cons in Hp.
Qed.

(** The season statistics do not depend on the order of the rows: two
    tables with the same header and the same rows in any order give the same
    result, the same exception included. *)
Theorem calculate_stats_order_independent (df1 df2 : DataFrame MatchRecord) :
  columns df1 = columns df2 ->
  rows df1 ≡ₚ rows df2 ->
  calculate_stats df1 = calculate_stats df2.
Proof.
  intros Hc Hp. rewrite !calculate_stats_eq.
  rewrite !(require_column_columns _ df1 df2 Hc).
  rewrite !(number_column_Permutation _ _ df1 df2 Hc Hp).
  rewrite (require_keys_Permutation _ df1 df2 Hc Hp).
  unfold height.
  rewrite (Permutation_length Hp), !(tally_Permutation _ _ _ Hp),
    !(zsum_map_Permutation _ _ _ Hp).
  reflexivity.
Qed.

(** The same statistics for the scenario and for its rows swapped. *)
Lemma calculate_stats_order_independent_witness :
  columns scenario_weeks = columns (weeks_frame (rev (rows scenario_weeks)))
  /\ rows scenario_weeks ≡ₚ rows (weeks_frame (rev (rows scenario_weeks)))
  /\ calculate_stats scenario_weeks
     = calculate_stats (weeks_frame (rev (rows scenario_weeks))).
Proof.
  assert (Hc : columns scenario_weeks
               = columns (weeks_frame (rev (rows scenario_weeks)))) by reflexivity.
  assert (Hp : rows scenario_weeks ≡ₚ rows (weeks_frame (rev (rows scenario_weeks))))
    by apply perm_swap.
  split; [exact Hc |]. split; [exact Hp |].
  exact (calculate_stats_order_independent _ _ Hc Hp).
Defined.

Lemma match_goals_known_side r : match_gf r + match_ga r = scores_of_known_side r.
Proof.
  unfold match_gf, match_ga, scores_of_known_side.
  destruct (str_is (Posicio r) "Local"); simpl; [lia |].
  destruct (str_is (Posicio r) "Visitant"); lia.
Qed.

Lemma zsum_map_add {A} (f g h : A -> Z) (l : list A) :
  (forall x, f x + g x = h x) ->
  zsum (map f l) + zsum (map g l) = zsum (map h l).
Proof.
  intros H. induction l as [|x l IH]; simpl; [done |]. specialize (H x). lia.
Qed.

(** [calculate_stats] returns on every weeks table that has the columns and
    a number in each score column, and whenever it returns, the goal totals
    are the sums of the goals of each match resolved through its side (null
    scores counting 0), and together they are the sum of both scores of the
    matches whose side is one of the two values: a match with any other side
    adds nothing to either total. *)
Theorem calculate_stats_goals (df : DataFrame MatchRecord) :
  (weeks_columns ⊆ columns df ->
   has_number Marcador_Local df = true -> has_number Marcador_Visitant df = true ->
   exists st, calculate_stats df = Ok st)
  /\ forall st, calculate_stats df = Ok st ->
       total_goals_for st = zsum (map match_gf (rows df))
       /\ total_goals_against st = zsum (map match_ga (rows df))
       /\ total_goals_for st + total_goals_against st
          = zsum (map scores_of_known_side (rows df)).
Proof.
  split.
  - intros Hc Hl Hv. by apply is_ok_Ok, calculate_stats_total.
  - intros st Hst. apply calculate_stats_Ok in Hst as ->. simpl.
    repeat split. apply zsum_map_add, match_goals_known_side.
Qed.

Lemma calculate_stats_goals_witness :
  weeks_columns ⊆ columns scenario_weeks
  /\ has_number Marcador_Local scenario_weeks = true
  /\ has_number Marcador_Visitant scenario_weeks = true
  /\ (exists st, calculate_stats scenario_weeks = Ok st)
  /\ calculate_stats scenario_weeks = Ok (mkStats 2 1 1 0 4 2)
  /\ total_goals_for (mkStats 2 1 1 0 4 2) + total_goals_against (mkStats 2 1 1 0 4 2)
     = zsum (map scores_of_known_side (rows scenario_weeks)).
Proof.
  assert (Hc : weeks_columns ⊆ columns scenario_weeks) by (intros c Hin; exact Hin).
  assert (Hst : calculate_stats scenario_weeks = Ok (mkStats 2 1 1 0 4 2))
    by (vm_compute; reflexivity).
  split; [exact Hc |]. split; [reflexivity |]. split; [reflexivity |].
  split; [exact (proj1 (calculate_stats_goals scenario_weeks) Hc eq_refl eq_refl) |].
  split; [exact Hst |].
  exact (proj2 (proj2 (proj2 (calculate_stats_goals scenario_weeks) _ Hst))).
Defined.

(** ** The chart series: order of the rows, bounds *)

Lemma key_leb_antisym a b : key_leb a b = true -> key_leb b a = true -> a = b.
Proof. destruct a, b; simpl; try done. intros. f_equal. lia. Qed.

Lemma NoDup_fmap_inj_on {A B} (f : A -> B) (l : list A) x y :
  NoDup (map f l) -> x ∈ l -> y ∈ l -> f x = f y -> x = y.
Proof.
  induction l as [|a l IH]; simpl; intros Hnd Hx Hy Hf.
  - by apply elem_of_nil in Hx.
  - apply NoDup_cons in Hnd as [Ha Hnd].
    apply elem_of_cons in Hx as [->|Hx], Hy as [->|Hy]; auto.
    + exfalso. apply Ha. rewrite Hf. by apply list_elem_of_fmap_2.
    + exfalso. apply Ha. rewrite <- Hf. by apply list_elem_of_fmap_2.
Qed.

(** With distinct fixture indices the sorted rows are determined. *)
Lemma sort_by_jornada_unique (l1 l2 : list MatchRecord) :
  NoDup (map Jornada l1) -> l1 ≡ₚ l2 ->
  merge_sort jornada_le l1 = merge_sort jornada_le l2.
Proof.
  intros Hnd Hp.
  apply (StronglySorted_unique_strong jornada_le).
  - intros x1 x2 H1 H2 R12 R21.
    rewrite merge_sort_Permutation in H1, H2. rewrite <- Hp in H2.
    apply (NoDup_fmap_inj_on Jornada l1); [done | done | done |].
    by apply key_leb_antisym.
  - apply StronglySorted_merge_sort; apply _.
  - apply StronglySorted_merge_sort; apply _.
  - by rewrite !merge_sort_Permutation.
Qed.

(** The chart does not depend on the order of the rows of the table when the
    fixture indices are distinct: the sort puts any order of the same rows
    into one order. *)
Theorem chart_data_order_independent (df1 df2 : DataFrame MatchRecord) :
  columns df1 = columns df2 ->
  rows df1 ≡ₚ rows df2 ->
  NoDup (map Jornada (rows df1)) ->
  chart_data df1 = chart_data df2.
Proof.
  intros Hc Hp Hnd. unfold chart_data, sort_by_jornada.
  rewrite (require_column_columns _ df1 df2 Hc).
  destruct (require_column "Jornada" df2) as [[]|e]; [| reflexivity].
  rewrite !bind_Ok_l. cbn [mret result_ret].
  rewrite ?bind_Ok_l.
  rewrite (sort_by_jornada_unique _ _ Hnd Hp), Hc. reflexivity.
Qed.

Lemma chart_data_order_independent_witness :
  columns scenario_weeks = columns (weeks_frame (rev (rows scenario_weeks)))
  /\ rows scenario_weeks ≡ₚ rows (weeks_frame (rev (rows scenario_weeks)))
  /\ NoDup (map Jornada (rows scenario_weeks))
  /\ chart_data scenario_weeks
     = chart_data (weeks_frame (rev (rows scenario_weeks))).
Proof.
  assert (Hc : columns scenario_weeks
               = columns (weeks_frame (rev (rows scenario_weeks)))) by reflexivity.
  assert (Hp : rows scenario_weeks ≡ₚ rows (weeks_frame (rev (rows scenario_weeks))))
    by apply perm_swap.
  assert (Hnd : NoDup (map Jornada (rows scenario_weeks)))
    by (apply (bool_decide_unpack _); by vm_compute).
  split; [exact Hc |]. split; [exact Hp |]. split; [exact Hnd |].
  exact (chart_data_order_independent _ _ Hc Hp Hnd).
Defined.

Lemma running_lookup_bounds acc l i p b :
  Forall (fun x => 0 <= x <= b) l ->
  running acc l !! i = Some p ->
  acc <= p <= acc + b * (Z.of_nat i + 1).
Proof.
  intros Hl. revert acc i. induction Hl as [|x l Hx _ IH]; intros acc i Hi.
  - done.
  - destruct i as [|i]; simpl in Hi.
    + injection Hi as <-. lia.
    + apply IH in Hi. lia.
Qed.

Lemma match_points_le_3 r : 0 <= match_points r <= 3.
Proof.
  unfold match_points.
  destruct (str_is (Resultat r) "Victòria"); [lia |].
  destruct (str_is (Resultat r) "Empat"); lia.
Qed.

(** On every weeks table the running point total after the first [i + 1]
    matches of the series lies between 0 and 3 (i + 1). *)
Theorem chart_points_bounds (df : DataFrame MatchRecord) :
  weeks_columns ⊆ columns df ->
  exists cd, chart_data df = Ok cd
    /\ forall i p, points cd !! i = Some p -> 0 <= p <= 3 * (Z.of_nat i + 1).
Proof.
  intros Hc. destruct (is_ok_Ok _ (chart_data_total df Hc)) as [cd Hcd].
  exists cd. split; [done |].
  apply chart_data_Ok in Hcd as ->. simpl. intros i p Hi.
  eapply (running_lookup_bounds 0 _ i p 3) in Hi; [lia |].
  apply Forall_map, Forall_forall. intros r _. apply match_points_le_3.
Qed.

Lemma chart_points_bounds_witness :
  weeks_columns ⊆ columns scenario_weeks
  /\ exists cd, chart_data scenario_weeks = Ok cd
       /\ forall i p, points cd !! i = Some p -> 0 <= p <= 3 * (Z.of_nat i + 1).
Proof.
  assert (Hc : weeks_columns ⊆ columns scenario_weeks) by (intros c Hin; exact Hin).
  split; [exact Hc |]. exact (chart_points_bounds scenario_weeks Hc).
Defined.

(** ** The weeks loader *)

Lemma try_load_weeks_Some t :
  try_load_weeks (Some t) =
  if has_column "Jornada" t then
    Ok (mkDF (columns t)
          (List.filter has_jornada (map (nullify ["#DIV/0!"]) (rows t))))
  else Raise (ColumnNotFoundError "Jornada").
Proof.
  unfold try_load_weeks, read_csv. rewrite bind_Ok_l, df_filter_eq.
  rewrite has_column_mkDF. fold (has_column "Jornada" t). reflexivity.
Qed.

Lemma load_data_weeks pf wf :
  (load_data pf wf).2 = round_df (or_empty (try_load_weeks wf)).
Proof. reflexivity. Qed.

Lemma round_df_weeks (df : DataFrame MatchRecord) : round_df df = df.
Proof. destruct df as [cols l]. unfold round_df. simpl. by rewrite map_id. Qed.

Lemma loaded_weeks pf t :
  "Jornada" ∈ columns t ->
  (load_data pf (Some t)).2
  = mkDF (columns t) (List.filter has_jornada (map (nullify ["#DIV/0!"]) (rows t))).
Proof.
  intros Hj. rewrite load_data_weeks, round_df_weeks, try_load_weeks_Some.
  unfold has_column. by rewrite bool_decide_eq_true_2.
Qed.

Lemma nullify_Jornada nv (r : MatchRecord) : Jornada (nullify nv r) = Jornada r.
Proof. reflexivity. Qed.

(** Every match record the loader returns has a fixture index; a table
    without the fixture column loads as the frame without columns (the
    exception is caught); and of a table with the column every row that has
    a fixture index is returned, its text cells that are the error token
    turned into null. *)
Theorem weeks_loader_keeps_indexed_rows :
  (forall pf wf r, r ∈ rows (load_data pf wf).2 -> is_Some (Jornada r))
  /\ (forall pf t, "Jornada" ∉ columns t -> (load_data pf (Some t)).2 = empty_df)
  /\ (forall pf t r, "Jornada" ∈ columns t -> r ∈ rows t -> is_Some (Jornada r) ->
        nullify ["#DIV/0!"] r ∈ rows (load_data pf (Some t)).2).
Proof.
  split; [| split].
  - intros pf [t|] r Hr; [| by apply elem_of_nil in Hr].
    rewrite load_data_weeks, round_df_weeks, try_load_weeks_Some in Hr.
    destruct (has_column "Jornada" t); [| by apply elem_of_nil in Hr].
    simpl in Hr. apply elem_of_List_filter in Hr as [_ Hr].
    by apply bool_decide_eq_true in Hr.
  - intros pf t Hno. rewrite load_data_weeks, round_df_weeks, try_load_weeks_Some.
    unfold has_column. by rewrite bool_decide_eq_false_2.
  - intros pf t r Hj Hr Hsome. rewrite loaded_weeks by done. simpl.
    apply elem_of_List_filter. split.
    + apply list_elem_of_fmap. by exists r.
    + unfold has_jornada. by apply bool_decide_eq_true.
Qed.

Lemma weeks_loader_keeps_indexed_rows_witness :
  "Jornada" ∈ columns pending_weeks
  /\ mkMatch (Some 2) (Some "B") None (Some "Visitant") None None
     ∈ rows pending_weeks
  /\ nullify ["#DIV/0!"] (mkMatch (Some 2) (Some "B") None (Some "Visitant") None None)
     ∈ rows (load_data None (Some pending_weeks)).2.
Proof.
  assert (Hj : "Jornada" ∈ columns pending_weeks) by apply list_elem_of_here.
  assert (Hr : mkMatch (Some 2) (Some "B") None (Some "Visitant") None None
               ∈ rows pending_weeks)
    by (apply list_elem_of_further, list_elem_of_here).
  split; [exact Hj |]. split; [exact Hr |].
  exact (proj2 (proj2 weeks_loader_keeps_indexed_rows) None pending_weeks _ Hj Hr
           (ex_intro _ 2 eq_refl)).
Defined.

(** ** [render_pages]: the recent matches *)

Lemma filter_is_in_Ok c names df df' :
  filter_is_in c names df = Ok df' ->
  c ∈ columns df
  /\ (forall r, r ∈ rows df -> is_number (cell r c) = false)
  /\ columns df' = columns df
  /\ rows df' = List.filter (fun r => is_in names (cell r c)) (rows df).
Proof.
  unfold filter_is_in. intros H. apply bind_Ok in H as (u & Hc & H).
  apply require_column_Ok in Hc.
  destruct (existsb _ _) eqn:Hn; [discriminate |].
  injection H as <-. split; [done |]. split; [| done].
  by apply (existsb_false (fun r => is_number (cell r c))).
Qed.

Lemma filter_is_in_text c names df :
  c ∈ columns df ->
  (forall r, r ∈ rows df -> is_number (cell r c) = false) ->
  filter_is_in c names df
  = Ok (mkDF (columns df) (List.filter (fun r => is_in names (cell r c)) (rows df))).
Proof.
  intros Hc Hn. unfold filter_is_in. rewrite require_column_elem by done.
  cbn [mbind result_bind].
  by rewrite (proj2 (existsb_false (fun r => is_number (cell r c)) (rows df)) Hn).
Qed.

Lemma render_pages_Ok dp dw st pg :
  render_pages dp dw st = Ok pg ->
  exists gk cd lb,
    filter_is_in "Jugador" gk_names dp = Ok gk
    /\ chart_data dw = Ok cd
    /\ leaderboard_of dp = Ok lb
    /\ pg = mkPages st (last5_reversed (rows dw)) lb (rows dp) (rows gk) (rows dw) cd.
Proof.
  unfold render_pages. intros H.
  apply bind_Ok in H as (gk & Hgk & H). apply bind_Ok in H as (cd & Hcd & H).
  apply bind_Ok in H as (lb & Hlb & H). simpl in H. injection H as <-.
  by exists gk, cd, lb.
Qed.

Lemma last5_reversed_length {A} (l : list A) :
  length (last5_reversed l) = Nat.min 5 (length l).
Proof. unfold last5_reversed. rewrite length_rev, length_skipn. lia. Qed.

Lemma last5_reversed_app {A} (a b : list A) :
  length b = 5%nat -> last5_reversed (a ++ b) = rev b.
Proof.
  intros Hb. unfold last5_reversed. rewrite length_app, Hb.
  replace (length a + 5 - 5)%nat with (length a) by lia.
  by rewrite drop_app_length.
Qed.

Lemma last5_reversed_short {A} (l : list A) :
  (length l <= 5)%nat -> last5_reversed l = rev l.
Proof.
  intros Hl. unfold last5_reversed.
  by replace (length l - 5)%nat with 0%nat by lia.
Qed.

(** The recent matches handed to the index page are the last five rows of
    the weeks table in the order of the file (not of the fixture index),
    the last row first; a table of five rows or fewer is handed over whole,
    reversed. *)
Theorem recent_matches_last_five dp dw st pg :
  render_pages dp dw st = Ok pg ->
  length (recent_matches pg) = Nat.min 5 (length (rows dw))
  /\ (forall a b, rows dw = a ++ b -> length b = 5%nat -> recent_matches pg = rev b)
  /\ ((length (rows dw) <= 5)%nat -> recent_matches pg = rev (rows dw)).
Proof.
  intros H. apply render_pages_Ok in H as (gk & cd & lb & _ & _ & _ & ->). simpl.
  split; [apply last5_reversed_length |]. split.
  - intros a b -> Hb. by apply last5_reversed_app.
  - apply last5_reversed_short.
Qed.

Lemma recent_matches_last_five_witness :
  is_ok (render_pages goals_players scenario_weeks (mkStats 2 1 1 0 4 2)) = true
  /\ exists pg,
       render_pages goals_players scenario_weeks (mkStats 2 1 1 0 4 2) = Ok pg
       /\ recent_matches pg = rev (rows scenario_weeks).
Proof.
  assert (Hok : is_ok (render_pages goals_players scenario_weeks (mkStats 2 1 1 0 4 2))
                = true) by (vm_compute; reflexivity).
  split; [exact Hok |].
  destruct (is_ok_Ok _ Hok) as [pg Hpg]. exists pg. split; [exact Hpg |].
  apply (proj2 (proj2 (recent_matches_last_five _ _ _ _ Hpg))).
  simpl. lia.
Defined.

(** ** [main] on tables that are read *)

Lemma loaded_weeks_columns pf t :
  "Jornada" ∈ columns t -> columns (load_data pf (Some t)).2 = columns t.
Proof. intros Hj. by rewrite loaded_weeks. Qed.

Lemma loaded_names_not_numbers tp wf :
  (forall r, r ∈ rows tp -> is_number (cell r "Jugador") = false) ->
  forall r', r' ∈ rows (load_data (Some tp) wf).1 ->
    is_number (cell r' "Jugador") = false.
Proof.
  intros Hn r' Hr'. apply loaded_row_source in Hr' as (r & Hr & _ & _ & Hcells).
  rewrite Hcells, loaded_cell_name. specialize (Hn r Hr).
  destruct (cell r "Jugador") as [| | |s]; try done.
  simpl. by case_bool_decide.
Qed.

Lemma loaded_weeks_number pf tw (cell_of : MatchRecord -> option Z) :
  (forall r, cell_of (nullify ["#DIV/0!"] r) = cell_of r) ->
  "Jornada" ∈ columns tw ->
  (exists r, r ∈ rows tw /\ is_Some (Jornada r) /\ is_Some (cell_of r)) ->
  has_number cell_of (load_data pf (Some tw)).2 = true.
Proof.
  intros Hcell Hj (r & Hr & Hjr & Hs). rewrite loaded_weeks by done.
  unfold has_number. cbn [rows]. apply existsb_exists.
  exists (nullify ["#DIV/0!"] r). split.
  - apply list_elem_of_In, elem_of_List_filter. split.
    + apply list_elem_of_fmap. by exists r.
    + unfold has_jornada. by apply bool_decide_eq_true.
  - apply bool_decide_eq_true. by rewrite Hcell.
Qed.

(** When both tables are read and have the columns the stages name, the
    names of the players are not numbers, and some match with a fixture
    index has a home score and some has an away score, no stage raises,
    whatever else the cells hold: the statistics, the chart and the
    leaderboard are those of the loaded tables, and the matches are handed
    over as loaded. *)
Theorem main_total (tp : DataFrame row) (tw : DataFrame MatchRecord) :
  leaderboard_columns ⊆ columns tp ->
  weeks_columns ⊆ columns tw ->
  (forall r, r ∈ rows tp -> is_number (cell r "Jugador") = false) ->
  (exists r, r ∈ rows tw /\ is_Some (Jornada r) /\ is_Some (Marcador_Local r)) ->
  (exists r, r ∈ rows tw /\ is_Some (Jornada r) /\ is_Some (Marcador_Visitant r)) ->
  exists pg st cd lb,
    main (Some tp) (Some tw) = Ok pg
    /\ calculate_stats (load_data (Some tp) (Some tw)).2 = Ok st
    /\ chart_data (load_data (Some tp) (Some tw)).2 = Ok cd
    /\ leaderboard_of (load_data (Some tp) (Some tw)).1 = Ok lb
    /\ index_stats pg = st /\ chart_data_ pg = cd /\ leaderboard pg = lb
    /\ weeks_data pg = rows (load_data (Some tp) (Some tw)).2.
Proof.
  intros Hp Hw Hnames Hlocal Hvisitor.
  assert (Hwj : "Jornada" ∈ columns tw) by (unfold weeks_columns in Hw; in_columns).
  assert (Hpj : "Jugador" ∈ columns tp)
    by (unfold leaderboard_columns in Hp; in_columns).
  assert (Hpp : "Partits" ∈ columns tp)
    by (unfold leaderboard_columns in Hp; in_columns).
  assert (Hwc : weeks_columns ⊆ columns (load_data (Some tp) (Some tw)).2)
    by (by rewrite loaded_weeks_columns).
  assert (Hpc : leaderboard_columns ⊆ columns (load_data (Some tp) (Some tw)).1)
    by (by rewrite loaded_players_columns).
  pose proof (loaded_weeks_number (Some tp) tw Marcador_Local
                (fun r => eq_refl) Hwj Hlocal) as Hnl.
  pose proof (loaded_weeks_number (Some tp) tw Marcador_Visitant
                (fun r => eq_refl) Hwj Hvisitor) as Hnv.
  pose proof (loaded_names_not_numbers tp (Some tw) Hnames) as Htext.
  destruct (is_ok_Ok _ (calculate_stats_total _ Hwc Hnl Hnv)) as [st Hst].
  destruct (is_ok_Ok _ (chart_data_total _ Hwc)) as [cd Hcd].
  destruct (is_ok_Ok _ (leaderboard_of_total _ Hpc
              (loaded_cards_are_numbers tp (Some tw) Hp))) as [lb Hlb].
  unfold main.
  destruct (load_data (Some tp) (Some tw)) as [dp dw] eqn:Hld. simpl in *.
  rewrite Hst. cbn [mbind result_bind]. unfold render_pages.
  rewrite filter_is_in_text
    by (try done; apply Hpc; unfold leaderboard_columns; in_columns).
  cbn [mbind result_bind]. rewrite Hcd. cbn [mbind result_bind].
  rewrite Hlb. cbn [mbind result_bind mret result_ret].
  eexists _, st, cd, lb. split; [reflexivity |]. by repeat split.
Qed.

Lemma main_total_witness :
  leaderboard_columns ⊆ columns goals_file
  /\ weeks_columns ⊆ columns scenario_weeks
  /\ exists pg, main (Some goals_file) (Some scenario_weeks) = Ok pg
       /\ weeks_data pg = rows (load_data (Some goals_file) (Some scenario_weeks)).2.
Proof.
  assert (Hp : leaderboard_columns ⊆ columns goals_file).
  { intros c Hin. apply (bool_decide_unpack _).
    apply list_elem_of_In in Hin. simpl in Hin.
    repeat (destruct Hin as [<- | Hin]; [by vm_compute |]). destruct Hin. }
  assert (Hw : weeks_columns ⊆ columns scenario_weeks) by (intros c Hin; exact Hin).
  assert (Hn : forall r, r ∈ rows goals_file -> is_number (cell r "Jugador") = false).
  { intros r Hr. apply list_elem_of_In in Hr. simpl in Hr.
    repeat (destruct Hr as [<- | Hr]; [by vm_compute |]). destruct Hr. }
  assert (Hl : exists r, r ∈ rows scenario_weeks /\ is_Some (Jornada r)
                         /\ is_Some (Marcador_Local r)).
  { eexists. split; [apply list_elem_of_here |]. split; by eexists. }
  assert (Hv : exists r, r ∈ rows scenario_weeks /\ is_Some (Jornada r)
                         /\ is_Some (Marcador_Visitant r)).
  { eexists. split; [apply list_elem_of_here |]. split; by eexists. }
  split; [exact Hp |]. split; [exact Hw |].
  destruct (main_total goals_file scenario_weeks Hp Hw Hn Hl Hv)
    as (pg & st & cd & lb & Hpg & _ & _ & _ & _ & _ & _ & Hwd).
  exists pg. split; [exact Hpg | exact Hwd].
Defined.

(** ** Files with a header and no row *)

(** A weeks file that holds its header and no row is read, and [main]
    raises in the season aggregator, whatever the players file: polars
    reads a column without cells as text and refuses its sum. *)
Theorem main_on_tables_without_rows pf (wcols : list string) :
  "Jornada" ∈ wcols -> "Resultat" ∈ wcols -> "Marcador Local" ∈ wcols ->
  main pf (Some (mkDF wcols [])) = Raise InvalidOperationError.
Proof.
  intros Hj Hr Hl. unfold main.
  destruct (load_data pf (Some (mkDF wcols []))) as [dp dw] eqn:Hld.
  assert (Hdw : dw = mkDF wcols []).
  { change dw with (dp, dw).2. rewrite <- Hld. by rewrite loaded_weeks. }
  subst dw. rewrite calculate_stats_eq.
  rewrite require_column_elem by exact Hr. rewrite bind_Ok_l.
  unfold number_column.
  rewrite (require_column_elem "Marcador Local") by exact Hl. reflexivity.
Qed.

Lemma main_on_tables_without_rows_witness :
  "Jornada" ∈ weeks_columns /\ "Resultat" ∈ weeks_columns
  /\ "Marcador Local" ∈ weeks_columns
  /\ main (Some no_players) (Some (mkDF weeks_columns []))
     = Raise InvalidOperationError.
Proof.
  assert (Hj : "Jornada" ∈ weeks_columns) by (unfold weeks_columns; in_columns).
  assert (Hr : "Resultat" ∈ weeks_columns) by (unfold weeks_columns; in_columns).
  assert (Hl : "Marcador Local" ∈ weeks_columns) by (unfold weeks_columns; in_columns).
  split; [exact Hj |]. split; [exact Hr |]. split; [exact Hl |].
  exact (main_on_tables_without_rows (Some no_players) weeks_columns Hj Hr Hl).
Defined.

(** ** The selection of a metric: every outcome *)

Lemma List_filter_none {A} (p : A -> bool) (l : list A) :
  (forall x, x ∈ l -> p x = false) -> List.filter p l = [].
Proof.
  induction l as [|a l IH]; intros H; cbn [List.filter]; [done |].
  rewrite (H a) by left. apply IH. intros x Hx. apply H. by right.
Qed.

(** [get_top_player] by cases: the column check, the eligible rows in sorted
    order, the name column. *)
Lemma get_top_player_eq df col lbl suf :
  get_top_player df col lbl suf =
  if has_column col df then
    match merge_sort (desc_by col)
            (List.filter (fun r => is_not_null (cell r col)) (rows df)) with
    | [] => Ok None
    | top :: _ =>
        if has_column "Jugador" df
        then if has_column "url" df
             then Ok (Some (mkEntry (cell top "Jugador") (cell top col) suf lbl))
             else Raise (KeyError "url")
        else Raise (KeyError "Jugador")
    end
  else Raise (ColumnNotFoundError col).
Proof.
  unfold get_top_player. rewrite df_filter_eq.
  destruct (has_column col df) eqn:Hc; [| reflexivity].
  rewrite bind_Ok_l.
  destruct (List.filter (fun r => is_not_null (cell r col)) (rows df))
    as [|x l] eqn:Hl; [reflexivity |].
  assert (Hh : (height (mkDF (columns df) (x :: l)) =? 0) = false).
  { apply Z.eqb_neq. unfold height. cbn [rows length]. lia. }
  assert (Hc' : forall l' : list row, has_column col (mkDF (columns df) l') = true)
    by (intros l'; exact Hc).
  rewrite Hh. unfold sort_desc, require_column.
  rewrite Hc', !bind_Ok_l. cbn [rows columns mret result_ret].
  destruct (merge_sort (desc_by col) (x :: l)) as [|top rest] eqn:Hs.
  { by apply merge_sort_nil in Hs. }
  unfold row_get. rewrite Hc'.
  change (has_column "Jugador" (mkDF (columns df) (top :: rest)))
    with (has_column "Jugador" df).
  change (has_column "url" (mkDF (columns df) (top :: rest)))
    with (has_column "url" df).
  destruct (has_column "Jugador" df); [| reflexivity].
  by destruct (has_column "url" df).
Qed.

(** A metric has no entry exactly when the frame has the column and every
    player is null on it; the name column is not needed then. *)
Theorem get_top_player_no_entry df col lbl suf :
  get_top_player df col lbl suf = Ok None
  <-> col ∈ columns df /\ forall r, r ∈ rows df -> cell r col = VNull.
Proof.
  rewrite get_top_player_eq. unfold has_column. split.
  - case_bool_decide as Hc; [| discriminate]. intros H. split; [done |].
    destruct (merge_sort _ _) as [|top rest] eqn:Hs.
    + apply merge_sort_nil in Hs. intros r Hr.
      apply is_not_null_false. by apply (List_filter_nil _ _ Hs).
    + by repeat case_bool_decide.
  - intros [Hc Hnull]. rewrite bool_decide_eq_true_2 by done.
    rewrite List_filter_none; [reflexivity |].
    intros r Hr. by rewrite (Hnull r Hr).
Qed.

(** The only errors of a selection, in the order the code meets them: the
    metric's column is absent; or some player has a value and the frame has
    no name column; or some player has a value, the frame has the name
    column and it has no column of links. *)
Theorem get_top_player_raises df col lbl suf e :
  get_top_player df col lbl suf = Raise e
  <-> ((col ∉ columns df) /\ e = ColumnNotFoundError col)
      \/ (col ∈ columns df /\ ("Jugador" ∉ columns df)
          /\ (exists r, r ∈ rows df /\ cell r col <> VNull)
          /\ e = KeyError "Jugador")
      \/ (col ∈ columns df /\ "Jugador" ∈ columns df /\ ("url" ∉ columns df)
          /\ (exists r, r ∈ rows df /\ cell r col <> VNull)
          /\ e = KeyError "url").
Proof.
  rewrite get_top_player_eq. unfold has_column.
  case_bool_decide as Hc.
  - destruct (merge_sort _ _) as [|top rest] eqn:Hs.
    + apply merge_sort_nil in Hs. split; [discriminate |].
      intros [[Hn _]|[(_ & _ & (r & Hr & Hv) & _)|(_ & _ & _ & (r & Hr & Hv) & _)]];
        [done | |];
        destruct Hv; apply is_not_null_false; by apply (List_filter_nil _ _ Hs).
    + apply top_of_filter in Hs as (Hin & Hnn & _).
      assert (Hex : exists r, r ∈ rows df /\ cell r col <> VNull).
      { exists top. split; [done |]. intros Hv. by rewrite Hv in Hnn. }
      destruct (decide ("Jugador" ∈ columns df)) as [Hj|Hj];
        [rewrite (bool_decide_eq_true_2 _ Hj) | rewrite (bool_decide_eq_false_2 _ Hj)].
      * destruct (decide ("url" ∈ columns df)) as [Hu|Hu];
          [rewrite (bool_decide_eq_true_2 _ Hu) | rewrite (bool_decide_eq_false_2 _ Hu)].
        -- split; [discriminate |].
           by intros [[Hn _]|[(_ & Hn & _)|(_ & _ & Hn & _)]].
        -- split.
           ++ intros [= <-]. right. right. by split_and!.
           ++ by intros [[Hn _]|[(_ & Hn & _)|(_ & _ & _ & _ & ->)]].
      * split.
        -- intros [= <-]. right. left. by split_and!.
        -- by intros [[Hn _]|[(_ & _ & _ & ->)|(_ & Hn & _)]].
  - split.
    + intros [= <-]. by left.
    + by intros [[_ ->]|[(Hin & _)|(Hin & _)]].
Qed.

(** ** The leaderboard: order, length and the two guarded metrics *)

Lemma append_if_guarded test lb o lb' :
  append_if test lb o = Ok lb' -> lb' = lb ++ guarded test o.
Proof.
  unfold append_if, guarded. destruct o as [x|]; intros H.
  - destruct (test (value x)) as [[]|]; simpl in H; [| | discriminate];
      injection H as <-; by rewrite ?app_nil_r.
  - injection H as <-. by rewrite app_nil_r.
Qed.

Lemma guarded_sublist test o : sublist (guarded test o) (option_list o).
Proof.
  unfold guarded. destruct o as [x|]; [| done].
  destruct (test (value x)) as [[]|]; simpl; [done | |]; apply sublist_nil_l.
Qed.

Lemma labels_sublist (l : list Entry) o lbl :
  sublist l (option_list o) ->
  Forall (fun e => label e = lbl) (option_list o) ->
  Forall (fun e => label e = lbl) l /\ sublist (map label l) [lbl].
Proof.
  intros Hs Hl. assert (Hl' : Forall (fun e => label e = lbl) l).
  { eapply Forall_forall. intros e He. eapply Forall_forall in Hl; [exact Hl |].
    eapply sublist_submseteq, elem_of_submseteq in Hs; [exact Hs | exact He]. }
  split; [done |].
  apply sublist_length in Hs as Hlen.
  destruct l as [|e [|e' l]].
  - apply sublist_nil_l.
  - apply Forall_cons in Hl' as [<- _]. done.
  - destruct o; simpl in Hlen; lia.
Qed.

(** The leaderboard is the list of the eight selections, in order; the last
    two are guarded. *)
Lemma leaderboard_from_cases df lb :
  leaderboard_from df = Ok lb ->
  exists o1 o2 o3 o4 o5 o6 df7 o7 o8,
    get_top_player df "Gols" "Màxim Golejador" no_suffix = Ok o1
    /\ get_top_player df "Gols x partit" "Gols / Partit" no_suffix = Ok o2
    /\ get_top_player df "Assistències" "Màxim Assistent" no_suffix = Ok o3
    /\ get_top_player df "Assitències x partit" "Ass. / Partit" no_suffix = Ok o4
    /\ get_top_player df minuts "Millor Porter (Minuts imbatut)" "'" = Ok o5
    /\ top_win_rate df = Ok o6
    /\ add_grogues_ratio df = Ok df7
    /\ get_top_player df7 "Grogues_Ratio" "Major % Grogues/Partit" no_suffix = Ok o7
    /\ get_top_player df7 "Vermelles" "Més Targetes Vermelles" no_suffix = Ok o8
    /\ lb = option_list o1 ++ option_list o2 ++ option_list o3 ++ option_list o4
            ++ option_list o5 ++ option_list o6
            ++ guarded float_positive o7 ++ guarded int_positive o8.
Proof.
  unfold leaderboard_from. intros H.
  apply bind_Ok in H as (o1 & H1 & H). apply bind_Ok in H as (o2 & H2 & H).
  apply bind_Ok in H as (o3 & H3 & H). apply bind_Ok in H as (o4 & H4 & H).
  apply bind_Ok in H as (o5 & H5 & H). apply bind_Ok in H as (o6 & H6 & H).
  apply bind_Ok in H as (df7 & Hdf & H). apply bind_Ok in H as (o7 & H7 & H).
  apply bind_Ok in H as (lb7 & Ha7 & H). apply bind_Ok in H as (o8 & H8 & H).
  apply bind_Ok in H as (lb8 & Ha8 & H). simpl in H. injection H as <-.
  apply append_if_guarded in Ha7 as ->. apply append_if_guarded in Ha8 as ->.
  exists o1, o2, o3, o4, o5, o6, df7, o7, o8.
  repeat (split; [done |]).
  rewrite !append_entry_app. simpl. by rewrite <- !app_assoc.
Qed.

Lemma leaderboard_labels_NoDup : NoDup leaderboard_labels.
Proof. apply (bool_decide_unpack _). by vm_compute. Qed.

(** The entries of a leaderboard keep the order of the eight metrics and no
    metric has two: the labels of the entries are a subsequence of the eight
    labels, so a leaderboard has at most eight entries and no label twice. *)
Theorem leaderboard_labels_in_order df lb :
  leaderboard_of df = Ok lb ->
  sublist (map label lb) leaderboard_labels
  /\ (length lb <= 8)%nat
  /\ NoDup (map label lb).
Proof.
  unfold leaderboard_of. intros H.
  assert (Hsub : sublist (map label lb) leaderboard_labels).
  { apply leaderboard_from_cases in H
      as (o1 & o2 & o3 & o4 & o5 & o6 & df7 & o7 & o8
          & H1 & H2 & H3 & H4 & H5 & H6 & _ & H7 & H8 & ->).
    apply get_top_player_label in H1, H2, H3, H4, H5, H7, H8.
    apply top_win_rate_label in H6.
    destruct (labels_sublist _ _ _ (reflexivity _) H1) as [_ S1].
    destruct (labels_sublist _ _ _ (reflexivity _) H2) as [_ S2].
    destruct (labels_sublist _ _ _ (reflexivity _) H3) as [_ S3].
    destruct (labels_sublist _ _ _ (reflexivity _) H4) as [_ S4].
    destruct (labels_sublist _ _ _ (reflexivity _) H5) as [_ S5].
    destruct (labels_sublist _ _ _ (reflexivity _) H6) as [_ S6].
    destruct (labels_sublist _ _ _ (guarded_sublist float_positive o7) H7) as [_ S7].
    destruct (labels_sublist _ _ _ (guarded_sublist int_positive o8) H8) as [_ S8].
    rewrite !map_app.
    change leaderboard_labels with
      (["Màxim Golejador"] ++ ["Gols / Partit"] ++ ["Màxim Assistent"]
       ++ ["Ass. / Partit"] ++ ["Millor Porter (Minuts imbatut)"]
       ++ ["Major % Victòria"] ++ ["Major % Grogues/Partit"]
       ++ ["Més Targetes Vermelles"]).
    repeat (apply sublist_app; [done |]). done. }
  split; [done |]. split.
  - apply sublist_length in Hsub. by rewrite length_map in Hsub.
  - eapply sublist_NoDup; [apply leaderboard_labels_NoDup | exact Hsub].
Qed.

(** ** The cards metrics *)

(** The frame with the links and the ratio column, row by row, seen from the
    frame the leaderboard is asked for. *)
Lemma ratio_frame_rows df df7 r7 :
  add_grogues_ratio (with_url df) = Ok df7 -> r7 ∈ rows df7 ->
  exists r, r ∈ rows df
    /\ cell r7 "Grogues_Ratio" = grogues_ratio (cell r "Grogues") (cell r "Partits")
    /\ forall k, k <> "Grogues_Ratio" -> k <> "url" -> cell r7 k = cell r k.
Proof.
  intros Hdf Hr7. apply add_grogues_ratio_Ok in Hdf as (_ & _ & ->).
  unfold with_column in Hr7. cbn [rows] in Hr7.
  apply list_elem_of_fmap in Hr7 as (r' & -> & Hr').
  apply list_elem_of_fmap in Hr' as (r & -> & Hr).
  exists r. split; [done |]. split.
  - by rewrite cell_insert_eq, !cell_insert_ne.
  - intros k Hk Hu. by rewrite !cell_insert_ne.
Qed.

Lemma ratio_frame_row df df7 r :
  add_grogues_ratio (with_url df) = Ok df7 -> r ∈ rows df ->
  exists r7, r7 ∈ rows df7
    /\ cell r7 "Grogues_Ratio" = grogues_ratio (cell r "Grogues") (cell r "Partits")
    /\ forall k, k <> "Grogues_Ratio" -> k <> "url" -> cell r7 k = cell r k.
Proof.
  intros Hdf Hr. apply add_grogues_ratio_Ok in Hdf as (_ & _ & ->).
  eexists. split.
  - unfold with_column. cbn [rows]. apply list_elem_of_fmap. eexists. split; [done |].
    apply list_elem_of_fmap. by exists r.
  - split; [by rewrite cell_insert_eq, !cell_insert_ne |].
    intros k Hk Hu. by rewrite !cell_insert_ne.
Qed.

(** The entries of metrics 7 and 8 in a leaderboard. *)
Lemma with_label_cards df lb :
  leaderboard_of df = Ok lb ->
  exists df7 o7 o8,
    add_grogues_ratio (with_url df) = Ok df7
    /\ get_top_player df7 "Grogues_Ratio" "Major % Grogues/Partit" no_suffix = Ok o7
    /\ get_top_player df7 "Vermelles" "Més Targetes Vermelles" no_suffix = Ok o8
    /\ with_label "Major % Grogues/Partit" lb = guarded float_positive o7
    /\ with_label "Més Targetes Vermelles" lb = guarded int_positive o8.
Proof.
  unfold leaderboard_of. intros H.
  apply leaderboard_from_cases in H
    as (o1 & o2 & o3 & o4 & o5 & o6 & df7 & o7 & o8
        & H1 & H2 & H3 & H4 & H5 & H6 & Hdf & H7 & H8 & ->).
  exists df7, o7, o8. repeat (split; [done |]).
  pose proof (get_top_player_label _ _ _ _ _ H1) as L1.
  pose proof (get_top_player_label _ _ _ _ _ H2) as L2.
  pose proof (get_top_player_label _ _ _ _ _ H3) as L3.
  pose proof (get_top_player_label _ _ _ _ _ H4) as L4.
  pose proof (get_top_player_label _ _ _ _ _ H5) as L5.
  pose proof (top_win_rate_label _ _ H6) as L6.
  destruct (labels_sublist _ _ _ (guarded_sublist float_positive o7)
              (get_top_player_label _ _ _ _ _ H7)) as [L7 _].
  destruct (labels_sublist _ _ _ (guarded_sublist int_positive o8)
              (get_top_player_label _ _ _ _ _ H8)) as [L8 _].
  split;
    rewrite !with_label_app,
      (with_label_labelled _ _ _ L1), (with_label_labelled _ _ _ L2),
      (with_label_labelled _ _ _ L3), (with_label_labelled _ _ _ L4),
      (with_label_labelled _ _ _ L5), (with_label_labelled _ _ _ L6),
      (with_label_labelled _ _ _ L7), (with_label_labelled _ _ _ L8);
    cbn [String.eqb Ascii.eqb Bool.eqb app]; by rewrite ?app_nil_r.
Qed.

(** Metric 8.  On a frame with numbers in the cards columns the leaderboard
    has an entry for the red cards exactly when some player has a positive
    count: either no player has one and there is no entry, or there is one
    entry, which names a player with the highest count and shows that
    count. *)
Theorem red_cards_entry df lb :
  cards_are_numbers df -> leaderboard_of df = Ok lb ->
  ((forall r z, r ∈ rows df -> cell r "Vermelles" = VInt z -> z <= 0)
   /\ with_label "Més Targetes Vermelles" lb = [])
  \/ (exists r z, r ∈ rows df /\ cell r "Vermelles" = VInt z /\ 0 < z
        /\ (forall r' z', r' ∈ rows df -> cell r' "Vermelles" = VInt z' -> z' <= z)
        /\ with_label "Més Targetes Vermelles" lb
           = [mkEntry (cell r "Jugador") (VInt z) no_suffix "Més Targetes Vermelles"]).
Proof.
  intros Hnum Hlb.
  apply with_label_cards in Hlb as (df7 & o7 & o8 & Hdf & _ & H8 & _ & ->).
  apply get_top_player_Ok in H8. destruct o8 as [e|].
  - destruct H8 as (r7 & (Hin7 & Hnn & Hmax) & ->).
    destruct (ratio_frame_rows _ _ _ Hdf Hin7) as (r & Hr & _ & Hk).
    rewrite !Hk in * by done.
    destruct (Hnum r Hr) as (_ & _ & [Hv|[z Hv]]); [by rewrite Hv in Hnn |].
    rewrite Hv in *. unfold guarded. cbn [value int_positive].
    assert (Hz : forall r' z', r' ∈ rows df -> cell r' "Vermelles" = VInt z' -> z' <= z).
    { intros r' z' Hr' Hv'.
      destruct (ratio_frame_row _ _ _ Hdf Hr') as (r7' & Hin' & _ & Hk').
      specialize (Hmax r7' Hin'). rewrite Hk', Hv', scalar_leb_int in Hmax by done.
      apply Z.leb_le. by apply Hmax. }
    destruct (0 <? z) eqn:Hpos.
    + right. exists r, z. apply Z.ltb_lt in Hpos. by repeat (split; [done |]).
    + left. split; [| done]. intros r' z' Hr' Hv'. apply Z.ltb_ge in Hpos.
      specialize (Hz r' z' Hr' Hv'). lia.
  - left. split; [| done]. intros r z Hr Hv.
    destruct (ratio_frame_row _ _ _ Hdf Hr) as (r7 & Hin & _ & Hk).
    specialize (H8 r7 Hin). rewrite Hk, Hv in H8 by done. discriminate.
Qed.

Lemma red_cards_entry_witness :
  cards_are_numbers cards_players
  /\ leaderboard_of cards_players = Ok cards_leaderboard
  /\ (((forall r z, r ∈ rows cards_players -> cell r "Vermelles" = VInt z -> z <= 0)
       /\ with_label "Més Targetes Vermelles" cards_leaderboard = [])
      \/ (exists r z, r ∈ rows cards_players /\ cell r "Vermelles" = VInt z /\ 0 < z
            /\ (forall r' z', r' ∈ rows cards_players ->
                  cell r' "Vermelles" = VInt z' -> z' <= z)
            /\ with_label "Més Targetes Vermelles" cards_leaderboard
               = [mkEntry (cell r "Jugador") (VInt z) no_suffix
                    "Més Targetes Vermelles"])).
Proof.
  assert (Hn : cards_are_numbers cards_players).
  { apply loaded_cards_are_numbers. intros c Hin. apply (bool_decide_unpack _).
    apply list_elem_of_In in Hin. simpl in Hin.
    repeat (destruct Hin as [<- | Hin]; [by vm_compute |]). destruct Hin. }
  assert (Hl : leaderboard_of cards_players = Ok cards_leaderboard)
    by (vm_compute; reflexivity).
  split; [exact Hn |]. split; [exact Hl |].
  exact (red_cards_entry cards_players cards_leaderboard Hn Hl).
Defined.

(** Metric 7.  An entry for the yellow cards names a player whose ratio of
    yellow cards to matches is a number greater than zero (so not NaN) and
    the highest of all players, and carries that ratio. *)
Theorem yellow_cards_entry df lb e :
  leaderboard_of df = Ok lb -> e ∈ lb -> label e = "Major % Grogues/Partit" ->
  exists r f, r ∈ rows df
    /\ grogues_ratio (cell r "Grogues") (cell r "Partits") = VFloat f
    /\ SFltb f64_zero f = true
    /\ e = mkEntry (cell r "Jugador") (VFloat f) no_suffix "Major % Grogues/Partit"
    /\ forall r', r' ∈ rows df ->
         scalar_leb (grogues_ratio (cell r' "Grogues") (cell r' "Partits")) (VFloat f)
         = true.
Proof.
  intros Hlb He Hl.
  apply with_label_cards in Hlb as (df7 & o7 & o8 & Hdf & H7 & _ & Hy & _).
  assert (Hin : e ∈ guarded float_positive o7).
  { rewrite <- Hy. unfold with_label. apply elem_of_List_filter. split; [done |].
    rewrite Hl. apply String.eqb_refl. }
  unfold guarded in Hin. destruct o7 as [x|]; [| by apply elem_of_nil in Hin].
  destruct (float_positive (value x)) as [[]|] eqn:Hpos;
    try (by apply elem_of_nil in Hin).
  apply list_elem_of_singleton in Hin as ->.
  apply get_top_player_Ok in H7 as (r7 & (Hin7 & Hnn & Hmax) & ->).
  destruct (ratio_frame_rows _ _ _ Hdf Hin7) as (r & Hr & Hratio & Hk).
  cbn [value] in Hpos. rewrite Hratio in *. rewrite Hk by done.
  destruct (grogues_ratio_cases (cell r "Grogues") (cell r "Partits")) as [Hv|[f Hv]];
    rewrite Hv in *; [done |].
  exists r, f. cbn [float_positive] in Hpos. injection Hpos as Hpos.
  repeat (split; [done |]).
  intros r' Hr'.
  destruct (ratio_frame_row _ _ _ Hdf Hr') as (r7' & Hin' & Hratio' & _).
  specialize (Hmax r7' Hin'). rewrite Hratio' in Hmax.
  destruct (grogues_ratio (cell r' "Grogues") (cell r' "Partits")) eqn:Hv';
    [done | by apply Hmax..].
Qed.

Lemma yellow_cards_entry_witness :
  leaderboard_of cards_players = Ok cards_leaderboard
  /\ cards_yellow ∈ cards_leaderboard
  /\ label cards_yellow = "Major % Grogues/Partit"
  /\ exists r f, r ∈ rows cards_players
       /\ grogues_ratio (cell r "Grogues") (cell r "Partits") = VFloat f
       /\ SFltb f64_zero f = true
       /\ cards_yellow
          = mkEntry (cell r "Jugador") (VFloat f) no_suffix "Major % Grogues/Partit"
       /\ forall r', r' ∈ rows cards_players ->
            scalar_leb (grogues_ratio (cell r' "Grogues") (cell r' "Partits")) (VFloat f)
            = true.
Proof.
  assert (Hl : leaderboard_of cards_players = Ok cards_leaderboard)
    by (vm_compute; reflexivity).
  assert (Hin : cards_yellow ∈ cards_leaderboard).
  { unfold cards_leaderboard, cards_yellow.
    repeat first [apply list_elem_of_here | apply list_elem_of_further]. }
  assert (Hlab : label cards_yellow = "Major % Grogues/Partit") by reflexivity.
  split; [exact Hl |]. split; [exact Hin |]. split; [exact Hlab |].
  exact (yellow_cards_entry cards_players cards_leaderboard cards_yellow Hl Hin Hlab).
Defined.

(** ** The types of the loaded columns *)

Lemma loaded_cell_other cols k v :
  k ∉ numeric_cols_int -> k ∉ numeric_cols_float -> loaded_cell cols k v = v.
Proof.
  intros Hi Hf. unfold loaded_cell.
  rewrite (bool_decide_eq_false_2 (k ∈ numeric_cols_int)) by done.
  rewrite (bool_decide_eq_false_2 (k ∈ numeric_cols_float)) by done.
  rewrite (bool_decide_eq_false_2 (k = minuts)).
  - by case_bool_decide.
  - intros ->. apply Hf. unfold numeric_cols_float. in_columns.
Qed.

(** Every player record the loader returns is typed by the two column
    lists: the number of matches is an integer, each configured integer
    column that the table has holds an integer or null, each configured
    decimal column other than the minutes holds a double rounded to two
    decimals or null, and a cell of any other column is the cell that was
    read, rounded if it is a double. *)
Theorem loaded_column_types t wf r' :
  r' ∈ rows (load_data (Some t) wf).1 ->
  (exists z, cell r' "Partits" = VInt z)
  /\ exists r, r ∈ rows t /\ forall k,
       (k ∈ columns t -> k ∈ numeric_cols_int ->
          cell r' k = VNull \/ exists z, cell r' k = VInt z)
       /\ (k ∈ columns t -> k ∈ numeric_cols_float -> k <> minuts ->
             cell r' k = VNull \/ exists f, cell r' k = VFloat (f64_round2 f))
       /\ ((k ∉ numeric_cols_int) -> (k ∉ numeric_cols_float) ->
             cell r' k = round_cell (null_token ["#DIV/0!"] (cell r k))).
Proof.
  intros Hr'.
  destruct (decide ("Jugador" ∈ columns t /\ "Partits" ∈ columns t)) as [[Hj Hp]|Hno];
    [| rewrite loaded_players_empty in Hr' by done; by apply elem_of_nil in Hr'].
  apply loaded_row_source in Hr' as (r & Hr & Hn & Hpa & Hcells). split.
  - rewrite Hcells, loaded_cell_partits, round_cell_cast_int64 by done.
    destruct (cast_int64_int_or_null (null_token ["#DIV/0!"] (cell r "Partits")))
      as [Hv|[z Hv]]; rewrite Hv in *; [done | by exists z].
  - exists r. split; [done |]. intros k. rewrite Hcells. split; [| split].
    + intros Hk Hi. rewrite loaded_cell_int, round_cell_cast_int64 by done.
      apply cast_int64_int_or_null.
    + intros Hk Hf Hne. rewrite loaded_cell_float by done.
      destruct (comma_float_cases (null_token ["#DIV/0!"] (cell r k)))
        as [->|[f ->]]; [by left | right; by exists f].
    + intros Hi Hf. by rewrite loaded_cell_other.
Qed.

Lemma loaded_column_types_witness :
  cards_row ∈ rows (load_data (Some cards_file) None).1
  /\ (exists z, cell cards_row "Partits" = VInt z)
  /\ exists r, r ∈ rows cards_file /\ forall k,
       (k ∈ columns cards_file -> k ∈ numeric_cols_int ->
          cell cards_row k = VNull \/ exists z, cell cards_row k = VInt z)
       /\ (k ∈ columns cards_file -> k ∈ numeric_cols_float -> k <> minuts ->
             cell cards_row k = VNull
             \/ exists f, cell cards_row k = VFloat (f64_round2 f))
       /\ ((k ∉ numeric_cols_int) -> (k ∉ numeric_cols_float) ->
             cell cards_row k = round_cell (null_token ["#DIV/0!"] (cell r k))).
Proof.
  assert (Hin : cards_row ∈ rows (load_data (Some cards_file) None).1).
  { apply (bool_decide_unpack _). by vm_compute. }
  split; [exact Hin |].
  exact (loaded_column_types cards_file None cards_row Hin).
Defined.

(** ** Slugs *)

Ltac ascii_cases c := destruct c as [[] [] [] [] [] [] [] []]; vm_compute; try done.

Lemma lower_ascii_not_upper c : is_upper (lower_ascii c) = false.
Proof. ascii_cases c. Qed.

Lemma lower_ascii_is_ascii c :
  is_ascii_char c = true -> is_ascii_char (lower_ascii c) = true.
Proof. ascii_cases c. Qed.

(** A character that went through [lower] and the first substitution and is
    not in a run is a slug character other than the hyphen. *)
Lemma kept_char c :
  is_upper c = false -> in_word_space_hyphen c = true ->
  in_space_underscore_hyphen c = false ->
  slug_char c = true /\ is_hyphen c = false.
Proof. ascii_cases c. Qed.

Lemma slug_char_fixed c :
  slug_char c = true ->
  lower_ascii c = c /\ is_space c = false /\ is_ascii_char c = true
  /\ in_word_space_hyphen c = true
  /\ in_space_underscore_hyphen c = is_hyphen c.
Proof. ascii_cases c. Qed.

Lemma Forall_lstrip (P : ascii -> Prop) l : Forall P l -> Forall P (lstrip l).
Proof.
  induction 1 as [|c l Hc Hl IH]; cbn [lstrip]; [constructor |].
  destruct (is_space c); [done | by constructor].
Qed.

Lemma Forall_strip (P : ascii -> Prop) l : Forall P l -> Forall P (strip l).
Proof.
  intros H. unfold strip.
  apply Forall_rev, Forall_lstrip, Forall_rev, Forall_lstrip, H.
Qed.

Lemma Forall_List_filter {A} (P : A -> Prop) (p : A -> bool) l :
  Forall P l -> Forall (fun x => P x /\ p x = true) (List.filter p l).
Proof.
  induction 1 as [|x l Hx Hl IH]; cbn [List.filter]; [constructor |].
  destruct (p x) eqn:Hp; [by constructor | done].
Qed.

Lemma List_filter_all {A} (p : A -> bool) l :
  Forall (fun x => p x = true) l -> List.filter p l = l.
Proof.
  induction 1 as [|x l Hx Hl IH]; cbn [List.filter]; [done |].
  by rewrite Hx, IH.
Qed.

Lemma hyphenate_slug_chars b l :
  Forall (fun c => is_upper c = false /\ in_word_space_hyphen c = true) l ->
  Forall (fun c => slug_char c = true) (hyphenate b l).
Proof.
  intros H. revert b. induction H as [|c l [Hu Hk] Hl IH]; intros b;
    cbn [hyphenate]; [constructor |].
  destruct (in_space_underscore_hyphen c) eqn:Hs.
  - destruct b; [apply IH | constructor; [done | apply IH]].
  - constructor; [| apply IH]. by apply kept_char.
Qed.

Lemma hyphenate_hyphens_apart b l :
  Forall (fun c => is_upper c = false /\ in_word_space_hyphen c = true) l ->
  hyphens_apart (hyphenate b l) = true
  /\ (b = true -> match hyphenate b l with
                  | d :: _ => is_hyphen d = false
                  | [] => True
                  end).
Proof.
  intros H. revert b. induction H as [|c l [Hu Hk] Hl IH]; intros b;
    cbn [hyphenate]; [done |].
  destruct (in_space_underscore_hyphen c) eqn:Hs.
  - destruct (IH true) as [Ha Hh]. specialize (Hh eq_refl).
    destruct b; [done |]. split; [| done].
    cbn [hyphens_apart]. rewrite Ha.
    destruct (hyphenate true l) as [|d l']; [done |]. by rewrite Hh.
  - destruct (kept_char c Hu Hk Hs) as [_ Hh]. destruct (IH false) as [Ha _].
    split; [| done]. cbn [hyphens_apart]. by rewrite Hh, Ha.
Qed.

(** The text before [hyphenate], in both versions. *)
Lemma before_hyphenate l :
  Forall (fun c => is_upper c = false /\ in_word_space_hyphen c = true)
    (remove_other (strip (map lower_ascii l))).
Proof.
  apply Forall_List_filter, Forall_strip, Forall_forall.
  intros c Hc. apply list_elem_of_fmap in Hc as (c' & -> & _).
  apply lower_ascii_not_upper.
Qed.

Lemma strip_is_ascii l :
  Forall (fun c => is_ascii_char c = true) l ->
  Forall (fun c => is_ascii_char c = true) (strip (map lower_ascii l)).
Proof.
  intros H. apply Forall_strip, Forall_forall. intros c Hc.
  apply list_elem_of_fmap in Hc as (c' & -> & Hc').
  apply lower_ascii_is_ascii. by eapply Forall_forall in H.
Qed.

(** The text before [hyphenate] in [build.py]. *)
Lemma before_hyphenate_build l :
  Forall (fun c => is_upper c = false /\ in_word_space_hyphen c = true)
    (remove_other (encode_ascii_ignore (strip (map lower_ascii l)))).
Proof.
  apply Forall_List_filter. unfold encode_ascii_ignore.
  apply (Forall_impl (fun c => is_upper c = false /\ is_ascii_char c = true));
    [| by intros c [Hc _]].
  apply (Forall_List_filter (fun c => is_upper c = false)).
  apply Forall_strip, Forall_forall.
  intros c Hc. apply list_elem_of_fmap in Hc as (c' & -> & _).
  apply lower_ascii_not_upper.
Qed.

(** The characters of a slug. *)
Lemma slugify_chars text :
  Forall (fun c => slug_char c = true) (list_ascii_of_string (slugify text))
  /\ hyphens_apart (list_ascii_of_string (slugify text)) = true.
Proof.
  unfold slugify. rewrite list_ascii_of_string_of_list_ascii. split.
  - apply hyphenate_slug_chars, before_hyphenate_build.
  - apply hyphenate_hyphens_apart, before_hyphenate_build.
Qed.

Lemma organize_images_slugify text :
  is_ascii_text text -> organize_images.slugify text = slugify text.
Proof.
  intros H. unfold organize_images.slugify, slugify, encode_ascii_ignore.
  by rewrite List_filter_all by by apply strip_is_ascii.
Qed.

(** The three copies of [slugify] agree on ASCII text: the step that only
    [build.py] has drops nothing there. *)
Theorem slugify_copies_agree text :
  is_ascii_text text ->
  debug_slug.slugify text = slugify text
  /\ organize_images.slugify text = slugify text.
Proof.
  intros H. unfold debug_slug.slugify, organize_images.slugify, slugify.
  unfold encode_ascii_ignore. rewrite List_filter_all by by apply strip_is_ascii.
  done.
Qed.

Lemma slugify_copies_agree_witness :
  is_ascii_text "GISBERT PEREZ, ORIOL"
  /\ debug_slug.slugify "GISBERT PEREZ, ORIOL" = slugify "GISBERT PEREZ, ORIOL"
  /\ organize_images.slugify "GISBERT PEREZ, ORIOL" = slugify "GISBERT PEREZ, ORIOL".
Proof.
  assert (H : is_ascii_text "GISBERT PEREZ, ORIOL").
  { unfold is_ascii_text. simpl. repeat constructor. }
  split; [exact H |]. exact (slugify_copies_agree _ H).
Defined.

(** A slug of ASCII text is made of lower-case letters, digits and hyphens,
    and has no two hyphens side by side. *)
Theorem slugify_alphabet text :
  is_ascii_text text ->
  Forall (fun c => slug_char c = true) (list_ascii_of_string (slugify text))
  /\ hyphens_apart (list_ascii_of_string (slugify text)) = true.
Proof.
  intros H. unfold slugify, encode_ascii_ignore.
  rewrite List_filter_all by by apply strip_is_ascii.
  rewrite list_ascii_of_string_of_list_ascii. split.
  - apply hyphenate_slug_chars, before_hyphenate.
  - apply hyphenate_hyphens_apart, before_hyphenate.
Qed.

Lemma slugify_alphabet_witness :
  is_ascii_text "RAS  JIMENEZ,_BLAI"
  /\ slugify "RAS  JIMENEZ,_BLAI" = "ras-jimenez-blai"
  /\ Forall (fun c => slug_char c = true)
       (list_ascii_of_string (slugify "RAS  JIMENEZ,_BLAI"))
  /\ hyphens_apart (list_ascii_of_string (slugify "RAS  JIMENEZ,_BLAI")) = true.
Proof.
  assert (H : is_ascii_text "RAS  JIMENEZ,_BLAI").
  { unfold is_ascii_text. simpl. repeat constructor. }
  split; [exact H |]. split; [reflexivity |]. exact (slugify_alphabet _ H).
Defined.

Lemma lstrip_fixed l :
  Forall (fun c => is_space c = false) l -> lstrip l = l.
Proof. destruct 1 as [|c l Hc Hl]; cbn [lstrip]; [done | by rewrite Hc]. Qed.

Lemma strip_fixed l :
  Forall (fun c => is_space c = false) l -> strip l = l.
Proof.
  intros H. unfold strip. rewrite (lstrip_fixed l H).
  rewrite lstrip_fixed by by apply Forall_rev. apply rev_involutive.
Qed.

Lemma hyphenate_fixed b l :
  Forall (fun c => slug_char c = true) l -> hyphens_apart l = true ->
  (b = true -> match l with d :: _ => is_hyphen d = false | [] => True end) ->
  hyphenate b l = l.
Proof.
  intros H. revert b. induction H as [|c l Hc Hl IH]; intros b Ha Hb;
    cbn [hyphenate]; [done |].
  destruct (slug_char_fixed c Hc) as (_ & _ & _ & _ & ->).
  cbn [hyphens_apart] in Ha. apply andb_true_iff in Ha as [Hcd Ha].
  destruct (is_hyphen c) eqn:Hh.
  - destruct b; [by specialize (Hb eq_refl) |].
    assert (c = "-"%char) as -> by by apply Ascii.eqb_eq.
    f_equal. apply IH; [done |]. intros _.
    destruct l as [|d l']; [done |]. simpl in Hcd. by destruct (is_hyphen d).
  - f_equal. by apply IH.
Qed.

(** A slug is its own slug. *)
Theorem slugify_idempotent text :
  is_ascii_text text -> slugify (slugify text) = slugify text.
Proof.
  intros H. destruct (slugify_chars text) as [Hc Ha].
  set (s := slugify text) in *. unfold slugify at 1.
  assert (Hfix : Forall (fun c => lower_ascii c = c /\ is_space c = false
                           /\ is_ascii_char c = true
                           /\ in_word_space_hyphen c = true)
                   (list_ascii_of_string s)).
  { eapply Forall_impl; [exact Hc |]. intros c Hs.
    destruct (slug_char_fixed c Hs) as (? & ? & ? & ? & _). done. }
  assert (Hl : map lower_ascii (list_ascii_of_string s) = list_ascii_of_string s).
  { clear -Hfix. induction Hfix as [|c l (Hc & _) _ IH]; [done |].
    cbn [map]. by rewrite Hc, IH. }
  rewrite Hl, strip_fixed
    by (eapply Forall_impl; [exact Hfix |]; by intros c (_ & ? & _)).
  unfold encode_ascii_ignore, remove_other.
  rewrite (List_filter_all is_ascii_char)
    by (eapply Forall_impl; [exact Hfix |]; by intros c (_ & _ & ? & ?)).
  rewrite (List_filter_all in_word_space_hyphen)
    by (eapply Forall_impl; [exact Hfix |]; by intros c (_ & _ & ? & ?)).
  rewrite hyphenate_fixed by done.
  apply string_of_list_ascii_of_string.
Qed.

Lemma slugify_idempotent_witness :
  is_ascii_text " Sanchez Laya, Pau "
  /\ slugify " Sanchez Laya, Pau " = "sanchez-laya-pau"
  /\ slugify (slugify " Sanchez Laya, Pau ") = slugify " Sanchez Laya, Pau ".
Proof.
  assert (H : is_ascii_text " Sanchez Laya, Pau ").
  { unfold is_ascii_text. simpl. repeat constructor. }
  split; [exact H |]. split; [reflexivity |]. exact (slugify_idempotent _ H).
Defined.

(** ** The picture of a player *)

Lemma slug_char_not_sep c : slug_char c = true -> Ascii.eqb c "/" = false.
Proof. ascii_cases c. Qed.

Lemma list_ascii_of_string_app s t :
  list_ascii_of_string (s +:+ t) = list_ascii_of_string s ++ list_ascii_of_string t.
Proof. induction s as [|c s IH]; simpl; [done | by rewrite IH]. Qed.

(** A file name made of a slug and of a text that does not begin with the
    separator is joined below the directory of the pictures. *)
Lemma picture_path (p_slug ext : string) :
  Forall (fun c => slug_char c = true) (list_ascii_of_string p_slug) ->
  starts_with_sep ext = false ->
  path_join ASSETS_DIR ["players"; p_slug +:+ ext]
  = "assets/players/" +:+ p_slug +:+ ext.
Proof.
  intros Hs He. unfold path_join. cbn [fold_left].
  change (join_step ASSETS_DIR "players") with "assets/players".
  unfold join_step.
  assert (Hn : starts_with_sep (p_slug +:+ ext) = false).
  { destruct p_slug as [|c s]; [exact He |]. simpl in *.
    apply Forall_cons in Hs as [Hc _]. by apply slug_char_not_sep. }
  rewrite Hn. reflexivity.
Qed.

Lemma image_exts_start ext : ext ∈ image_exts -> starts_with_sep ext = false.
Proof.
  intros H. apply list_elem_of_In in H. simpl in H.
  repeat (destruct H as [<- | H]; [reflexivity |]). destruct H.
Qed.

Lemma image_search_first path_exists p_slug exts :
  Forall (fun c => slug_char c = true) (list_ascii_of_string p_slug) ->
  exts ⊆ image_exts ->
  match image_search path_exists p_slug exts with
  | Some p =>
      path_exists p = true
      /\ exists i ext, exts !! i = Some ext
           /\ p = "assets/players/" +:+ p_slug +:+ ext
           /\ forall j ext', (j < i)%nat -> exts !! j = Some ext' ->
                path_exists ("assets/players/" +:+ p_slug +:+ ext') = false
  | None =>
      forall ext, ext ∈ exts ->
        path_exists ("assets/players/" +:+ p_slug +:+ ext) = false
  end.
Proof.
  intros Hs. induction exts as [|ext exts IH]; intros Hsub; cbn [image_search].
  - intros ext Hin. by apply elem_of_nil in Hin.
  - rewrite picture_path by (try done; apply image_exts_start, Hsub; by left).
    destruct (path_exists ("assets/players/" +:+ p_slug +:+ ext)) eqn:He.
    + split; [done |]. exists 0%nat, ext. split_and!; [done | done |].
      intros j ext' Hj. lia.
    + assert (Hsub' : exts ⊆ image_exts) by (intros x Hx; apply Hsub; by right).
      specialize (IH Hsub').
      destruct (image_search path_exists p_slug exts) as [p|].
      * destruct IH as (Hp & i & ext0 & Hi & -> & Hbefore). split; [done |].
        exists (S i), ext0. split_and!; [done | done |].
        intros [|j] ext' Hj Hl; [by injection Hl as <- |].
        apply (Hbefore j); [lia | done].
      * intros ext' [->|Hin]%elem_of_cons; [done | by apply IH].
Qed.

Lemma image_path_None path_exists p_slug :
  Forall (fun c => slug_char c = true) (list_ascii_of_string p_slug) ->
  image_path path_exists p_slug = None
  <-> forall ext, ext ∈ image_exts ->
        path_exists ("assets/players/" +:+ p_slug +:+ ext) = false.
Proof.
  intros Hc.
  pose proof (image_search_first path_exists p_slug image_exts Hc ltac:(done)) as Hs.
  unfold image_path. destruct (image_search _ _ _) as [p0|]; [| done].
  split; [done |]. intros Hno.
  destruct Hs as (Hp & i & ext & Hi & -> & _).
  rewrite Hno in Hp; [done |]. by eapply list_elem_of_lookup_2.
Qed.

(** The picture recorded for a player is a file that exists, under the first
    of the four extensions, in their order, for which one does; the path
    recorded is the path tested, because a slug never begins with the
    separator.  No picture is recorded exactly when no file exists under any
    of the four. *)
Theorem image_path_first_existing path_exists text :
  is_ascii_text text ->
  (forall p, image_path path_exists (slugify text) = Some p ->
     path_exists p = true
     /\ exists i ext, image_exts !! i = Some ext
          /\ p = "assets/players/" +:+ slugify text +:+ ext
          /\ forall j ext', (j < i)%nat -> image_exts !! j = Some ext' ->
               path_exists ("assets/players/" +:+ slugify text +:+ ext') = false)
  /\ (image_path path_exists (slugify text) = None
      <-> forall ext, ext ∈ image_exts ->
            path_exists ("assets/players/" +:+ slugify text +:+ ext) = false).
Proof.
  intros H. destruct (slugify_chars text) as [Hc _].
  pose proof (image_search_first path_exists (slugify text) image_exts Hc
                ltac:(done)) as Hs.
  unfold image_path. destruct (image_search _ _ _) as [p0|]; split.
  - by intros p [= <-].
  - split; [done |]. intros Hno.
    destruct Hs as (Hp & i & ext & Hi & -> & _).
    rewrite Hno in Hp; [done |]. by eapply list_elem_of_lookup_2.
  - done.
  - done.
Qed.

Lemma image_path_first_existing_witness :
  is_ascii_text "RAS JIMENEZ, BLAI"
  /\ image_path (String.eqb "assets/players/ras-jimenez-blai.jpg")
       (slugify "RAS JIMENEZ, BLAI")
     = Some "assets/players/ras-jimenez-blai.jpg"
  /\ String.eqb "assets/players/ras-jimenez-blai.jpg"
       "assets/players/ras-jimenez-blai.jpg" = true
  /\ exists i ext, image_exts !! i = Some ext
       /\ "assets/players/ras-jimenez-blai.jpg"
          = "assets/players/" +:+ slugify "RAS JIMENEZ, BLAI" +:+ ext
       /\ forall j ext', (j < i)%nat -> image_exts !! j = Some ext' ->
            String.eqb "assets/players/ras-jimenez-blai.jpg"
              ("assets/players/" +:+ slugify "RAS JIMENEZ, BLAI" +:+ ext') = false.
Proof.
  assert (H : is_ascii_text "RAS JIMENEZ, BLAI").
  { unfold is_ascii_text. simpl. repeat constructor. }
  assert (Hp : image_path (String.eqb "assets/players/ras-jimenez-blai.jpg")
                 (slugify "RAS JIMENEZ, BLAI")
               = Some "assets/players/ras-jimenez-blai.jpg") by reflexivity.
  split; [exact H |]. split; [exact Hp |].
  exact (proj1 (image_path_first_existing
                  (String.eqb "assets/players/ras-jimenez-blai.jpg")
                  "RAS JIMENEZ, BLAI" H) _ Hp).
Defined.

(** ** From [organize_images.py] to [build.py] *)

Lemma rfind_lt c p : -1 <= rfind c p < len p.
Proof.
  unfold len. induction p as [|d p IH]; cbn [rfind String.length]; [lia |].
  destruct (0 <=? rfind c p) eqn:Hi; [apply Z.leb_le in Hi; lia |].
  destruct (Ascii.eqb d c); lia.
Qed.

(** The slice from the last occurrence of a character begins with it. *)
Lemma slice_rfind c p :
  0 <= rfind c p ->
  exists rest, slice (rfind c p) (len p) p = String c rest.
Proof.
  unfold slice, len. induction p as [|d p IH]; cbn [rfind String.length]; [lia |].
  pose proof (rfind_lt c p) as Hlt. unfold len in Hlt.
  destruct (0 <=? rfind c p) eqn:Hi.
  - apply Z.leb_le in Hi. intros _. destruct (IH Hi) as [rest Hrest].
    exists rest. rewrite <- Hrest.
    replace (Z.to_nat (rfind c p + 1)) with (S (Z.to_nat (rfind c p))) by lia.
    cbn [substring]. f_equal. lia.
  - destruct (Ascii.eqb d c) eqn:Hd; [| lia]. intros _.
    apply Ascii.eqb_eq in Hd as ->.
    replace (Z.to_nat (Z.of_nat (S (String.length p)) - 0))
      with (S (String.length p)) by lia.
    cbn [Z.to_nat substring]. by eexists.
Qed.

Lemma splitext_ext_start p : starts_with_sep (splitext p).2 = false.
Proof.
  unfold splitext.
  destruct (_ && _) eqn:Hc; [| reflexivity]. cbn [snd].
  apply andb_true_iff in Hc as [Hlt _]. apply Z.ltb_lt in Hlt.
  pose proof (rfind_lt "/" p) as Hs.
  destruct (slice_rfind "." p) as [rest ->]; [lia | reflexivity].
Qed.

Lemma append_cancel_l (s t u : string) : s +:+ t = s +:+ u -> t = u.
Proof. induction s as [|c s IH]; simpl; [done |]. intros [= H]. by apply IH. Qed.

(** Where a picture goes and whether the build finds it.  The copy of a
    picture in a folder with an ASCII name is written below the directory of
    the pictures, under the slug of the folder's name followed by the file's
    own extension.  When that extension is one of the four that the build
    looks for, a build run after the copy records a picture for the player
    named like the folder.  When it is not (the test on the name ignores
    case, the extension is kept as it is written), the copy is none of the
    four files the build looks for: with no other file there the build
    records no picture. *)
Theorem organized_picture root file src dest :
  copy_of root file = Some (src, dest) ->
  is_ascii_text (basename root) ->
  dest = "assets/players/" +:+ slugify (basename root) +:+ (splitext file).2
  /\ ((splitext file).2 ∈ image_exts ->
        forall path_exists, path_exists dest = true ->
          is_Some (image_path path_exists (slugify (basename root))))
  /\ (((splitext file).2 ∉ image_exts) ->
        forall path_exists, (forall p, path_exists p = true -> p = dest) ->
          image_path path_exists (slugify (basename root)) = None).
Proof.
  intros Hcopy Hascii. unfold copy_of in Hcopy.
  destruct (is_picture file); [| discriminate].
  destruct (String.eqb root SOURCE_DIR); [discriminate |].
  injection Hcopy as _ <-.
  rewrite (organize_images_slugify _ Hascii).
  destruct (slugify_chars (basename root)) as [Hc _].
  assert (Hdest : path_join DEST_DIR [slugify (basename root) +:+ (splitext file).2]
                  = "assets/players/" +:+ slugify (basename root)
                    +:+ (splitext file).2).
  { exact (picture_path _ _ Hc (splitext_ext_start file)). }
  unfold path_join in Hdest. cbn [fold_left] in Hdest.
  rewrite Hdest. split; [done |].
  split.
  - intros Hext path_exists He.
    destruct (image_path path_exists (slugify (basename root))) as [p|] eqn:Hp;
      [by eexists |].
    rewrite (proj1 (image_path_None _ _ Hc) Hp _ Hext) in He. discriminate.
  - intros Hext path_exists Honly.
    apply (image_path_None _ _ Hc). intros ext' Hin.
    destruct (path_exists _) eqn:He; [| done].
    apply Honly in He. apply append_cancel_l, append_cancel_l in He.
    by subst ext'.
Qed.

Example path_examples :
  splitext "foto.png" = ("foto", ".png")
  /\ splitext "foto.final.JPG" = ("foto.final", ".JPG")
  /\ splitext ".png" = (".png", EmptyString)
  /\ splitext "..png" = ("..png", EmptyString)
  /\ splitext "a.b/c" = ("a.b/c", EmptyString)
  /\ basename "images/RAS JIMENEZ, BLAI" = "RAS JIMENEZ, BLAI"
  /\ basename "images/" = EmptyString
  /\ basename "images" = "images"
  /\ endswith "foto.png" ".png" = true
  /\ endswith "png" ".png" = false
  /\ is_picture "Foto.PNG" = true
  /\ is_picture "notes.txt" = false
  /\ path_join "images/x" ["foto.png"] = "images/x/foto.png"
  /\ path_join "images/" ["foto.png"] = "images/foto.png"
  /\ path_join "images" ["/foto.png"] = "/foto.png".
Proof. repeat split; vm_compute; reflexivity. Qed.

Lemma organized_picture_witness :
  copy_of "images/RAS JIMENEZ, BLAI" "foto.PNG"
  = Some ("images/RAS JIMENEZ, BLAI/foto.PNG", "assets/players/ras-jimenez-blai.PNG")
  /\ is_ascii_text (basename "images/RAS JIMENEZ, BLAI")
  /\ image_path (String.eqb "assets/players/ras-jimenez-blai.PNG")
       (slugify (basename "images/RAS JIMENEZ, BLAI")) = None.
Proof.
  assert (Hc : copy_of "images/RAS JIMENEZ, BLAI" "foto.PNG"
               = Some ("images/RAS JIMENEZ, BLAI/foto.PNG",
                       "assets/players/ras-jimenez-blai.PNG"))
    by (vm_compute; reflexivity).
  assert (Ha : is_ascii_text (basename "images/RAS JIMENEZ, BLAI")).
  { unfold is_ascii_text. vm_compute. repeat constructor. }
  split; [exact Hc |]. split; [exact Ha |].
  refine (proj2 (proj2 (organized_picture _ _ _ _ Hc Ha)) _ _ _).
  - apply (bool_decide_unpack _). by vm_compute.
  - intros p Hp. apply String.eqb_eq in Hp. by symmetry.
Defined.

Lemma leaderboard_labels_in_order_witness :
  leaderboard_of cards_players = Ok cards_leaderboard
  /\ sublist (map label cards_leaderboard) leaderboard_labels
  /\ (length cards_leaderboard <= 8)%nat
  /\ NoDup (map label cards_leaderboard).
Proof.
  assert (Hl : leaderboard_of cards_players = Ok cards_leaderboard)
    by (vm_compute; reflexivity).
  split; [exact Hl |]. exact (leaderboard_labels_in_order _ _ Hl).
Defined.

(** ** The goalkeepers *)

(** The goalkeepers handed to the players page are the rows of the players
    frame whose name is one of the three listed names, in the order of the
    frame. *)
Theorem goalkeepers_are_the_listed_players dp dw st pg :
  render_pages dp dw st = Ok pg ->
  sublist (goalkeepers_data pg) (rows dp)
  /\ forall r, r ∈ goalkeepers_data pg
       <-> r ∈ rows dp /\ exists s, cell r "Jugador" = VStr s /\ s ∈ gk_names.
Proof.
  intros H. apply render_pages_Ok in H as (gk & cd & lb & Hgk & _ & _ & ->).
  apply filter_is_in_Ok in Hgk as (_ & _ & _ & Hrows). cbn [goalkeepers_data].
  rewrite Hrows. split.
  - clear. induction (rows dp) as [|r l IH]; cbn [List.filter]; [done |].
    destruct (is_in gk_names (cell r "Jugador")); by constructor.
  - intros r. rewrite elem_of_List_filter. unfold is_in. split.
    + intros [Hr Hin]. split; [done |].
      destruct (cell r "Jugador") as [| | |s]; try done.
      exists s. split; [done |]. by apply bool_decide_eq_true in Hin.
    + intros [Hr (s & -> & Hs)]. split; [done |]. by apply bool_decide_eq_true.
Qed.

Lemma goalkeepers_are_the_listed_players_witness :
  exists pg,
    render_pages squad_players scenario_weeks (mkStats 2 1 1 0 4 2) = Ok pg
    /\ sublist (goalkeepers_data pg) (rows squad_players)
    /\ map (fun r => cell r "Jugador") (goalkeepers_data pg)
       = [VStr "RAS JIMENEZ, BLAI"].
Proof.
  assert (Hok : is_ok (render_pages squad_players scenario_weeks (mkStats 2 1 1 0 4 2))
                = true) by (vm_compute; reflexivity).
  destruct (render_pages squad_players scenario_weeks (mkStats 2 1 1 0 4 2))
    as [pg|] eqn:Hpg; [| discriminate].
  exists pg. split; [reflexivity |]. split.
  - exact (proj1 (goalkeepers_are_the_listed_players _ _ _ _ Hpg)).
  - revert Hpg. vm_compute. by intros [= <-].
Defined.

(** ** The errors of the season aggregator and of the chart *)

Lemma require_column_eq {R} c (df : DataFrame R) :
  require_column c df
  = if bool_decide (c ∈ columns df) then Ok tt else Raise (ColumnNotFoundError c).
Proof. reflexivity. Qed.

Ltac by_cases :=
  let H := fresh in
  intros H; destruct_or?; destruct_and?; simplify_eq; done.

Ltac column_case c H :=
  match goal with
  | |- context [bool_decide (c ∈ ?cols)] =>
      destruct (decide (c ∈ cols)) as [H|H];
      [ rewrite (bool_decide_eq_true_2 _ H) | rewrite (bool_decide_eq_false_2 _ H) ];
      cbn [mbind result_bind]
  end.


Lemma require_keys_raises {R} keys (df : DataFrame R) e :
  require_keys keys df = Raise e
  <-> rows df <> []
      /\ exists ks k ks', keys = ks ++ k :: ks'
           /\ ks ⊆ columns df /\ (k ∉ columns df) /\ e = KeyError k.
Proof.
  unfold require_keys, has_column. destruct (rows df) as [|r l].
  { split; [discriminate | by intros [? _]]. }
  split.
  - intros H. split; [done |]. induction keys as [|k keys IH]; [discriminate |].
    cbn [foldr] in H. destruct (decide (k ∈ columns df)) as [Hk|Hk].
    + rewrite (bool_decide_eq_true_2 _ Hk) in H.
      destruct (IH H) as (ks & k' & ks' & -> & Hsub & Hk' & ->).
      exists (k :: ks), k', ks'. split_and!; [done | | done..].
      intros x [->|Hx]%elem_of_cons; [done | by apply Hsub].
    + rewrite (bool_decide_eq_false_2 _ Hk) in H. injection H as <-.
      exists [], k, keys. split_and!; [done | | done..].
      intros x Hx. by apply elem_of_nil in Hx.
  - intros (_ & ks & k & ks' & -> & Hsub & Hk & ->).
    induction ks as [|k0 ks IH]; cbn [app foldr].
    + by rewrite (bool_decide_eq_false_2 _ Hk).
    + rewrite bool_decide_eq_true_2 by (apply Hsub; by left).
      apply IH. intros x Hx. apply Hsub. by right.
Qed.

(** The chart raises when the fixture column is absent and, on a table with
    a row, at the first of the five keys of the loop that the rows do not
    have; it returns otherwise. *)
Theorem chart_data_raises df e :
  chart_data df = Raise e
  <-> (("Jornada" ∉ columns df) /\ e = ColumnNotFoundError "Jornada")
      \/ ("Jornada" ∈ columns df /\ rows df <> []
          /\ exists ks k ks',
               ["vs."; "Resultat"; "Marcador Local"; "Marcador Visitant"; "Posició"]
               = ks ++ k :: ks'
               /\ ks ⊆ columns df /\ (k ∉ columns df) /\ e = KeyError k).
Proof.
  unfold chart_data, sort_by_jornada. rewrite require_column_eq.
  column_case "Jornada" Hj; [| split; [intros [= <-]; by left | by_cases]].
  cbn [mret result_ret mbind result_bind].
  set (keys := ["vs."; "Resultat"; "Marcador Local"; "Marcador Visitant"; "Posició"]).
  set (sorted := mkDF (columns df) (merge_sort jornada_le (rows df))).
  assert (Hrows : rows sorted <> [] <-> rows df <> []).
  { unfold sorted. cbn [rows]. split; intros H Hnil; apply H.
    - by rewrite Hnil.
    - by apply merge_sort_nil in Hnil. }
  pose proof (require_keys_raises keys sorted e) as Hk.
  change (columns sorted) with (columns df) in Hk. rewrite Hrows in Hk.
  destruct (require_keys keys sorted) as [[]|e'] eqn:Hreq.
  - split; [discriminate |].
    intros [[Hn _]|(_ & Hr)]; [done |]. by apply Hk in Hr.
  - split.
    + intros [= ->]. right. split; [done |]. by apply Hk.
    + intros [[Hn _]|(_ & Hr)]; [done |]. apply Hk in Hr. by injection Hr as ->.
Qed.

(** ** The loader keeps the order of the file *)

Lemma List_filter_map {A B} (p : B -> bool) (f : A -> B) (l : list A) :
  List.filter p (map f l) = map f (List.filter (fun x => p (f x)) l).
Proof.
  induction l as [|a l IH]; cbn [map List.filter]; [done |].
  destruct (p (f a)); cbn [map]; by rewrite IH.
Qed.

Lemma List_filter_sublist {A} (p : A -> bool) (l : list A) :
  sublist (List.filter p l) l.
Proof.
  induction l as [|a l IH]; cbn [List.filter]; [done |].
  destruct (p a); by constructor.
Qed.

(** The players the loader returns are rows of the file, each cast and
    rounded on its own, in the order of the file: no row is added, moved or
    merged with another. *)
Theorem loader_keeps_file_order t wf :
  "Jugador" ∈ columns t -> "Partits" ∈ columns t ->
  exists kept,
    sublist kept (rows t)
    /\ rows (load_data (Some t) wf).1 = map (loaded_row (columns t)) kept
    /\ (length (rows (load_data (Some t) wf).1) <= length (rows t))%nat.
Proof.
  intros Hj Hp. rewrite loaded_players_rows by done. unfold loaded_rows.
  rewrite (List_filter_map name_ok), map_map.
  rewrite (List_filter_map partits_ok), map_map.
  set (kept := List.filter _ (List.filter _ (rows t))).
  assert (Hs : sublist kept (rows t)) by (etrans; apply List_filter_sublist).
  exists kept. split; [done |]. split; [reflexivity |].
  rewrite length_map. by apply sublist_length.
Qed.

Lemma loader_keeps_file_order_witness :
  "Jugador" ∈ columns cards_file /\ "Partits" ∈ columns cards_file
  /\ exists kept,
       sublist kept (rows cards_file)
       /\ rows (load_data (Some cards_file) None).1
          = map (loaded_row (columns cards_file)) kept
       /\ (length (rows (load_data (Some cards_file) None).1)
           <= length (rows cards_file))%nat.
Proof.
  assert (Hj : "Jugador" ∈ columns cards_file) by (unfold cards_file; in_columns).
  assert (Hp : "Partits" ∈ columns cards_file) by (unfold cards_file; in_columns).
  split; [exact Hj |]. split; [exact Hp |].
  exact (loader_keeps_file_order cards_file None Hj Hp).
Defined.

(** ** The win rate shown *)

Lemma top_win_rate_entry df e :
  top_win_rate df = Ok (Some e) ->
  exists r, is_top df "Win Rate" r
    /\ e = match cell r "Win Rate" with
           | VInt z =>
               mkEntry (cell r "Jugador") (VInt (z * 100)) "%" "Major % Victòria"
           | VFloat f =>
               mkEntry (cell r "Jugador") (VFloat (f64_mul f (f64_of_Z 100))) "%"
                 "Major % Victòria"
           | v => mkEntry (cell r "Jugador") v no_suffix "Major % Victòria"
           end.
Proof.
  unfold top_win_rate. intros H.
  invert_bind H. apply df_filter_Ok in Hstep as (Hcol & Hcols & Hrows).
  destruct (0 <? height a) eqn:Hh; [| discriminate].
  unfold sort_desc in H. invert_bind H. invert_bind Hstep.
  simpl in Hstep. injection Hstep as <-. simpl in H.
  destruct (merge_sort (desc_by "Win Rate") (rows a)) as [|top rest] eqn:Hs;
    [discriminate |].
  invert_bind H. rewrite Hrows in Hs. apply top_of_filter in Hs.
  apply row_get_Ok in Hstep. exists top. split; [done |]. rewrite <- Hstep.
  destruct a0; invert_bind H; invert_bind H; simpl in H; injection H as <-;
    repeat match goal with
           | Hx : row_get _ _ _ = Ok _ |- _ => apply row_get_Ok in Hx
           end;
    by subst.
Qed.

(** Metric 6 on the loaded players.  The entry for the win rate names a
    player whose rate is not null and stands first in the descending sort
    order, where NaN is above every number: when the rate is not NaN, it is
    a number and every rate that is not null is a number at most it.  The
    entry shows a hundred times the rate as the loader left it, that is,
    rounded to two decimals before it is made a percentage. *)
Theorem win_rate_entry t wf lb e :
  leaderboard_of (load_data (Some t) wf).1 = Ok lb ->
  e ∈ lb -> label e = "Major % Victòria" ->
  exists r f,
    is_top (load_data (Some t) wf).1 "Win Rate" r
    /\ cell r "Win Rate" = VFloat (f64_round2 f)
    /\ e = mkEntry (cell r "Jugador")
             (VFloat (f64_mul (f64_round2 f) (f64_of_Z 100))) "%" "Major % Victòria"
    /\ (is_nan (f64_round2 f) = false ->
        forall r', r' ∈ rows (load_data (Some t) wf).1 ->
          is_not_null (cell r' "Win Rate") = true ->
          value_le (cell r' "Win Rate") (VFloat (f64_round2 f))).
Proof.
  unfold leaderboard_of. intros Hlb He Hl.
  apply with_label_leaderboard in Hlb
    as (o1 & o2 & o3 & o4 & o5 & o6 & _ & _ & _ & _ & _ & H6 & _ & _ & _ & _ & _ & E6).
  assert (Hin : e ∈ option_list o6).
  { rewrite <- E6. unfold with_label. apply elem_of_List_filter. split; [done |].
    rewrite Hl. apply String.eqb_refl. }
  destruct o6 as [x|]; [| by apply elem_of_nil in Hin].
  apply list_elem_of_singleton in Hin as ->.
  pose proof H6 as Hcol. unfold top_win_rate in Hcol.
  apply bind_Ok in Hcol as (a & Hcol & _). apply df_filter_Ok in Hcol as (Hcol & _).
  apply with_url_columns_inv in Hcol; [| done].
  apply top_win_rate_entry in H6 as (r' & Htop' & ->).
  destruct (with_url_top _ "Win Rate" r' ltac:(done) Htop') as (r & Htop & Hk).
  rewrite !Hk by done.
  pose proof Htop as (Hr & Hnn & Hmax).
  destruct (decide ("Jugador" ∈ columns t /\ "Partits" ∈ columns t)) as [[Hj Hp]|Hno];
    [| rewrite loaded_players_empty in Hr by done; by apply elem_of_nil in Hr].
  rewrite loaded_players_columns in Hcol by done.
  apply loaded_row_source in Hr as (r0 & _ & _ & _ & Hcells).
  pose proof (Hcells "Win Rate") as Hrate.
  rewrite loaded_cell_float in Hrate
    by (try done; unfold numeric_cols_float; in_columns).
  destruct (comma_float_cases (null_token ["#DIV/0!"] (cell r0 "Win Rate")))
    as [Hv|[f Hv]]; rewrite Hv in Hrate; cbn [round_cell] in Hrate;
    [by rewrite Hrate in Hnn |].
  exists r, f. rewrite Hrate in *. split_and!; [done | done | done |].
  intros Hnan r1 Hr1 Hnn1. apply scalar_leb_value; [done | | by apply Hmax].
  destruct (f64_round2 f) as [| [] | |]; try discriminate Hnan; by eexists.
Qed.

Lemma win_rate_entry_witness :
  leaderboard_of (load_data (Some cards_file) None).1 = Ok cards_leaderboard
  /\ cards_win_rate ∈ cards_leaderboard
  /\ label cards_win_rate = "Major % Victòria"
  /\ exists r f,
       is_top (load_data (Some cards_file) None).1 "Win Rate" r
       /\ cell r "Win Rate" = VFloat (f64_round2 f)
       /\ cards_win_rate
          = mkEntry (cell r "Jugador")
              (VFloat (f64_mul (f64_round2 f) (f64_of_Z 100))) "%" "Major % Victòria"
       /\ (is_nan (f64_round2 f) = false ->
           forall r', r' ∈ rows (load_data (Some cards_file) None).1 ->
             is_not_null (cell r' "Win Rate") = true ->
             value_le (cell r' "Win Rate") (VFloat (f64_round2 f))).
Proof.
  assert (Hl : leaderboard_of (load_data (Some cards_file) None).1
               = Ok cards_leaderboard) by (vm_compute; reflexivity).
  assert (Hin : cards_win_rate ∈ cards_leaderboard).
  { unfold cards_leaderboard, cards_win_rate.
    repeat first [apply list_elem_of_here | apply list_elem_of_further]. }
  assert (Hlab : label cards_win_rate = "Major % Victòria") by reflexivity.
  split; [exact Hl |]. split; [exact Hin |]. split; [exact Hlab |].
  exact (win_rate_entry cards_file None cards_leaderboard cards_win_rate Hl Hin Hlab).
Defined.

(** ** The page of a player *)

Lemma no_sep_append s t :
  Forall (fun c => Ascii.eqb c "/" = false) (list_ascii_of_string s) ->
  Forall (fun c => Ascii.eqb c "/" = false) (list_ascii_of_string t) ->
  Forall (fun c => Ascii.eqb c "/" = false) (list_ascii_of_string (s +:+ t)).
Proof. intros Hs Ht. rewrite list_ascii_of_string_app. by apply Forall_app. Qed.

(** The page of a player is written in the output directory itself: the
    file name, made of the slug, has no separator, whatever the name of the
    player holds, and the path is the directory, a separator and the file
    name. *)
Theorem player_page_in_output_dir text :
  is_ascii_text text ->
  player_page_path text = "docs/" +:+ player_filename text
  /\ Forall (fun c => Ascii.eqb c "/" = false)
       (list_ascii_of_string (player_filename text)).
Proof.
  intros _. split; [reflexivity |].
  unfold player_filename. apply no_sep_append; [by repeat constructor |].
  apply no_sep_append; [| by repeat constructor].
  destruct (slugify_chars text) as [Hc _].
  eapply Forall_impl; [exact Hc |]. apply slug_char_not_sep.
Qed.

Lemma player_page_in_output_dir_witness :
  is_ascii_text "../../etc/passwd"
  /\ player_page_path "../../etc/passwd" = "docs/player_etcpasswd.html"
  /\ player_page_path "../../etc/passwd"
     = "docs/" +:+ player_filename "../../etc/passwd"
  /\ Forall (fun c => Ascii.eqb c "/" = false)
       (list_ascii_of_string (player_filename "../../etc/passwd")).
Proof.
  assert (H : is_ascii_text "../../etc/passwd").
  { unfold is_ascii_text. simpl. repeat constructor. }
  split; [exact H |]. split; [reflexivity |].
  exact (player_page_in_output_dir _ H).
Defined.
